(** * Loan origination: orchestrator state machine and decision engine

    A shallow embedding of the Python sources of the loan-origination
    system (utils/emi_calculator.py, services/mock_data.py,
    agents/sales_agent.py, agents/verification_agent.py,
    agents/underwriting_agent.py, agents/base_agent.py,
    agents/master_agent.py, services/state_manager.py,
    services/audit_logger.py) and the properties of it that are stated in
    the natural-language specification.

    Modelling conventions.
    - Python [int] is [Z].
    - Python [float] is modelled by the exact rational it denotes ([Q]):
      [+ - * /] are exact, comparisons are the rational ones, and
      [round(x, 2)] is rounding of the exact value to hundredths, ties to
      even.  Overflow, NaN and the rounding error of binary64 are outside
      the model.  The EMI function is given a second time with the
      arithmetic of the machine as a parameter ([calculate_emi_with]).
    - Python [str] is [string] over ASCII; the character predicates
      ([strip], [upper], [lower], [isupper], [\d], [[A-Z]]) are the
      ASCII ones, and what is proved of string-processing code is stated
      for ASCII input ([is_ascii]).
    - A Python exception is a value of [PyExn]; fallible code returns
      [Result].
    - Files written by the state manager and the audit logger are the
      fields of [World]; time stamps and durations are left out. *)

From Stdlib Require Import ZArith QArith Qminmax Qpower String Ascii List Lia Lqa Bool.
From stdpp Require Import base gmap strings list.

Local Open Scope string_scope.
Local Open Scope Z_scope.

(** ** Python primitives *)

Module Py.

Inductive ExnClass : Type :=
| ValueError
| ZeroDivisionError
| TypeError
| AttributeError
| OverflowError
| OSError.

(** An exception object: its class and [str(e)]. *)
Record PyExn : Type := mkExn { exn_class : ExnClass; exn_text : string }.

Inductive Result (A : Type) : Type :=
| Ok (a : A)
| Raise (e : PyExn).
Arguments Ok {A} a.
Arguments Raise {A} e.

Definition bind {A B : Type} (r : Result A) (k : A -> Result B) : Result B :=
  match r with
  | Ok a => k a
  | Raise e => Raise e
  end.

Definition is_ok {A : Type} (r : Result A) : bool :=
  match r with Ok _ => true | Raise _ => false end.

(** Rational comparisons as booleans. *)
Definition Qlt_bool (x y : Q) : bool := negb (Qle_bool y x).
Definition Qgt_bool (x y : Q) : bool := Qlt_bool y x.
Definition Qge_bool (x y : Q) : bool := Qle_bool y x.

(** [max(a, b)] and [min(a, b)] of Python return the first argument
    unless the second is strictly larger (smaller). *)
Definition py_max (a b : Q) : Q := if Qgt_bool b a then b else a.
Definition py_min (a b : Q) : Q := if Qlt_bool b a then b else a.

(** Nearest integer, ties to even. *)
Definition round_half_even (x : Q) : Z :=
  let n := Qnum x in
  let d := Z.pos (Qden x) in
  let q := n / d in
  let r := n mod d in
  match 2 * r ?= d with
  | Lt => q
  | Gt => q + 1
  | Eq => if Z.even q then q else q + 1
  end.

(** [round(x, 2)]. *)
Definition round2 (x : Q) : Q := (round_half_even (x * 100) # 100)%Q.

(** [a / b] on floats raises on a zero divisor. *)
Definition py_div (a b : Q) : Result Q :=
  if Qeq_bool b 0
  then Raise (mkExn ZeroDivisionError "float division by zero")
  else Ok (a / b)%Q.

(** [b ** n] for a float base and an int exponent. *)
Definition py_pow (b : Q) (n : Z) : Result Q :=
  if Qeq_bool b 0 && (n <? 0)
  then Raise (mkExn ZeroDivisionError "0.0 cannot be raised to a negative power")
  else Ok (Qpower b n).

(** *** Strings
    A [str] is modelled by a [string] over the code points below 128,
    the alphabet in which the messages, the identifiers and the registry
    of the repository are written; [is_ascii] says that a string lies in
    it.  On this alphabet the functions below are the methods of [str]
    and the character classes of [re].  Other code points, on which
    [str.strip], [str.upper], [str.lower], [str.isupper] and the class
    of digits of [re] do more than on these, are not modelled: what is
    proved of the string-processing code is stated for [is_ascii]
    input. *)

Definition nl : string := String (ascii_of_nat 10) EmptyString.

Definition code (c : ascii) : nat := nat_of_ascii c.

Definition is_ascii_char (c : ascii) : bool := (code c <? 128)%nat.

Fixpoint is_ascii (s : string) : bool :=
  match s with
  | EmptyString => true
  | String c s' => is_ascii_char c && is_ascii s'
  end.

(** [str.isspace] on one ASCII character. *)
Definition is_space (c : ascii) : bool :=
  let n := code c in
  ((9 <=? n) && (n <=? 13) || (28 <=? n) && (n <=? 32))%nat.

Definition is_upper (c : ascii) : bool := ((65 <=? code c) && (code c <=? 90))%nat.
Definition is_lower (c : ascii) : bool := ((97 <=? code c) && (code c <=? 122))%nat.
Definition is_digit (c : ascii) : bool := ((48 <=? code c) && (code c <=? 57))%nat.

Definition upper_char (c : ascii) : ascii :=
  if is_lower c then ascii_of_nat (code c - 32) else c.
Definition lower_char (c : ascii) : ascii :=
  if is_upper c then ascii_of_nat (code c + 32) else c.

Fixpoint map_string (f : ascii -> ascii) (s : string) : string :=
  match s with
  | EmptyString => EmptyString
  | String c s' => String (f c) (map_string f s')
  end.

Definition upper (s : string) : string := map_string upper_char s.
Definition lower (s : string) : string := map_string lower_char s.

Fixpoint lstrip (s : string) : string :=
  match s with
  | EmptyString => EmptyString
  | String c s' => if is_space c then lstrip s' else s
  end.

Definition rev_string (s : string) : string :=
  string_of_list_ascii (List.rev (list_ascii_of_string s)).

Definition rstrip (s : string) : string := rev_string (lstrip (rev_string s)).

Definition strip (s : string) : string := rstrip (lstrip s).

(** [needle in hay]. *)
Fixpoint contains (needle hay : string) : bool :=
  match hay with
  | EmptyString => String.prefix needle EmptyString
  | String _ hay' => String.prefix needle hay || contains needle hay'
  end.

(** [str.isupper]: some cased character, and no lower-case one. *)
Fixpoint any_char (p : ascii -> bool) (s : string) : bool :=
  match s with
  | EmptyString => false
  | String c s' => p c || any_char p s'
  end.

Definition isupper (s : string) : bool :=
  any_char is_upper s && negb (any_char is_lower s).

(** [str.split()]: the maximal runs of non-space characters. *)
Fixpoint split_aux (cur : string) (s : string) : list string :=
  match s with
  | EmptyString => if String.eqb cur "" then [] else [rev_string cur]
  | String c s' =>
      if is_space c
      then (if String.eqb cur "" then split_aux "" s' else rev_string cur :: split_aux "" s')
      else split_aux (String c cur) s'
  end.

Definition split (s : string) : list string := split_aux "" s.

(** [sep.join(parts)]. *)
Fixpoint join (sep : string) (parts : list string) : string :=
  match parts with
  | [] => ""
  | [p] => p
  | p :: rest => p ++ sep ++ join sep rest
  end.

(** [re.findall] with the pattern of [_get_mid_rate]: a run of digits,
    then at most one dot, then a run of digits; scanned left to right. *)
Inductive NumScan : Type :=
| Outside
| InInt (acc : string)
| InFrac (acc : string).

Fixpoint findall_numbers_aux (st : NumScan) (s : string) : list string :=
  match s with
  | EmptyString =>
      match st with
      | Outside => []
      | InInt acc | InFrac acc => [rev_string acc]
      end
  | String c s' =>
      match st with
      | Outside =>
          if is_digit c then findall_numbers_aux (InInt (String c "")) s'
          else findall_numbers_aux Outside s'
      | InInt acc =>
          if is_digit c then findall_numbers_aux (InInt (String c acc)) s'
          else if Ascii.eqb c "."%char then findall_numbers_aux (InFrac (String c acc)) s'
          else rev_string acc :: findall_numbers_aux Outside s'
      | InFrac acc =>
          if is_digit c then findall_numbers_aux (InFrac (String c acc)) s'
          else rev_string acc :: findall_numbers_aux Outside s'
      end
  end.

Definition findall_numbers (s : string) : list string :=
  findall_numbers_aux Outside s.

(** [float(tok)] for a token of [findall_numbers]: digits, with or
    without a fractional part. *)
Fixpoint float_of_digits (int_acc : Z) (scale : positive) (in_frac : bool) (s : string) : Q :=
  match s with
  | EmptyString => (int_acc # scale)%Q
  | String c s' =>
      if is_digit c then
        float_of_digits (10 * int_acc + Z.of_nat (code c - 48))
                        (if in_frac then 10 * scale else scale) in_frac s'
      else float_of_digits int_acc scale true s'
  end.

Definition float_of_string (s : string) : Q := float_of_digits 0 1 false s.

End Py.
Import Py.

Notation "'let*' x ':=' r 'in' k" := (Py.bind r (fun x => k))
  (at level 10, x name, r at level 100, k at level 200).

(** ** utils/emi_calculator.py *)

Module EmiCalculator.

(** The function over exact rationals: the idealisation of the
    floating-point computation.  The function with the arithmetic of
    the machine left open is [calculate_emi_with] below. *)
Definition calculate_emi (principal annual_rate : Q) (tenure_months : Z) : Result Q :=
  if tenure_months =? 0 then Ok 0%Q
  else
    let monthly_rate := (annual_rate / (12 * 100))%Q in
    if Qeq_bool monthly_rate 0 then
      Ok (principal / inject_Z tenure_months)%Q
    else
      let* num_pow := py_pow (1 + monthly_rate)%Q tenure_months in
      let* den_pow := py_pow (1 + monthly_rate)%Q tenure_months in
      let* emi := py_div (principal * monthly_rate * num_pow)%Q (den_pow - 1)%Q in
      Ok (round2 emi).

(** The function as the interpreter runs it.  The arithmetic of [float]
    is that of the machine and is a parameter: literals; the conversion
    of an int, which raises OverflowError when the int is out of range;
    sum, difference, product and quotient, the quotient being taken of
    a divisor that is not zero; the power with an int exponent, which
    raises when the exponent or the result is out of range or the power
    is not defined; the test [x == 0]; and [round(x, 2)].  Principal and
    rate are floats, as the signature has them.  [calculate_emi] above is this function
    over the exact rationals, where nothing overflows and nothing is
    rounded but the result. *)
Record Arith (F : Type) : Type := mkArith {
  f_lit : Z -> F;
  f_of_int : Z -> Result F;
  f_add : F -> F -> F;
  f_sub : F -> F -> F;
  f_mul : F -> F -> F;
  f_div : F -> F -> F;
  f_pow : F -> Z -> Result F;
  f_is_zero : F -> bool;
  f_round2 : F -> F
}.
Arguments f_lit {F} _ _.
Arguments f_of_int {F} _ _.
Arguments f_add {F} _ _ _.
Arguments f_sub {F} _ _ _.
Arguments f_mul {F} _ _ _.
Arguments f_div {F} _ _ _.
Arguments f_pow {F} _ _ _.
Arguments f_is_zero {F} _ _.
Arguments f_round2 {F} _ _.

(** [a / b] of two floats. *)
Definition truediv {F : Type} (A : Arith F) (a b : F) : Result F :=
  if f_is_zero A b
  then Raise (mkExn ZeroDivisionError "float division by zero")
  else Ok (f_div A a b).

Definition calculate_emi_with {F : Type} (A : Arith F) (principal annual_rate : F)
    (tenure_months : Z) : Result F :=
  if tenure_months =? 0 then Ok (f_lit A 0)
  else
    let monthly_rate := f_div A annual_rate (f_lit A (12 * 100)) in
    if f_is_zero A monthly_rate then
      let* n := f_of_int A tenure_months in
      Ok (f_div A principal n)
    else
      let* num_pow := f_pow A (f_add A (f_lit A 1) monthly_rate) tenure_months in
      let* den_pow := f_pow A (f_add A (f_lit A 1) monthly_rate) tenure_months in
      let* emi :=
        truediv A (f_mul A (f_mul A principal monthly_rate) num_pow)
          (f_sub A den_pow (f_lit A 1)) in
      Ok (f_round2 A emi).

(** Exact arithmetic. *)
Definition exact_arith : Arith Q :=
  mkArith Q inject_Z (fun n => Ok (inject_Z n)) Qplus Qminus Qmult Qdiv py_pow
    (fun x => Qeq_bool x 0) round2.


Definition get_interest_range (loan_amount : Z) : string :=
  if loan_amount <? 300000 then "13% - 15%"
  else if loan_amount <=? 1000000 then "11.5% - 14%"
  else "10.5% - 13%".

End EmiCalculator.

(** ** models/enums.py, models/state.py *)

Inductive ConversationStage : Type :=
| SALES | KYC | UNDERWRITING | SANCTION | COMPLETED | FAILED.

Inductive KYCStatus : Type :=
| KYC_PENDING | KYC_VERIFIED | KYC_FAILED.

Inductive UnderwritingDecision : Type :=
| APPROVED | CONDITIONAL | REJECTED.

Record SalesOutput : Type := mkSalesOutput {
  so_requested_amount : Z;
  so_tenure_months : Z;
  so_estimated_emi : Q;
  so_interest_range : string
}.

Record VerificationOutput : Type := mkVerificationOutput {
  kyc_status : KYCStatus;
  vo_employment_type : string;
  vo_monthly_income : Q;
  risk_flags : list string
}.

Record RateComponents : Type := mkRateComponents {
  rc_base : Q;
  credit_adjustment : Q;
  tenure_adjustment : Q
}.

Record UnderwritingOutput : Type := mkUnderwritingOutput {
  decision : UnderwritingDecision;
  approved_amount : Z;
  credit_score : Z;
  rate_components : RateComponents;
  final_interest_rate : Q;
  risk_grade : string
}.

(** ** agents/underwriting_agent.py *)

Module UnderwritingAgent.

Definition MIN_INTEREST_RATE : Q := 9.5.
Definition MAX_INTEREST_RATE : Q := 18.0.
Definition BASE_RATE : Q := 11.0.

(** The [input_data] dict; [None] is an absent key (or a [None] value). *)
Record InputData : Type := mkInputData {
  customer_id : option string;
  requested_amount : option Z;
  tenure_months : option Z;
  monthly_income : option Q;
  estimated_emi : option Q
}.

Definition _evaluate_eligibility
    (credit_score : Z) (monthly_income : Q) (requested_amount : Z) (estimated_emi : Q)
  : UnderwritingDecision * Z * string :=
  if credit_score <? 700 then
    (REJECTED, 0, "Credit score below threshold (700)")
  else if Qgt_bool estimated_emi (monthly_income * 0.5)%Q then
    (REJECTED, 0, "EMI exceeds 50% of monthly income")
  else
    let max_amount :=
      if (credit_score >=? 750) && Qge_bool monthly_income 75000 then 2000000
      else if (credit_score >=? 700) && Qge_bool monthly_income 50000 then 1000000
      else 500000 in
    if requested_amount >? max_amount then
      (CONDITIONAL, max_amount, "Approved for maximum eligible amount")
    else
      (APPROVED, requested_amount, "").

Definition _calculate_rate_components (credit_score tenure_months : Z) : RateComponents :=
  let credit_adjustment :=
    if credit_score >? 700
    then (-0.5 * inject_Z ((credit_score - 700) / 50))%Q
    else 0%Q in
  let tenure_years := (inject_Z tenure_months / 12)%Q in
  let tenure_adjustment := (0.2 * py_max 0 (tenure_years - 3))%Q in
  {| rc_base := BASE_RATE;
     credit_adjustment := round2 credit_adjustment;
     tenure_adjustment := round2 tenure_adjustment |}.

Definition _apply_rate_bounds (rate : Q) : Q :=
  round2 (py_max MIN_INTEREST_RATE (py_min MAX_INTEREST_RATE rate)).

Definition _calculate_risk_grade (credit_score : Z) : string :=
  if credit_score >=? 750 then "A+"
  else if credit_score >=? 725 then "A"
  else if credit_score >=? 700 then "B+"
  else if credit_score >=? 675 then "B"
  else "C+".

(** Truthiness of the five values in [all([...])]. *)
Definition truthy_str (o : option string) : bool :=
  match o with Some s => negb (String.eqb s "") | None => false end.
Definition truthy_int (o : option Z) : bool :=
  match o with Some n => negb (n =? 0) | None => false end.
Definition truthy_float (o : option Q) : bool :=
  match o with Some x => negb (Qeq_bool x 0) | None => false end.

Section WithCreditApi.

(** [MockCreditScoreAPI.get_credit_score] maps the MD5 digest of the
    customer id, read as an integer, into 600..850.  The digest is a
    parameter. *)
Variable md5_int : string -> Z.

Definition get_credit_score (customer_id : string) : Z :=
  600 + (md5_int customer_id) mod 251.

Definition execute (input_data : InputData) : Result UnderwritingOutput :=
  match customer_id input_data, requested_amount input_data,
        tenure_months input_data, monthly_income input_data,
        estimated_emi input_data with
  | Some cid, Some amount, Some tenure, Some income, Some emi =>
      if truthy_str (Some cid) && truthy_int (Some amount) && truthy_int (Some tenure)
         && truthy_float (Some income) && truthy_float (Some emi)
      then
        let score := get_credit_score cid in
        let '(decision, approved, _) := _evaluate_eligibility score income amount emi in
        let rate_components := _calculate_rate_components score tenure in
        let final_rate :=
          _apply_rate_bounds
            (BASE_RATE + credit_adjustment rate_components
             + tenure_adjustment rate_components)%Q in
        Ok {| decision := decision;
              approved_amount := approved;
              credit_score := score;
              rate_components := rate_components;
              final_interest_rate := final_rate;
              risk_grade := _calculate_risk_grade score |}
      else Raise (mkExn ValueError "Missing required underwriting parameters")
  | _, _, _, _, _ => Raise (mkExn ValueError "Missing required underwriting parameters")
  end.

End WithCreditApi.

End UnderwritingAgent.

(** ** agents/sales_agent.py *)

Module SalesAgent.

Import EmiCalculator.

Record InputData : Type := mkInputData {
  requested_amount : option Z;
  tenure_months : option Z
}.

Definition _get_mid_rate (interest_range : string) : Q :=
  match findall_numbers interest_range with
  | m0 :: m1 :: _ =>
      let low := float_of_string m0 in
      let high := float_of_string m1 in
      ((low + high) / 2)%Q
  | _ => 12.0%Q
  end.

Definition missing_fields : PyExn :=
  mkExn ValueError "Missing required fields: requested_amount and tenure_months".

Definition execute (input_data : InputData) : Result SalesOutput :=
  match requested_amount input_data, tenure_months input_data with
  | Some amount, Some tenure =>
      if (amount =? 0) || (tenure =? 0) then Raise missing_fields
      else
        let interest_range := get_interest_range amount in
        let mid_rate := _get_mid_rate interest_range in
        let* estimated_emi := calculate_emi (inject_Z amount) mid_rate tenure in
        Ok {| so_requested_amount := amount;
              so_tenure_months := tenure;
              so_estimated_emi := estimated_emi;
              so_interest_range := interest_range |}
  | _, _ => Raise missing_fields
  end.

End SalesAgent.

(** ** services/mock_data.py *)

Module MockData.

(** A registry record; the [company] / [business] entry is not read by
    any code and is left out. *)
Record Customer : Type := mkCustomer {
  c_name : string;
  c_pan : string;
  c_employment_type : string;
  c_monthly_income : Z
}.

(** A dict in insertion order. *)
Definition CRM_DATABASE : list (string * Customer) :=
  [ ("CUST001", mkCustomer "Rajesh Kumar" "ABCDE1234F" "SALARIED" 75000);
    ("CUST002", mkCustomer "Priya Sharma" "FGHIJ5678K" "SALARIED" 95000);
    ("CUST003", mkCustomer "Amit Patel" "KLMNO9012P" "SELF_EMPLOYED" 120000);
    ("CUST004", mkCustomer "Sneha Reddy" "QRSTU3456V" "SALARIED" 55000);
    ("CUST005", mkCustomer "Vikram Singh" "WXYZ7890A" "BUSINESS" 150000);
    ("CUST006", mkCustomer "Anita Desai" "BCDEF2345G" "SALARIED" 45000);
    ("CUST007", mkCustomer "Karan Mehta" "GHIJK6789L" "SALARIED" 85000);
    ("CUST008", mkCustomer "Deepa Iyer" "MNOPQ0123R" "SELF_EMPLOYED" 65000);
    ("CUST009", mkCustomer "Rahul Gupta" "STUVW4567X" "SALARIED" 110000);
    ("CUST010", mkCustomer "Meera Nair" "YZABC8901D" "SALARIED" 20000) ].

Fixpoint lookup_by_pan (db : list (string * Customer)) (pan : string)
  : option (string * Customer) :=
  match db with
  | [] => None
  | (customer_id, data) :: rest =>
      if String.eqb (c_pan data) (upper pan) then Some (customer_id, data)
      else lookup_by_pan rest pan
  end.

(** [customer_id in CRM_DATABASE] and the entry under that key. *)
Fixpoint lookup_by_id (db : list (string * Customer)) (customer_id : string)
  : option (string * Customer) :=
  match db with
  | [] => None
  | (key, data) :: rest =>
      if String.eqb key customer_id then Some (customer_id, data)
      else lookup_by_id rest customer_id
  end.

(** Returns [(is_valid, customer_id, customer_data)]; the customer dict
    carries its id. *)
Definition verify_customer (db : list (string * Customer))
    (name pan employment_type : string)
  : bool * option string * option (string * Customer) :=
  match lookup_by_pan db pan with
  | None => (false, None, None)
  | Some (customer_id, customer) =>
      let name_match :=
        contains (lower name) (lower (c_name customer))
        || contains (lower (c_name customer)) (lower name) in
      let employment_match :=
        String.eqb (c_employment_type customer) (upper employment_type) in
      if name_match && employment_match
      then (true, Some customer_id, Some (customer_id, customer))
      else (false, Some customer_id, Some (customer_id, customer))
  end.

End MockData.

(** ** models/state.py, models/agent_io.py (continued) *)

Record Message : Type := mkMessage {
  role : string;
  content : string
}.

Record ConversationState : Type := mkState {
  session_id : string;
  current_stage : ConversationStage;
  state_customer_id : option string;
  customer_name : option string;
  sales_data : option SalesOutput;
  kyc_data : option VerificationOutput;
  underwriting_data : option UnderwritingOutput;
  sanction_letter_path : option string;
  conversation_history : list Message
}.

Definition set_current_stage (st : ConversationState) (s : ConversationStage) :=
  mkState (session_id st) s (state_customer_id st) (customer_name st) (sales_data st)
          (kyc_data st) (underwriting_data st) (sanction_letter_path st)
          (conversation_history st).

Definition set_customer (st : ConversationState) (cid name : option string) :=
  mkState (session_id st) (current_stage st) cid name (sales_data st)
          (kyc_data st) (underwriting_data st) (sanction_letter_path st)
          (conversation_history st).

Definition set_sales_data (st : ConversationState) (d : option SalesOutput) :=
  mkState (session_id st) (current_stage st) (state_customer_id st) (customer_name st) d
          (kyc_data st) (underwriting_data st) (sanction_letter_path st)
          (conversation_history st).

Definition set_kyc_data (st : ConversationState) (d : option VerificationOutput) :=
  mkState (session_id st) (current_stage st) (state_customer_id st) (customer_name st)
          (sales_data st) d (underwriting_data st) (sanction_letter_path st)
          (conversation_history st).

Definition set_underwriting_data (st : ConversationState) (d : option UnderwritingOutput) :=
  mkState (session_id st) (current_stage st) (state_customer_id st) (customer_name st)
          (sales_data st) (kyc_data st) d (sanction_letter_path st)
          (conversation_history st).

Definition set_sanction_letter_path (st : ConversationState) (p : option string) :=
  mkState (session_id st) (current_stage st) (state_customer_id st) (customer_name st)
          (sales_data st) (kyc_data st) (underwriting_data st) p
          (conversation_history st).

Definition set_conversation_history (st : ConversationState) (h : list Message) :=
  mkState (session_id st) (current_stage st) (state_customer_id st) (customer_name st)
          (sales_data st) (kyc_data st) (underwriting_data st) (sanction_letter_path st) h.

Record SanctionOutput : Type := mkSanctionOutput {
  letter_path : string;
  sanction_id : string;
  validity_days : Z
}.

(** ** The files: session store, audit trail, registry traffic *)

(** One line of an audit file.  The files of all sessions are kept in
    one list, each line with its session id; the serialised input and
    output of an execution are not kept. *)
Inductive AuditEntry : Type :=
| Execution (sid agent : string) (success : bool) (error : option string)
| StateTransition (sid : string) (from_stage : option ConversationStage)
                  (to_stage : ConversationStage) (reason : string).

Record World : Type := mkWorld {
  sessions : gmap string ConversationState;
  audit_trail : list AuditEntry;
  crm_queries : list string
}.

(** *** services/state_manager.py *)

Module StateManager.

Definition save_state (state : ConversationState) (w : World) : World :=
  mkWorld (<[session_id state := state]> (sessions w)) (audit_trail w) (crm_queries w).

Definition load_state (sid : string) (w : World) : option ConversationState :=
  sessions w !! sid.

Definition create_session (sid : string) (w : World) : ConversationState * World :=
  let state := mkState sid SALES None None None None None None [] in
  (state, save_state state w).

Definition add_message (sid role content : string) (w : World) : World :=
  match load_state sid w with
  | Some state =>
      save_state
        (set_conversation_history state
           (conversation_history state ++ [mkMessage role content])) w
  | None => w
  end.

(** The summary dict, without its two timestamps; [None] is the empty
    dict of a session that is not stored. *)
Record SessionSummary : Type := mkSummary {
  sum_session_id : string;
  sum_current_stage : ConversationStage;
  sum_customer_id : option string;
  message_count : Z;
  has_sales_data : bool;
  has_kyc_data : bool;
  has_underwriting_data : bool;
  sanction_letter_generated : bool
}.

Definition is_not_none {A : Type} (x : option A) : bool :=
  match x with Some _ => true | None => false end.

Definition get_session_summary (sid : string) (w : World) : option SessionSummary :=
  match load_state sid w with
  | None => None
  | Some state =>
      Some (mkSummary (session_id state) (current_stage state) (state_customer_id state)
              (Z.of_nat (length (conversation_history state)))
              (is_not_none (sales_data state))
              (is_not_none (kyc_data state))
              (is_not_none (underwriting_data state))
              (is_not_none (sanction_letter_path state)))
  end.

End StateManager.

(** *** services/audit_logger.py *)

Module AuditLogger.

Definition append (e : AuditEntry) (w : World) : World :=
  mkWorld (sessions w) (audit_trail w ++ [e]) (crm_queries w).

Definition log_execution (sid agent : string) (success : bool)
    (error_message : option string) (w : World) : World :=
  append (Execution sid agent success error_message) w.

Definition log_state_transition (sid : string) (from_stage : option ConversationStage)
    (to_stage : ConversationStage) (reason : string) (w : World) : World :=
  append (StateTransition sid from_stage to_stage reason) w.

(** The session whose file a line is written to. *)
Definition entry_session (e : AuditEntry) : string :=
  match e with
  | Execution sid _ _ _ => sid
  | StateTransition sid _ _ _ => sid
  end.

(** [get_audit_trail]: the lines of the file of the session, in order. *)
Definition get_audit_trail (session_id : string) (w : World) : list AuditEntry :=
  List.filter (fun e => String.eqb (entry_session e) session_id) (audit_trail w).

End AuditLogger.

(** *** The registry service as the agents reach it: every call is
    recorded in [crm_queries]. *)

Module MockCRMService.

Definition consult (pan : string) (w : World) : World :=
  mkWorld (sessions w) (audit_trail w) (crm_queries w ++ [pan]).

Definition lookup_by_pan (db : list (string * MockData.Customer)) (pan : string)
    (w : World) : option (string * MockData.Customer) * World :=
  (MockData.lookup_by_pan db pan, consult pan w).

Definition verify_customer (db : list (string * MockData.Customer))
    (name pan employment_type : string) (w : World)
  : (bool * option string * option (string * MockData.Customer)) * World :=
  (MockData.verify_customer db name pan employment_type, consult pan w).

End MockCRMService.

(** ** agents/base_agent.py *)

Module BaseAgent.

(** [run]: execute, write the audit line, hand the result or the
    exception on. *)
Definition run {I O : Type} (agent_name : string)
    (execute : I -> World -> Result O * World)
    (input_data : I) (sid : string) (w : World) : Result O * World :=
  let '(r, w1) := execute input_data w in
  match r with
  | Ok output => (Ok output, AuditLogger.log_execution sid agent_name true None w1)
  | Raise e =>
      (Raise e, AuditLogger.log_execution sid agent_name false (Some (exn_text e)) w1)
  end.

Definition pure_execute {I O : Type} (f : I -> Result O)
  : I -> World -> Result O * World :=
  fun i w => (f i, w).

End BaseAgent.

(** ** agents/verification_agent.py *)

Module VerificationAgent.

Record InputData : Type := mkInputData {
  name : option string;
  pan : option string;
  employment_type : option string
}.

(** [input_data.get(key, "")]. *)
Definition get_or_empty (o : option string) : string :=
  match o with Some s => s | None => "" end.

Fixpoint match_classes (classes : list (ascii -> bool)) (s : string) : option string :=
  match classes with
  | [] => Some s
  | p :: classes' =>
      match s with
      | EmptyString => None
      | String c s' => if p c then match_classes classes' s' else None
      end
  end.

(** [re.match] of five letters, four digits, one letter, anchored at both
    ends; the end anchor also accepts one final newline.  The class of
    digits is the one of the alphabet: 0 to 9. *)
Definition _validate_pan_format (pan : string) : bool :=
  match match_classes
          [is_upper; is_upper; is_upper; is_upper; is_upper;
           is_digit; is_digit; is_digit; is_digit; is_upper] pan with
  | Some rest => String.eqb rest "" || String.eqb rest nl
  | None => false
  end.

Definition missing_kyc_fields : PyExn :=
  mkExn ValueError "Missing required fields: name, pan, employment_type".

Definition invalid_pan_result : VerificationOutput :=
  {| kyc_status := KYC_FAILED;
     vo_employment_type := "UNKNOWN";
     vo_monthly_income := 0;
     risk_flags := ["INVALID_PAN_FORMAT"] |}.

(** The two entries that [execute] writes into the [context] dict of
    the call are read by nobody and are left out.  [InputData] is the
    input dict whose values are strings, which is what the orchestrator
    passes; [execute_dict] below takes a dict whose values are strings or
    [None]. *)
Definition execute (db : list (string * MockData.Customer)) (input_data : InputData)
    (w : World) : Result VerificationOutput * World :=
  let name := strip (get_or_empty (name input_data)) in
  let pan := upper (strip (get_or_empty (pan input_data))) in
  let employment_type := upper (strip (get_or_empty (employment_type input_data))) in
  if String.eqb name "" || String.eqb pan "" || String.eqb employment_type "" then
    (Raise missing_kyc_fields, w)
  else if negb (_validate_pan_format pan) then
    (Ok invalid_pan_result, w)
  else
    let '((is_valid, customer_id, customer_data), w1) :=
      MockCRMService.verify_customer db name pan employment_type w in
    match customer_data with
    | None =>
        (Ok {| kyc_status := KYC_FAILED;
               vo_employment_type := employment_type;
               vo_monthly_income := 0;
               risk_flags := ["CUSTOMER_NOT_FOUND"] |}, w1)
    | Some (_, customer) =>
        if negb is_valid then
          (Ok {| kyc_status := KYC_FAILED;
                 vo_employment_type := employment_type;
                 vo_monthly_income := 0;
                 risk_flags := ["DATA_MISMATCH"] |}, w1)
        else
          let monthly_income := MockData.c_monthly_income customer in
          let flags_income :=
            if monthly_income <? 25000 then ["LOW_INCOME"] else [] in
          let flags_employment :=
            if negb (String.eqb (MockData.c_employment_type customer) employment_type)
            then ["EMPLOYMENT_TYPE_MISMATCH"] else [] in
          (Ok {| kyc_status := KYC_VERIFIED;
                 vo_employment_type := MockData.c_employment_type customer;
                 vo_monthly_income := inject_Z monthly_income;
                 risk_flags := flags_income ++ flags_employment |}, w1)
    end.

(** The input dict with values that are a [str] or [None]: each key is
    absent or bound to a value. *)
Inductive Value : Type :=
| VStr (s : string)
| VNone.

Record InputDict : Type := mkInputDict {
  d_name : option Value;
  d_pan : option Value;
  d_employment_type : option Value
}.

Definition is_none (o : option Value) : bool :=
  match o with
  | Some VNone => true
  | _ => false
  end.

Definition as_str (o : option Value) : option string :=
  match o with
  | Some (VStr s) => Some s
  | _ => None
  end.

(** [None.strip()]. *)
Definition none_has_no_strip : PyExn :=
  mkExn AttributeError "'NoneType' object has no attribute 'strip'".

(** [execute] on such a dict: the three lines that read the dict call
    [.strip()] on what [get] returns, before the guard. *)
Definition execute_dict (db : list (string * MockData.Customer)) (d : InputDict)
    (w : World) : Result VerificationOutput * World :=
  if is_none (d_name d) || is_none (d_pan d) || is_none (d_employment_type d)
  then (Raise none_has_no_strip, w)
  else
    execute db
      (mkInputData (as_str (d_name d)) (as_str (d_pan d))
         (as_str (d_employment_type d)))
      w.

End VerificationAgent.

(** ** agents/sanction_agent.py *)

Module SanctionAgent.

Record InputData : Type := mkInputData {
  in_session_id : string;
  in_customer_name : option string;
  in_customer_id : option string;
  in_approved_amount : Z;
  in_tenure_months : Z;
  in_final_interest_rate : Q;
  in_estimated_emi : Q;
  in_risk_grade : string
}.

Record SanctionInput : Type := mkSanctionInput {
  si_session_id : string;
  si_customer_name : string;
  si_customer_id : string;
  si_approved_amount : Z;
  si_tenure_months : Z;
  si_final_interest_rate : Q;
  si_estimated_emi : Q;
  si_risk_grade : string
}.

Section WithGenerator.

(** The text of the validation error of the input model, and the
    document generator of utils/pdf_generator.py, which returns the
    file path and the sanction id or raises. *)
Variable validation_error_text : string.
Variable generate_sanction_letter : SanctionInput -> Result (string * string).

(** Building [SanctionInput] from the dict: the customer name and id
    must be strings. *)
Definition make_input (d : InputData) : Result SanctionInput :=
  match in_customer_name d, in_customer_id d with
  | Some name, Some cid =>
      Ok (mkSanctionInput (in_session_id d) name cid (in_approved_amount d)
            (in_tenure_months d) (in_final_interest_rate d) (in_estimated_emi d)
            (in_risk_grade d))
  | _, _ => Raise (mkExn ValueError validation_error_text)
  end.

Definition execute (input_data : InputData) : Result SanctionOutput :=
  let* sanction_input := make_input input_data in
  let* generated := generate_sanction_letter sanction_input in
  Ok {| letter_path := fst generated;
        sanction_id := snd generated;
        validity_days := 30 |}.

End WithGenerator.

End SanctionAgent.

(** ** services/llm_interface.py (interface) *)

Module LLMService.

Record IntentDetectionResult : Type := mkIntent {
  intent : string;
  confidence : Q;
  requires_clarification : bool
}.

(** The entity dict; [None] is an absent key.  The orchestrator reads
    no other key. *)
Record Entities : Type := mkEntities {
  e_amount : option Z;
  e_tenure_months : option Z;
  e_pan : option string
}.

Definition STAGE_INTENTS (stage : ConversationStage) : list string :=
  match stage with
  | SALES => ["provide_loan_amount"; "provide_tenure"; "confirm_loan_details";
              "modify_loan_request"]
  | KYC => ["provide_pan"; "provide_employment"; "provide_income"; "confirm_kyc"]
  | UNDERWRITING => []
  | SANCTION => ["download_letter"; "accept_offer"; "request_modification"]
  | COMPLETED | FAILED => []
  end.

Definition CONFIDENCE_THRESHOLD : Q := 0.7.

(** The [is_confident] property of models/agent_io.py. *)
Definition is_confident (r : IntentDetectionResult) : bool :=
  Qge_bool (confidence r) 0.7.

(** The keyword patterns, in the order of the dict. *)
Definition INTENT_PATTERNS : list (string * list string) :=
  [ ("provide_loan_amount",
     [ "\b(\d+)\s*(?:lakh|lakhs|l)\b";
       "\b(\d{1,2}[,\s]?\d{2}[,\s]?\d{3})\s*(?:rs|rupees)?\b";
       "\bneed\s+(?:a\s+)?loan\s+of\b";
       "\bwant\s+(?:a\s+)?loan\s+of\b";
       "\bget\s+(?:a\s+)?loan\b" ]);
    ("provide_tenure",
     [ "\b(\d+)\s*(?:year|years|yr|yrs)\b";
       "\b(\d+)\s*(?:month|months)\b";
       "\bfor\s+(\d+)\s*(?:year|years|yr|yrs)\b";
       "\btenure\s+of\s+(\d+)\b" ]);
    ("confirm_loan_details",
     [ "\byes\b"; "\bconfirm\b"; "\bok\b"; "\bagree\b"; "\bproceed\b" ]);
    ("provide_pan",
     [ "\b[A-Z]{5}\d{4}[A-Z]\b";
       "\bpan\s+(?:is\s+)?[A-Z]{5}\d{4}[A-Z]\b" ]);
    ("provide_employment",
     [ "\bsalaried\b"; "\bself[- ]employed\b"; "\bbusiness\b";
       "\bwork\s+(?:at|for|in)\b" ]);
    ("provide_income",
     [ "\b(?:salary|income)\s+(?:is\s+)?(\d+)\b";
       "\bearn\s+(\d+)\b";
       "\b(\d+)\s+per\s+month\b" ]);
    ("download_letter",
     [ "\bdownload\b";
       "\bget\s+(?:the\s+)?letter\b";
       "\bsend\s+(?:me\s+)?(?:the\s+)?letter\b" ]);
    ("accept_offer",
     [ "\baccept\b"; "\bagree\b"; "\byes\b"; "\bproceed\b" ]) ].

(** [d.get(key, [])]. *)
Fixpoint get_patterns (d : list (string * list string)) (key : string) : list string :=
  match d with
  | [] => []
  | (k, v) :: rest => if String.eqb k key then v else get_patterns rest key
  end.

Section WithRegex.

(** [re.search(pattern, message, re.IGNORECASE)] finds a match. *)
Variable re_search : string -> string -> bool.

(** The patterns of the intent that match the message. *)
Definition matching_patterns (message intent : string) : list string :=
  List.filter (fun pattern => re_search pattern message)
    (get_patterns INTENT_PATTERNS intent).

(** The score is a ratio of two small integers, times 1.5 and capped at
    1 when more than one pattern matches. *)
Definition _calculate_intent_score (message intent : string) : Q :=
  let patterns := get_patterns INTENT_PATTERNS intent in
  match patterns with
  | [] => 0%Q
  | _ :: _ =>
      let matches := Z.of_nat (List.length (matching_patterns message intent)) in
      let confidence := (inject_Z matches / inject_Z (Z.of_nat (List.length patterns)))%Q in
      if 1 <? matches then py_min (confidence * 1.5)%Q 1%Q else confidence
  end.

(** The dict [intent_scores], in insertion order: the valid intents
    with a positive score. *)
Definition intent_scores (message : string) (valid_intents : list string)
  : list (string * Q) :=
  List.filter (fun entry => Qgt_bool (snd entry) 0)
    (List.map (fun intent => (intent, _calculate_intent_score message intent))
       valid_intents).

(** [max(intent_scores, key=intent_scores.get)] on a dict that is not
    empty: the first key of the largest score. *)
Definition best_entry (first : string * Q) (rest : list (string * Q)) : string * Q :=
  List.fold_left
    (fun best entry => if Qgt_bool (snd entry) (snd best) then entry else best)
    rest first.

Definition _detect_intent_rule_based (user_message : string)
    (current_stage : ConversationStage) : IntentDetectionResult :=
  let user_message_lower := lower user_message in
  match STAGE_INTENTS current_stage with
  | [] => mkIntent "none" 1 false
  | valid_intents =>
      match intent_scores user_message_lower valid_intents with
      | [] => mkIntent "unknown" 0 true
      | first :: rest =>
          let best := best_entry first rest in
          let confidence := py_min (snd best) 1%Q in
          mkIntent (fst best) confidence (Qlt_bool confidence CONFIDENCE_THRESHOLD)
      end
  end.

End WithRegex.

Section WithClassifier.

(** The classifier proper (language model or pattern scoring), applied
    when the stage has intents of its own. *)
Variable classify : string -> ConversationStage -> list Message -> IntentDetectionResult.

Definition detect_intent (user_message : string) (current_stage : ConversationStage)
    (history : list Message) : IntentDetectionResult :=
  match STAGE_INTENTS current_stage with
  | [] => mkIntent "none" 1 false
  | _ :: _ => classify user_message current_stage history
  end.

End WithClassifier.

End LLMService.

(** ** agents/master_agent.py *)

Module MasterAgent.

Import LLMService.

Definition closing_completed : string :=
  "Your loan application has been completed. Thank you for choosing BFSI Bank!".
Definition closing_failed : string :=
  "Your loan application was not approved. Please contact our support team for more information.".
Definition sales_error : string :=
  "I encountered an error processing your loan request. Please try again with the loan amount and tenure.".
Definition kyc_error : string :=
  "I encountered an error during verification. Please provide your name, PAN, and employment type again.".

Definition is_employment_token (w : string) : bool :=
  String.eqb w "SALARIED" || String.eqb w "SELF_EMPLOYED" || String.eqb w "BUSINESS".

(** The first loop over the words of the message. *)
Fixpoint find_employment_type (words : list string) : option string :=
  match words with
  | [] => None
  | word :: rest =>
      if is_employment_token (upper word) then Some (upper word)
      else if contains "EMPLOYED" (upper word) then Some "SELF_EMPLOYED"
      else find_employment_type rest
  end.

(** [word[0].isupper()]; the words of a split message are not empty. *)
Definition first_isupper (word : string) : bool :=
  match word with
  | EmptyString => false
  | String c _ => is_upper c
  end.

(** The second loop: the first two capitalised words that are longer
    than one character and not all upper case. *)
Fixpoint collect_name_parts (name_parts : list string) (words : list string) : list string :=
  match words with
  | [] => name_parts
  | word :: rest =>
      let name_parts' :=
        if first_isupper word && (1 <? String.length word)%nat && negb (isupper word)
        then (name_parts ++ [word])%list else name_parts in
      if (2 <=? List.length name_parts')%nat then name_parts'
      else collect_name_parts name_parts' rest
  end.

Definition extract_name (words : list string) : option string :=
  match collect_name_parts [] words with
  | [] => None
  | parts => Some (join " " parts)
  end.

Definition _transition_stage (state : ConversationState) (new_stage : ConversationStage)
    (reason : string) (w : World) : ConversationState * World :=
  let old_stage := current_stage state in
  let state' := set_current_stage state new_stage in
  let w1 := StateManager.save_state state' w in
  (state', AuditLogger.log_state_transition (session_id state) (Some old_stage)
             new_stage reason w1).

Definition _handle_unclear_intent (state : ConversationState) (user_message : string) : string :=
  match current_stage state with
  | SALES =>
      "I didn't quite catch that. Could you please tell me:" ++ nl ++
      "- The loan amount you need (e.g., '5 lakhs')" ++ nl ++
      "- The tenure you prefer (e.g., '3 years')"
  | KYC =>
      "I need your KYC details to proceed. Please provide:" ++ nl ++
      "- Your full name" ++ nl ++
      "- Your PAN number" ++ nl ++
      "- Your employment type (SALARIED/SELF_EMPLOYED/BUSINESS)"
  | _ => "I'm not sure I understood. Could you please rephrase?"
  end.

(** [get_session_summary]: an agent without a session answers with the
    empty dict. *)
Definition get_session_summary (current_session_id : option string) (w : World)
  : option StateManager.SessionSummary :=
  match current_session_id with
  | None => None
  | Some sid =>
      if String.eqb sid "" then None else StateManager.get_session_summary sid w
  end.

Section WithCollaborators.

(** Digest behind the credit score, registry contents, intent
    classifier and entity extraction, document generation. *)
Variable md5_int : string -> Z.
Variable crm : list (string * MockData.Customer).
Variable classify : string -> ConversationStage -> list Message -> IntentDetectionResult.
Variable extract_entities : string -> string -> Entities.
Variable validation_error_text : string.
Variable generate_sanction_letter : SanctionAgent.SanctionInput -> Result (string * string).

(** Presentation: the pictographs of the messages by name, and the
    number formats [{:,}], [{:,.2f}], [{}] of a float and of an int. *)
Variable glyph : string -> string.
Variable fmt_grouped : Z -> string.
Variable fmt_money : Q -> string.
Variable fmt_float : Q -> string.
Variable fmt_int : Z -> string.

Definition _explain_interest_rate (rc : RateComponents) : string :=
  let base := rc_base rc in
  let credit_adj := credit_adjustment rc in
  let tenure_adj := tenure_adjustment rc in
  let explanation := "   Rate Breakdown: Base " ++ fmt_float base ++ "%" in
  let explanation :=
    if negb (Qeq_bool credit_adj 0) then
      let sign := if Qgt_bool credit_adj 0 then "+" else "" in
      explanation ++ " " ++ sign ++ fmt_float credit_adj ++ "% (credit score adjustment)"
    else explanation in
  if negb (Qeq_bool tenure_adj 0) then
    explanation ++ " +" ++ fmt_float tenure_adj ++ "% (tenure adjustment)"
  else explanation.

(** The [try] block of the sanction handler up to the call of the
    agent: the final EMI and the agent's output, or the exception. *)
Definition _sanction_attempt (state : ConversationState) (uw : UnderwritingOutput)
    (w : World) : Result (Q * SanctionOutput) * World :=
  match sales_data state with
  | None =>
      (Raise (mkExn AttributeError
                "'NoneType' object has no attribute 'tenure_months'"), w)
  | Some sales =>
      match EmiCalculator.calculate_emi (inject_Z (approved_amount uw))
              (final_interest_rate uw) (so_tenure_months sales) with
      | Raise e => (Raise e, w)
      | Ok final_emi =>
          let '(r, w1) :=
            BaseAgent.run "SanctionAgent"
              (BaseAgent.pure_execute
                 (SanctionAgent.execute validation_error_text
                    generate_sanction_letter))
              (SanctionAgent.mkInputData (session_id state) (customer_name state)
                 (state_customer_id state) (approved_amount uw)
                 (so_tenure_months sales) (final_interest_rate uw) final_emi
                 (risk_grade uw))
              (session_id state) w in
          match r with
          | Raise e => (Raise e, w1)
          | Ok sanction_output => (Ok (final_emi, sanction_output), w1)
          end
      end
  end.

Definition _handle_sanction_stage (state : ConversationState) (w : World)
  : string * World :=
  match underwriting_data state with
  | None => ("Error: Missing underwriting data.", w)
  | Some uw =>
      match _sanction_attempt state uw w with
      | (Ok (final_emi, sanction_output), w1) =>
          let state1 := set_sanction_letter_path state (Some (letter_path sanction_output)) in
          let w2 := StateManager.save_state state1 w1 in
          let '(_, w3) :=
            _transition_stage state1 COMPLETED "Sanction letter generated" w2 in
          (glyph "check" ++ " Your sanction letter has been generated successfully!"
             ++ nl ++ nl ++
           glyph "page" ++ " Sanction ID: " ++ sanction_id sanction_output ++ nl ++
           glyph "folder" ++ " Letter saved at: " ++ letter_path sanction_output ++ nl ++
           glyph "clock" ++ " Valid for: " ++ fmt_int (validity_days sanction_output)
             ++ " days" ++ nl ++ nl ++
           "Final EMI: " ++ glyph "rupee" ++ fmt_money final_emi ++ " per month"
             ++ nl ++ nl ++
           "Thank you for choosing BFSI Bank! Please download your sanction letter and "
             ++ "contact our loan officer to proceed with documentation.", w3)
      | (Raise e, w1) =>
          ("Error generating sanction letter: " ++ exn_text e, w1)
      end
  end.

Definition _handle_underwriting_stage (state : ConversationState) (w : World)
  : string * World :=
  match sales_data state, kyc_data state with
  | Some sales, Some kyc =>
      let '(r, w1) :=
        BaseAgent.run "UnderwritingAgent"
          (BaseAgent.pure_execute (UnderwritingAgent.execute md5_int))
          (UnderwritingAgent.mkInputData (state_customer_id state)
             (Some (so_requested_amount sales)) (Some (so_tenure_months sales))
             (Some (vo_monthly_income kyc)) (Some (so_estimated_emi sales)))
          (session_id state) w in
      match r with
      | Ok uw =>
          let state1 := set_underwriting_data state (Some uw) in
          let w2 := StateManager.save_state state1 w1 in
          match decision uw with
          | REJECTED =>
              let '(_, w3) := _transition_stage state1 FAILED "Loan rejected" w2 in
              ("We regret to inform you that your loan application could not be "
                 ++ "approved at this time. "
                 ++ "Your credit score is " ++ fmt_int (credit_score uw) ++ ". "
                 ++ "Please contact our support team for more information.", w3)
          | CONDITIONAL =>
              let '(state2, w3) :=
                _transition_stage state1 SANCTION "Conditional approval" w2 in
              let rate_explanation := _explain_interest_rate (rate_components uw) in
              let response :=
                "Good news! Your loan has been conditionally approved." ++ nl ++ nl ++
                glyph "chart" ++ " Credit Score: " ++ fmt_int (credit_score uw)
                  ++ " (Risk Grade: " ++ risk_grade uw ++ ")" ++ nl ++
                glyph "money" ++ " Approved Amount: " ++ glyph "rupee"
                  ++ fmt_grouped (approved_amount uw) ++ " "
                  ++ "(Modified from requested " ++ glyph "rupee"
                  ++ fmt_grouped (so_requested_amount sales) ++ ")" ++ nl ++
                glyph "trend" ++ " Interest Rate: " ++ fmt_float (final_interest_rate uw)
                  ++ "% per annum" ++ nl ++
                rate_explanation ++ nl ++ nl ++
                "Generating your sanction letter..." in
              let '(sanction_response, w4) := _handle_sanction_stage state2 w3 in
              (response ++ nl ++ nl ++ sanction_response, w4)
          | APPROVED =>
              let '(state2, w3) := _transition_stage state1 SANCTION "Loan approved" w2 in
              let rate_explanation := _explain_interest_rate (rate_components uw) in
              let response :=
                glyph "party" ++ " Congratulations! Your loan has been approved!"
                  ++ nl ++ nl ++
                glyph "chart" ++ " Credit Score: " ++ fmt_int (credit_score uw)
                  ++ " (Risk Grade: " ++ risk_grade uw ++ ")" ++ nl ++
                glyph "money" ++ " Approved Amount: " ++ glyph "rupee"
                  ++ fmt_grouped (approved_amount uw) ++ nl ++
                glyph "trend" ++ " Interest Rate: " ++ fmt_float (final_interest_rate uw)
                  ++ "% per annum" ++ nl ++
                rate_explanation ++ nl ++ nl ++
                "Generating your sanction letter..." in
              let '(sanction_response, w4) := _handle_sanction_stage state2 w3 in
              (response ++ nl ++ nl ++ sanction_response, w4)
          end
      | Raise e => ("Error during underwriting: " ++ exn_text e, w1)
      end
  | _, _ => ("Error: Missing sales or KYC data.", w)
  end.

(** The branch of the KYC handler for a result that did not fail: the
    result and the customer are folded into the state, the stage moves
    to UNDERWRITING and the underwriting handler runs. *)
Definition _kyc_verified (state : ConversationState) (name pan : string)
    (verification_output : VerificationOutput) (w1 : World) : string * World :=
  let state1 := set_kyc_data state (Some verification_output) in
  let '(found, w2) := MockCRMService.lookup_by_pan crm pan w1 in
  match found with
  | None => (kyc_error, w2)
  | Some (cid, _) =>
      let state2 := set_customer state1 (Some cid) (Some name) in
      let w3 := StateManager.save_state state2 w2 in
      let '(state3, w4) :=
        _transition_stage state2 UNDERWRITING "KYC verified" w3 in
      _handle_underwriting_stage state3 w4
  end.

Definition _handle_kyc_stage (state : ConversationState) (user_message intent : string)
    (w : World) : string * World :=
  let entities := extract_entities user_message intent in
  let words := split user_message in
  let pan := e_pan entities in
  let employment_type := find_employment_type words in
  let name := extract_name words in
  match name, pan, employment_type with
  | Some name, Some pan, Some employment_type =>
      if negb (String.eqb name "") && negb (String.eqb pan "")
         && negb (String.eqb employment_type "") then
        let '(r, w1) :=
          BaseAgent.run "VerificationAgent" (VerificationAgent.execute crm)
            (VerificationAgent.mkInputData (Some name) (Some pan) (Some employment_type))
            (session_id state) w in
        match r with
        | Raise _ => (kyc_error, w1)
        | Ok verification_output =>
            match kyc_status verification_output with
            | KYC_FAILED =>
                let '(_, w2) :=
                  _transition_stage state FAILED "KYC verification failed" w1 in
                ("I'm sorry, but we couldn't verify your details. "
                   ++ "Issues found: " ++ join ", " (risk_flags verification_output) ++ ". "
                   ++ "Please contact our support team for assistance.", w2)
            | _ => _kyc_verified state name pan verification_output w1
            end
        end
      else
        ("Please provide all required details:" ++ nl ++
         "- Your full name" ++ nl ++
         "- Your PAN number (format: ABCDE1234F)" ++ nl ++
         "- Employment type (SALARIED/SELF_EMPLOYED/BUSINESS)", w)
  | _, _, _ =>
      ("Please provide all required details:" ++ nl ++
       "- Your full name" ++ nl ++
       "- Your PAN number (format: ABCDE1234F)" ++ nl ++
       "- Employment type (SALARIED/SELF_EMPLOYED/BUSINESS)", w)
  end.

Definition _handle_sales_stage (state : ConversationState) (user_message intent : string)
    (w : World) : string * World :=
  let entities := extract_entities user_message intent in
  match e_amount entities, e_tenure_months entities with
  | Some amount, Some tenure =>
      let '(r, w1) :=
        BaseAgent.run "SalesAgent" (BaseAgent.pure_execute SalesAgent.execute)
          (SalesAgent.mkInputData (Some amount) (Some tenure))
          (session_id state) w in
      match r with
      | Ok sales_output =>
          let state1 := set_sales_data state (Some sales_output) in
          let w2 := StateManager.save_state state1 w1 in
          let '(_, w3) := _transition_stage state1 KYC "Sales data collected" w2 in
          ("Great! Based on your requirement of " ++ glyph "rupee"
             ++ fmt_grouped (so_requested_amount sales_output) ++ " "
             ++ "for " ++ fmt_int (so_tenure_months sales_output) ++ " months ("
             ++ fmt_int (so_tenure_months sales_output / 12) ++ " years), "
             ++ "your estimated EMI would be around " ++ glyph "rupee"
             ++ fmt_money (so_estimated_emi sales_output) ++ " "
             ++ "at an interest rate in the range of "
             ++ so_interest_range sales_output ++ "." ++ nl ++ nl ++
           "Now, let's proceed with KYC verification. Please provide:" ++ nl ++
           "1. Your full name" ++ nl ++
           "2. Your PAN number" ++ nl ++
           "3. Your employment type (SALARIED/SELF_EMPLOYED/BUSINESS)", w3)
      | Raise _ => (sales_error, w1)
      end
  | a, t =>
      let missing :=
        ((match a with None => ["loan amount"] | Some _ => [] end)
         ++ (match t with None => ["tenure"] | Some _ => [] end))%list in
      ("I need a bit more information. Please provide your "
         ++ join " and " missing ++ ".", w)
  end.

Definition _process_by_stage (state : ConversationState) (user_message intent : string)
    (w : World) : string * World :=
  match current_stage state with
  | SALES => _handle_sales_stage state user_message intent w
  | KYC => _handle_kyc_stage state user_message intent w
  | UNDERWRITING => _handle_underwriting_stage state w
  | SANCTION => _handle_sanction_stage state w
  | COMPLETED => (closing_completed, w)
  | FAILED => (closing_failed, w)
  end.

Definition welcome_msg : string :=
  "Welcome to BFSI Bank! I'm here to help you with your personal loan application. "
    ++ "To get started, please tell me:" ++ nl ++
  "1. How much loan amount do you need?" ++ nl ++
  "2. What is your preferred loan tenure (in years)?".

(** [start_conversation]; the fresh session id is an argument. *)
Definition start_conversation (sid : string) (w : World) : string * World :=
  let '(_, w1) := StateManager.create_session sid w in
  let w2 := AuditLogger.log_state_transition sid None SALES "New conversation started" w1 in
  (welcome_msg, StateManager.add_message sid "system" welcome_msg w2).

Definition process_message (current_session_id : option string) (user_message : string)
    (w : World) : string * World :=
  match current_session_id with
  | None => ("Error: No active session. Please start a new conversation.", w)
  | Some sid =>
      match StateManager.load_state sid w with
      | None => ("Error: Session not found.", w)
      | Some state =>
          let w1 := StateManager.add_message sid "customer" user_message w in
          let intent_result :=
            detect_intent classify user_message (current_stage state)
              (conversation_history state) in
          let '(response, w2) :=
            if requires_clarification intent_result
            then (_handle_unclear_intent state user_message, w1)
            else _process_by_stage state user_message (intent intent_result) w1 in
          (response, StateManager.add_message sid "system" response w2)
      end
  end.

(** A conversation: the session is started and the customer's messages
    are processed in order; the responses and the stage persisted
    after each turn are collected. *)
Definition persisted_stage (sid : string) (w : World) : option ConversationStage :=
  current_stage <$> StateManager.load_state sid w.

Fixpoint run_turns (sid : string) (messages : list string) (w : World)
  : list (string * option ConversationStage) * World :=
  match messages with
  | [] => ([], w)
  | m :: rest =>
      let '(response, w1) := process_message (Some sid) m w in
      let '(trace, w2) := run_turns sid rest w1 in
      ((response, persisted_stage sid w1) :: trace, w2)
  end.

End WithCollaborators.

End MasterAgent.

(** ** The specification's reference definitions *)

Module Reference.

(** Bracket table of the maximum eligible principal. *)
Definition max_eligible (score : Z) (income : Q) : Z :=
  if (750 <=? score) && Qle_bool 75000 income then 2000000
  else if (700 <=? score) && Qle_bool 50000 income then 1000000
  else 500000.

(** Fifty per cent of the monthly income. *)
Definition half_of_income (income : Q) : Q := ((50 # 100) * income)%Q.

(** Decision and approved amount, as the specification words them. *)
Definition eligibility (score : Z) (income : Q) (requested : Z) (emi : Q)
  : UnderwritingDecision * Z :=
  if score <? 700 then (REJECTED, 0)
  else if Qlt_bool (half_of_income income) emi then (REJECTED, 0)
  else if max_eligible score income <? requested
       then (CONDITIONAL, max_eligible score income)
       else (APPROVED, requested).


(** Clamping to the closed interval of admissible rates. *)
Definition clamp (rate : Q) : Q := Qmax 9.5 (Qmin 18.0 rate).

(** The stage graph: the forward chain, and failure from any stage that
    is not terminal. *)
Definition is_terminal (s : ConversationStage) : bool :=
  match s with COMPLETED | FAILED => true | _ => false end.

Inductive stage_edge : ConversationStage -> ConversationStage -> Prop :=
| edge_sales_kyc : stage_edge SALES KYC
| edge_kyc_underwriting : stage_edge KYC UNDERWRITING
| edge_underwriting_sanction : stage_edge UNDERWRITING SANCTION
| edge_sanction_completed : stage_edge SANCTION COMPLETED
| edge_failed s : is_terminal s = false -> stage_edge s FAILED.

Definition advances : ConversationStage -> ConversationStage -> Prop := rtc stage_edge.

Definition stage_rank (s : ConversationStage) : nat :=
  match s with
  | SALES => 0 | KYC => 1 | UNDERWRITING => 2 | SANCTION => 3
  | COMPLETED => 4 | FAILED => 4
  end.

Definition closing_message (s : ConversationStage) : string :=
  match s with
  | FAILED => MasterAgent.closing_failed
  | _ => MasterAgent.closing_completed
  end.

(** The session [sid] is stored, under its own id, in stage [s]. *)
Definition session_in_stage (sid : string) (s : ConversationStage) (w : World) : Prop :=
  exists st, sessions w !! sid = Some st /\ session_id st = sid /\ current_stage st = s.

(** An audit line is legal when it is the execution of a worker, the
    entry of a new session into SALES, or a transition along an edge of
    the stage graph. *)
Definition legal_entry (e : AuditEntry) : Prop :=
  match e with
  | Execution _ _ _ _ => True
  | StateTransition _ None to_stage _ => to_stage = SALES
  | StateTransition _ (Some from_stage) to_stage _ => stage_edge from_stage to_stage
  end.

(** The audit trail of [w'] is the trail of [w] followed by legal lines. *)
Definition audit_extends (w w' : World) : Prop :=
  exists added, audit_trail w' = (audit_trail w ++ added)%list /\ Forall legal_entry added.

(** A run of turns that starts in stage [s]: after each turn the session
    is stored in a stage reached by advancing, which is never an earlier
    one, and a turn taken in a terminal stage answers with the closing
    message and leaves the stage as it is. *)
Fixpoint trace_ok (s : ConversationStage)
    (trace : list (string * option ConversationStage)) : Prop :=
  match trace with
  | [] => True
  | (response, after) :: rest =>
      exists s',
        after = Some s'
        /\ advances s s'
        /\ (stage_rank s <= stage_rank s')%nat
        /\ (is_terminal s = true -> s' = s /\ response = closing_message s)
        /\ trace_ok s' rest
  end.

End Reference.

(** ** The data a stored session holds, by stage *)

Module Invariant.

(** The input that the orchestrator hands to underwriting. *)
Definition underwriting_input (st : ConversationState) (sales : SalesOutput)
    (kyc : VerificationOutput) : UnderwritingAgent.InputData :=
  UnderwritingAgent.mkInputData (state_customer_id st)
    (Some (so_requested_amount sales)) (Some (so_tenure_months sales))
    (Some (vo_monthly_income kyc)) (Some (so_estimated_emi sales)).

Section WithDigest.

Variable md5_int : string -> Z.

(** A quote and a verified KYC result are stored. *)
Definition verified_data (st : ConversationState) (sales : SalesOutput)
    (kyc : VerificationOutput) : Prop :=
  sales_data st = Some sales /\ kyc_data st = Some kyc /\ kyc_status kyc = KYC_VERIFIED.

(** Underwriting can run: quote and verified KYC result, nothing later. *)
Definition ready (st : ConversationState) : Prop :=
  exists sales kyc,
    verified_data st sales kyc
    /\ underwriting_data st = None /\ sanction_letter_path st = None.

(** Underwriting raises on the stored data. *)
Definition underwriting_raises (st : ConversationState) : Prop :=
  forall sales kyc,
    sales_data st = Some sales -> kyc_data st = Some kyc ->
    is_ok (UnderwritingAgent.execute md5_int (underwriting_input st sales kyc)) = false.

(** The stored underwriting result is what underwriting returns on the
    stored quote and KYC result. *)
Definition underwritten (st : ConversationState) (uw : UnderwritingOutput) : Prop :=
  exists sales kyc,
    verified_data st sales kyc
    /\ underwriting_data st = Some uw
    /\ UnderwritingAgent.execute md5_int (underwriting_input st sales kyc) = Ok uw.

Definition consistent (st : ConversationState) : Prop :=
  match current_stage st with
  | SALES =>
      sales_data st = None /\ kyc_data st = None
      /\ underwriting_data st = None /\ sanction_letter_path st = None
  | KYC =>
      sales_data st <> None /\ kyc_data st = None
      /\ underwriting_data st = None /\ sanction_letter_path st = None
  | UNDERWRITING => ready st /\ underwriting_raises st
  | SANCTION =>
      exists uw, underwritten st uw /\ decision uw <> REJECTED
                 /\ sanction_letter_path st = None
  | COMPLETED =>
      exists uw, underwritten st uw /\ decision uw <> REJECTED
                 /\ sanction_letter_path st <> None
  | FAILED =>
      sales_data st <> None /\ sanction_letter_path st = None
      /\ ((kyc_data st = None /\ underwriting_data st = None)
          \/ exists uw, underwritten st uw /\ decision uw = REJECTED)
  end.

End WithDigest.

(** Lines of the session [sid] are appended to the audit trail, all of
    them executions. *)
Definition is_execution (e : AuditEntry) : Prop :=
  match e with
  | Execution _ _ _ _ => True
  | StateTransition _ _ _ _ => False
  end.

Definition audit_quiet (sid : string) (w w' : World) : Prop :=
  exists added,
    audit_trail w' = (audit_trail w ++ added)%list
    /\ Forall (fun e => AuditLogger.entry_session e = sid /\ is_execution e) added.

(** Lines of the session [sid] are appended to the audit trail, the
    last transition among them being one into stage [s]. *)
Definition audit_moved (sid : string) (s : ConversationStage) (w w' : World) : Prop :=
  exists earlier from_stage reason later,
    audit_trail w'
    = (audit_trail w ++ earlier ++ StateTransition sid from_stage s reason :: later)%list
    /\ Forall (fun e => AuditLogger.entry_session e = sid) earlier
    /\ Forall (fun e => AuditLogger.entry_session e = sid /\ is_execution e) later.

(** The last transition in the audit trail of the session [sid] is one
    into stage [s]. *)
Definition recorded (sid : string) (s : ConversationStage) (w : World) : Prop :=
  exists earlier from_stage reason later,
    AuditLogger.get_audit_trail sid w
    = (earlier ++ StateTransition sid from_stage s reason :: later)%list
    /\ Forall is_execution later.

(** What a handler called on [state] does to the session store and the
    audit trail: it stores nothing and logs executions only, and then
    [Q] holds; or the session of [state] is replaced by a state of the
    same id and history in a later stage, of which [P] holds, and the
    last transition logged is one into that stage. *)
Definition effect (state : ConversationState) (Q : Prop)
    (P : ConversationState -> Prop) (w w' : World) : Prop :=
  (sessions w' = sessions w /\ audit_quiet (session_id state) w w' /\ Q)
  \/ exists st',
       sessions w' = <[session_id state := st']> (sessions w)
       /\ session_id st' = session_id state
       /\ conversation_history st' = conversation_history state
       /\ (Reference.stage_rank (current_stage state)
           < Reference.stage_rank (current_stage st'))%nat
       /\ audit_moved (session_id state) (current_stage st') w w'
       /\ P st'.

End Invariant.

(** ** Fixtures: scripted collaborators for concrete runs *)

Module Fixtures.

Import LLMService.

(** The MD5 digests of the ten registry ids, as integers. *)
Definition mock_md5 (customer_id : string) : Z :=
  if String.eqb customer_id "CUST001" then 17353460874379043977677572086838236667
  else if String.eqb customer_id "CUST002" then 281560206588290886696915981366361855201
  else if String.eqb customer_id "CUST003" then 92884367192139789840377003801529385397
  else if String.eqb customer_id "CUST004" then 313433076333302052915518458294224256750
  else if String.eqb customer_id "CUST005" then 157711754654435980280213196562086857606
  else if String.eqb customer_id "CUST006" then 10478134299624570788728731450126216974
  else if String.eqb customer_id "CUST007" then 340188160300815829726732661077006883421
  else if String.eqb customer_id "CUST008" then 81726907042080350544593565904806181414
  else if String.eqb customer_id "CUST009" then 154836321744765824252803954455272379655
  else if String.eqb customer_id "CUST010" then 273933176413707115746955546709048435245
  else 0.

Definition sales_message : string := "I need 5 lakhs for 3 years".
Definition kyc_message : string := "Priya Sharma, PAN FGHIJ5678K, SALARIED".

(** What the pattern-based classifier answers on the two messages. *)
Definition scripted_classify (msg : string) (stage : ConversationStage)
    (history : list Message) : IntentDetectionResult :=
  match stage with
  | SALES => mkIntent "provide_tenure" 0.75 false
  | KYC => mkIntent "provide_pan" 1 false
  | _ => mkIntent "unknown" 0 true
  end.

Definition scripted_extract (msg intent : string) : Entities :=
  if String.eqb intent "provide_tenure" then mkEntities (Some 500000) (Some 36) None
  else if String.eqb intent "provide_pan" then mkEntities None None (Some "FGHIJ5678K")
  else mkEntities None None None.

Definition working_generator (si : SanctionAgent.SanctionInput)
  : Result (string * string) :=
  Ok ("outputs/sanction_letters/" ++ SanctionAgent.si_session_id si ++ ".pdf",
      "SL20260101A1B2C3").

(** A generator that cannot write its file. *)
Definition disk_full : string := "[Errno 28] No space left on device".

Definition failing_generator (si : SanctionAgent.SanctionInput)
  : Result (string * string) :=
  Raise (mkExn OSError disk_full).

Definition no_glyph (name : string) : string := "".
Definition no_format_Z (n : Z) : string := "#".
Definition no_format_Q (x : Q) : string := "#".

Definition empty_world : World := mkWorld ∅ [] [].

(** A conversation on the registry of the repository: the session is
    started in the empty world and the messages are processed in order. *)
Definition converse (generator : SanctionAgent.SanctionInput -> Result (string * string))
    (messages : list string) : list (string * option ConversationStage) * World :=
  let '(_, w) :=
    MasterAgent.start_conversation "sess_0001" empty_world in
  MasterAgent.run_turns mock_md5 MockData.CRM_DATABASE scripted_classify scripted_extract
    "validation error" generator no_glyph no_format_Z no_format_Q no_format_Q no_format_Z
    "sess_0001" messages w.

End Fixtures.

(** * Properties *)

(** ** Rational comparisons and rounding *)

Section RationalFacts.

Local Open Scope Q_scope.

Lemma Qlt_bool_iff (x y : Q) : Qlt_bool x y = true <-> x < y.
Proof.
  unfold Qlt_bool. rewrite negb_true_iff. split.
  - intros H. apply Qnot_le_lt. intros Hle.
    apply Qle_bool_iff in Hle. congruence.
  - intros H. destruct (Qle_bool y x) eqn:E; [|reflexivity].
    apply Qle_bool_iff in E. exfalso. exact (Qlt_not_le _ _ H E).
Qed.

Lemma Qlt_bool_false_iff (x y : Q) : Qlt_bool x y = false <-> y <= x.
Proof.
  unfold Qlt_bool. rewrite negb_false_iff. apply Qle_bool_iff.
Qed.

Lemma Qlt_bool_compat (x x' y y' : Q) :
  x == x' -> y == y' -> Qlt_bool x y = Qlt_bool x' y'.
Proof.
  intros Hx Hy. unfold Qlt_bool. now rewrite Hx, Hy.
Qed.

Lemma Qeq_bool_false_neq (x y : Q) : Qeq_bool x y = false -> ~ x == y.
Proof.
  intros H E. apply Qeq_bool_iff in E. congruence.
Qed.

Lemma py_max_Qmax (a b : Q) : py_max a b == Qmax a b.
Proof.
  unfold py_max, Qgt_bool. destruct (Qlt_bool a b) eqn:E.
  - apply Qlt_bool_iff in E. symmetry. apply Q.max_r. now apply Qlt_le_weak.
  - apply Qlt_bool_false_iff in E. symmetry. now apply Q.max_l.
Qed.

Lemma py_min_Qmin (a b : Q) : py_min a b == Qmin a b.
Proof.
  unfold py_min. destruct (Qlt_bool b a) eqn:E.
  - apply Qlt_bool_iff in E. symmetry. apply Q.min_r. now apply Qlt_le_weak.
  - apply Qlt_bool_false_iff in E. symmetry. now apply Q.min_l.
Qed.

(** The rounding is decided by the half-open unit interval around the
    result: anything strictly within a half of [k] rounds to [k]. *)
Lemma round_half_even_near (x : Q) (k : Z) :
  inject_Z k - (1 # 2) < x -> x < inject_Z k + (1 # 2) -> round_half_even x = k.
Proof.
  destruct x as [n d]. unfold Qlt, round_half_even. simpl.
  change (Z.pos (1 * 2)) with 2%Z.
  intros Hlo Hhi.
  pose proof (Z.div_mod n (Z.pos d) ltac:(lia)) as Hdm.
  pose proof (Z.mod_pos_bound n (Z.pos d) ltac:(lia)) as Hb.
  set (q := (n / Z.pos d)%Z) in *. set (r := (n mod Z.pos d)%Z) in *.
  clearbody q r.
  assert (Hlo' : ((2 * k - 1) * Z.pos d < 2 * n)%Z) by lia.
  assert (Hhi' : (2 * n < (2 * k + 1) * Z.pos d)%Z) by lia.
  destruct (Z.compare_spec (2 * r) (Z.pos d)) as [C|C|C].
  - exfalso.
    assert (E : (2 * n = (2 * q + 1) * Z.pos d)%Z) by lia.
    rewrite E in Hlo', Hhi'.
    apply Z.mul_lt_mono_pos_r in Hlo', Hhi'; lia.
  - assert (Hq1 : ((2 * k - 1) * Z.pos d < (2 * q + 1) * Z.pos d)%Z) by lia.
    assert (Hq2 : ((2 * q) * Z.pos d < (2 * k + 1) * Z.pos d)%Z) by lia.
    apply Z.mul_lt_mono_pos_r in Hq1, Hq2; lia.
  - assert (Hq1 : ((2 * k - 1) * Z.pos d < (2 * q + 2) * Z.pos d)%Z) by lia.
    assert (Hq2 : ((2 * q + 1) * Z.pos d < (2 * k + 1) * Z.pos d)%Z) by lia.
    apply Z.mul_lt_mono_pos_r in Hq1, Hq2; lia.
Qed.

(** A number of hundredths is its own rounding. *)
Lemma round2_hundredths (x : Q) (k : Z) : x == k # 100 -> round2 x == k # 100.
Proof.
  intros Hx. unfold round2.
  assert (H100 : x * 100 == inject_Z k).
  { rewrite Hx. unfold Qeq, Qmult, inject_Z. simpl. lia. }
  rewrite (round_half_even_near (x * 100) k); [reflexivity| |].
  - rewrite H100. unfold Qlt, Qminus, Qplus, Qopp, inject_Z. simpl. lia.
  - rewrite H100. unfold Qlt, Qplus, inject_Z. simpl. lia.
Qed.

Lemma round2_is_hundredths (x : Q) : round2 x = round_half_even (x * 100) # 100.
Proof. reflexivity. Qed.

(** Rounding is monotone in the weak sense needed for bounds: a value
    that is at least (at most) a number of hundredths stays so. *)
Lemma round_half_even_lower (x : Q) (k : Z) :
  inject_Z k <= x -> (k <= round_half_even x)%Z.
Proof.
  destruct x as [n d]. unfold Qle, round_half_even. simpl. intros H.
  pose proof (Z.div_mod n (Z.pos d) ltac:(lia)) as Hdm.
  pose proof (Z.mod_pos_bound n (Z.pos d) ltac:(lia)) as Hb.
  set (q := (n / Z.pos d)%Z) in *. set (r := (n mod Z.pos d)%Z) in *.
  clearbody q r.
  assert (Hk : (k * Z.pos d < (q + 1) * Z.pos d)%Z) by lia.
  apply Z.mul_lt_mono_pos_r in Hk; [|lia].
  destruct (2 * r ?= Z.pos d)%Z; [destruct (Z.even q)| |]; lia.
Qed.

Lemma round_half_even_upper (x : Q) (k : Z) :
  x <= inject_Z k -> (round_half_even x <= k)%Z.
Proof.
  destruct x as [n d]. unfold Qle, round_half_even. simpl. intros H.
  pose proof (Z.div_mod n (Z.pos d) ltac:(lia)) as Hdm.
  pose proof (Z.mod_pos_bound n (Z.pos d) ltac:(lia)) as Hb.
  set (q := (n / Z.pos d)%Z) in *. set (r := (n mod Z.pos d)%Z) in *.
  clearbody q r.
  destruct (Z.compare_spec (2 * r) (Z.pos d)) as [C|C|C].
  - assert (Hk : (2 * q * Z.pos d < 2 * k * Z.pos d)%Z) by lia.
    apply Z.mul_lt_mono_pos_r in Hk; [|lia].
    destruct (Z.even q); lia.
  - assert (Hk : (q * Z.pos d <= k * Z.pos d)%Z) by lia.
    apply Z.mul_le_mono_pos_r in Hk; lia.
  - assert (Hk : (2 * q * Z.pos d < 2 * k * Z.pos d)%Z) by lia.
    apply Z.mul_lt_mono_pos_r in Hk; lia.
Qed.

Lemma round2_nonneg (x : Q) : 0 <= x -> 0 <= round2 x.
Proof.
  intros H. unfold round2.
  assert (0 <= round_half_even (x * 100))%Z.
  { apply round_half_even_lower. change (inject_Z 0) with 0.
    apply Qmult_le_0_compat; [exact H|]. unfold Qle. simpl. lia. }
  unfold Qle. simpl. lia.
Qed.

End RationalFacts.

(** ** Underwriting decision engine *)

Section UnderwritingFacts.

Import UnderwritingAgent.
Local Open Scope Q_scope.

Lemma half_income_eq (income : Q) : income * 0.5 == Reference.half_of_income income.
Proof. unfold Reference.half_of_income. ring. Qed.

(** The bracket table of the code is the table of the specification. *)
Lemma max_amount_reference (score : Z) (income : Q) :
  (if (score >=? 750)%Z && Qge_bool income 75000 then 2000000%Z
   else if (score >=? 700)%Z && Qge_bool income 50000 then 1000000%Z
   else 500000%Z) = Reference.max_eligible score income.
Proof.
  unfold Reference.max_eligible, Qge_bool. now rewrite !Z.geb_leb.
Qed.

Lemma evaluate_eligibility_reference (score : Z) (income : Q) (amount : Z) (emi : Q) :
  fst (_evaluate_eligibility score income amount emi)
  = Reference.eligibility score income amount emi.
Proof.
  unfold _evaluate_eligibility, Reference.eligibility.
  destruct (score <? 700)%Z; [reflexivity|].
  unfold Qgt_bool.
  rewrite (Qlt_bool_compat (income * 0.5) (Reference.half_of_income income) emi emi
             (half_income_eq income) (Qeq_refl emi)).
  destruct (Qlt_bool (Reference.half_of_income income) emi); [reflexivity|].
  rewrite max_amount_reference, Z.gtb_ltb.
  now destruct (Reference.max_eligible score income <? amount)%Z.
Qed.






End UnderwritingFacts.

(** ** Rate composition *)

Section RateFacts.

Import UnderwritingAgent.
Local Open Scope Q_scope.

Lemma tenure_years_excess (tenure : Z) :
  inject_Z tenure / 12 - 3 == (tenure - 36) # 12.
Proof.
  unfold Qeq, Qminus, Qplus, Qopp, Qdiv, Qmult, Qinv, inject_Z. simpl. lia.
Qed.

Lemma tenure_adjustment_short (score tenure : Z) :
  (tenure <= 36)%Z ->
  tenure_adjustment (_calculate_rate_components score tenure) = 0 # 100.
Proof.
  intros H. unfold _calculate_rate_components. cbn [tenure_adjustment].
  unfold py_max, Qgt_bool.
  assert (E : Qlt_bool 0 (inject_Z tenure / 12 - 3) = false).
  { apply Qlt_bool_false_iff. rewrite tenure_years_excess.
    unfold Qle. simpl. lia. }
  rewrite E. reflexivity.
Qed.

(** No multiple of a sixth of the form (10 u) / 6 lies half-way between
    two integers. *)
Lemma nearest_sixth (u : Z) :
  let k := ((10 * u + 3) / 6)%Z in (6 * k - 3 < 10 * u < 6 * k + 3)%Z.
Proof.
  intros k.
  pose proof (Z.div_mod (10 * u + 3) 6 ltac:(lia)) as Hdm.
  pose proof (Z.mod_pos_bound (10 * u + 3) 6 ltac:(lia)) as Hb.
  fold k in Hdm. clearbody k.
  set (r := ((10 * u + 3) mod 6)%Z) in *. clearbody r.
  lia.
Qed.

Lemma tenure_adjustment_long (score tenure : Z) :
  (36 < tenure)%Z ->
  tenure_adjustment (_calculate_rate_components score tenure)
  = ((10 * (tenure - 36) + 3) / 6)%Z # 100.
Proof.
  intros H. unfold _calculate_rate_components. cbn [tenure_adjustment].
  unfold py_max, Qgt_bool.
  assert (E : Qlt_bool 0 (inject_Z tenure / 12 - 3) = true).
  { apply Qlt_bool_iff. rewrite tenure_years_excess.
    unfold Qlt. simpl. lia. }
  rewrite E. unfold round2. f_equal.
  assert (Hx : 0.2 * (inject_Z tenure / 12 - 3) * 100 == (5 * (tenure - 36)) # 3).
  { rewrite tenure_years_excess. unfold Qeq, Qmult. simpl. lia. }
  pose proof (nearest_sixth (tenure - 36)) as Hk. cbv zeta in Hk.
  apply round_half_even_near; rewrite Hx;
    unfold Qlt, Qminus, Qplus, Qopp, inject_Z; cbn [Qnum Qden];
    change (Z.pos (1 * 2)) with 2%Z; lia.
Qed.


(** The adjustment in closed form: the hundredths nearest to
    (tenure - 36) / 60 of a per cent beyond 36 months, and 0 up to
    there. *)
Lemma tenure_adjustment_closed_form (score tenure : Z) :
  tenure_adjustment (_calculate_rate_components score tenure)
  = (if (tenure <=? 36)%Z then 0%Z else ((10 * (tenure - 36) + 3) / 6)%Z) # 100.
Proof.
  destruct (Z.leb_spec tenure 36).
  - now apply tenure_adjustment_short.
  - now apply tenure_adjustment_long.
Qed.

(** At whole years the pro-rata adjustment is +0.2% per year beyond
    three. *)
Lemma tenure_adjustment_whole_years (score years : Z) :
  (3 <= years)%Z ->
  tenure_adjustment (_calculate_rate_components score (12 * years))
  == 0.2 * inject_Z (years - 3).
Proof.
  intros H. rewrite tenure_adjustment_closed_form.
  destruct (Z.leb_spec (12 * years) 36).
  - assert (years = 3)%Z by lia. subst. reflexivity.
  - replace (10 * (12 * years - 36) + 3)%Z with (3 + (20 * (years - 3)) * 6)%Z by lia.
    rewrite Z.div_add by lia. change (3 / 6)%Z with 0%Z.
    unfold Qeq, Qmult, inject_Z. cbn [Qnum Qden]. lia.
Qed.


Lemma credit_adjustment_hundredths (score tenure : Z) :
  exists a : Z, credit_adjustment (_calculate_rate_components score tenure) = a # 100.
Proof. eexists. unfold _calculate_rate_components. cbn [credit_adjustment]. reflexivity. Qed.

Lemma tenure_adjustment_hundredths (score tenure : Z) :
  exists b : Z, tenure_adjustment (_calculate_rate_components score tenure) = b # 100.
Proof. eexists. unfold _calculate_rate_components. cbn [tenure_adjustment]. reflexivity. Qed.

(** Clamping a number of hundredths gives a number of hundredths. *)
Lemma clamp_hundredths (k : Z) :
  exists k' : Z, Reference.clamp (k # 100) == k' # 100.
Proof.
  unfold Reference.clamp.
  destruct (Q.min_spec 18.0 (k # 100)) as [[_ E]|[_ E]];
    destruct (Q.max_spec 9.5 (Qmin 18.0 (k # 100))) as [[_ E']|[_ E']].
  - exists 1800%Z. rewrite E', E. reflexivity.
  - exists 950%Z. rewrite E'. reflexivity.
  - exists k. rewrite E', E. reflexivity.
  - exists 950%Z. rewrite E'. reflexivity.
Qed.


Lemma py_clamp_reference (rate : Q) :
  py_max MIN_INTEREST_RATE (py_min MAX_INTEREST_RATE rate) == Reference.clamp rate.
Proof.
  unfold Reference.clamp, MIN_INTEREST_RATE, MAX_INTEREST_RATE.
  rewrite py_max_Qmax. apply Q.max_compat; [reflexivity|apply py_min_Qmin].
Qed.

(** The last rounding leaves the clamped sum of rounded components as
    it is. *)
Lemma apply_rate_bounds_hundredths (k : Z) (rate : Q) :
  rate == k # 100 -> _apply_rate_bounds rate == Reference.clamp rate.
Proof.
  intros Hr. unfold _apply_rate_bounds.
  destruct (clamp_hundredths k) as [k' Hk'].
  assert (Hc : py_max MIN_INTEREST_RATE (py_min MAX_INTEREST_RATE rate) == k' # 100).
  { rewrite py_clamp_reference. unfold Reference.clamp in *. now rewrite Hr. }
  rewrite (round2_hundredths _ k' Hc).
  rewrite <- Hc. apply py_clamp_reference.
Qed.

Lemma final_rate_clamped (score tenure : Z) :
  let rc := _calculate_rate_components score tenure in
  let total := BASE_RATE + credit_adjustment rc + tenure_adjustment rc in
  _apply_rate_bounds total == Reference.clamp total.
Proof.
  intros rc total.
  destruct (credit_adjustment_hundredths score tenure) as [a Ha].
  destruct (tenure_adjustment_hundredths score tenure) as [b Hb].
  apply (apply_rate_bounds_hundredths (1100 + a + b)).
  subst total rc. rewrite Ha, Hb. unfold BASE_RATE, Qeq, Qplus. simpl. lia.
Qed.


End RateFacts.

(** ** EMI calculator *)

Section EmiFacts.

Import EmiCalculator.
Local Open Scope Q_scope.

Lemma Qeq_bool_false_intro (x y : Q) : ~ x == y -> Qeq_bool x y = false.
Proof.
  intros H. destruct (Qeq_bool x y) eqn:E; [|reflexivity].
  apply Qeq_bool_iff in E. contradiction.
Qed.

(** C4 does not hold for every rate: with an annual rate of -2400 the
    monthly rate is -2, which is not 0, and over 2 months the compound
    factor is 1, so the division fails and no amount is returned. *)
Lemma calculate_emi_division_by_zero :
  (2 <> 0)%Z
  /\ ~ (-2400) / (12 * 100) == 0
  /\ calculate_emi 1000 (-2400) 2
     = Raise (mkExn ZeroDivisionError "float division by zero")
  /\ is_ok (calculate_emi 1000 (-2400) 2) = false.
Proof.
  split; [lia|]. split; [intros H; discriminate H|]. split; reflexivity.
Qed.

(** Over exact rationals the function is [calculate_emi]. *)
Lemma calculate_emi_exact (p r : Q) (n : Z) :
  calculate_emi p r n = calculate_emi_with exact_arith p r n.
Proof.
  unfold calculate_emi, calculate_emi_with.
  destruct (Z.eqb_spec n 0) as [|Hn]; [reflexivity|].
  change (f_div exact_arith r (f_lit exact_arith (12 * 100))) with (r / (12 * 100)).
  change (f_is_zero exact_arith (r / (12 * 100))) with (Qeq_bool (r / (12 * 100)) 0).
  destruct (Qeq_bool (r / (12 * 100)) 0); reflexivity.
Qed.

(** C4, amended.  In the arithmetic of the machine, whatever it is,
    with m = r / 1200: the EMI is 0 for a tenure of 0; it is p / n, not
    rounded, when the tenure is not 0 and m is 0, unless the tenure is
    out of the range of a float; otherwise the compound factor
    a = (1 + m) ** n is computed: when the power raises, the function
    raises the same exception and returns nothing; when a - 1 is 0 the
    division raises ZeroDivisionError; and else the EMI is
    p m a / (a - 1), each operation being the machine's, rounded to two
    decimals.  Over exact rationals this function is the one of the
    counterexample. *)
Theorem calculate_emi_cases {F : Type} (A : Arith F) (p r : F) (n : Z) :
  let m := f_div A r (f_lit A (12 * 100)) in
  let factor := f_pow A (f_add A (f_lit A 1) m) n in
  (n = 0%Z -> calculate_emi_with A p r n = Ok (f_lit A 0))
  /\ (n <> 0%Z -> f_is_zero A m = true ->
      calculate_emi_with A p r n = (let* k := f_of_int A n in Ok (f_div A p k)))
  /\ (n <> 0%Z -> f_is_zero A m = false ->
      forall e, factor = Raise e -> calculate_emi_with A p r n = Raise e)
  /\ (n <> 0%Z -> f_is_zero A m = false ->
      forall a, factor = Ok a -> f_is_zero A (f_sub A a (f_lit A 1)) = true ->
      calculate_emi_with A p r n
      = Raise (mkExn ZeroDivisionError "float division by zero"))
  /\ (n <> 0%Z -> f_is_zero A m = false ->
      forall a, factor = Ok a -> f_is_zero A (f_sub A a (f_lit A 1)) = false ->
      calculate_emi_with A p r n
      = Ok (f_round2 A (f_div A (f_mul A (f_mul A p m) a) (f_sub A a (f_lit A 1)))))
  /\ (forall (p r : Q) (n : Z),
        calculate_emi p r n = calculate_emi_with exact_arith p r n).
Proof.
  intros m factor.
  assert (Hnz : n <> 0%Z -> (n =? 0)%Z = false) by (intros H; now apply Z.eqb_neq).
  split; [intros ->; reflexivity|].
  split.
  { intros Hn Hm. unfold calculate_emi_with. fold m. now rewrite (Hnz Hn), Hm. }
  split.
  { intros Hn Hm e He. unfold calculate_emi_with. fold m. fold factor.
    now rewrite (Hnz Hn), Hm, He. }
  split.
  { intros Hn Hm a Ha Hz. unfold calculate_emi_with. fold m. fold factor.
    rewrite (Hnz Hn), Hm, Ha. cbn [bind]. unfold truediv. now rewrite Hz. }
  split.
  { intros Hn Hm a Ha Hz. unfold calculate_emi_with. fold m. fold factor.
    rewrite (Hnz Hn), Hm, Ha. cbn [bind]. unfold truediv. now rewrite Hz. }
  apply calculate_emi_exact.
Qed.

Lemma calculate_emi_cases_witness :
  calculate_emi_with exact_arith 500000 10.5 36
  = Ok (round2 (500000 * (10.5 / (12 * 100)) * (1 + 10.5 / (12 * 100)) ^ 36
                / ((1 + 10.5 / (12 * 100)) ^ 36 - 1)))
  /\ calculate_emi_with exact_arith 500000 10.5 36 = Ok 16251.22
  /\ calculate_emi 500000 10.5 36 = Ok 16251.22.
Proof.
  destruct (calculate_emi_cases exact_arith 500000 10.5 36) as (_ & _ & _ & _ & H & E).
  split; [|split; [vm_compute; reflexivity|rewrite E; vm_compute; reflexivity]].
  apply (H ltac:(discriminate) eq_refl ((1 + 10.5 / (12 * 100)) ^ 36) eq_refl).
  vm_compute. reflexivity.
Defined.

End EmiFacts.

(** ** Requirement collector *)

Section SalesFacts.

Import SalesAgent.
Local Open Scope Q_scope.

(** C9 does not hold for negative values: only an absent or zero value
    is refused, and a negative principal is quoted. *)
Lemma negative_principal_is_quoted :
  (-500000 <= 0)%Z
  /\ is_ok (execute (mkInputData (Some (-500000)%Z) (Some 36%Z))) = true
  /\ execute (mkInputData (Some (-500000)%Z) (Some 36%Z))
     = Ok (mkSalesOutput (-500000) 36 (-1708881 # 100) "13% - 15%").
Proof.
  split; [lia|]. split; vm_compute; reflexivity.
Qed.

(** C9, amended.  When the principal or the tenure is absent or zero
    the computation fails with the validation error and produces no
    quote. *)
Theorem missing_or_zero_is_refused (input_data : InputData) :
  requested_amount input_data = None \/ requested_amount input_data = Some 0%Z
  \/ tenure_months input_data = None \/ tenure_months input_data = Some 0%Z ->
  execute input_data = Raise missing_fields
  /\ is_ok (execute input_data) = false.
Proof.
  intros H. unfold execute.
  destruct (requested_amount input_data) as [amount|],
           (tenure_months input_data) as [tenure|];
    try (split; reflexivity).
  assert (E : (amount =? 0)%Z || (tenure =? 0)%Z = true).
  { apply orb_true_iff.
    destruct H as [H|[H|[H|H]]]; try discriminate H;
      injection H as ->; [left|right]; reflexivity. }
  rewrite E. split; reflexivity.
Qed.

Lemma missing_or_zero_is_refused_witness :
  execute (mkInputData (Some 0%Z) (Some 36%Z)) = Raise missing_fields
  /\ is_ok (execute (mkInputData (Some 0%Z) (Some 36%Z))) = false.
Proof.
  apply (missing_or_zero_is_refused (mkInputData (Some 0%Z) (Some 36%Z))).
  right. left. reflexivity.
Defined.

End SalesFacts.

(** ** KYC validator *)

Section KycFacts.

Import VerificationAgent.


Lemma upper_char_idempotent (c : ascii) : upper_char (upper_char c) = upper_char c.
Proof.
  destruct c as [[] [] [] [] [] [] [] []]; reflexivity.
Qed.

Lemma upper_idempotent (s : string) : upper (upper s) = upper s.
Proof.
  induction s as [|c s IH]; [reflexivity|].
  cbn [upper map_string]. f_equal; [apply upper_char_idempotent|exact IH].
Qed.


(** The guard on strings: when the name, the PAN or the employment type
    is absent or empty after trimming, the validator raises the
    validation error and the world is as before. *)
Lemma blank_field_raises (db : list (string * MockData.Customer))
    (input_data : InputData) (w : World) :
  strip (get_or_empty (name input_data)) = ""
  \/ strip (get_or_empty (pan input_data)) = ""
  \/ strip (get_or_empty (employment_type input_data)) = "" ->
  execute db input_data w = (Raise missing_kyc_fields, w).
Proof.
  intros H. unfold execute.
  destruct H as [H|[H|H]]; rewrite H; cbn [upper map_string String.eqb orb];
    rewrite ?orb_true_r; reflexivity.
Qed.

(** C10 fails on the code for a value that is [None].  On an input
    dict whose string values are written in ASCII: when one of the
    three values is [None] the validator raises AttributeError, not
    the validation error; when none is [None] and
    the name, the PAN or the employment type is absent or empty after
    trimming, it raises the validation error, a ValueError.  In both
    cases it returns no result, and the world, with the record of the
    registry queries in it, is as before. *)
Theorem missing_field_raises (db : list (string * MockData.Customer))
    (d : InputDict) (w : World) :
  is_ascii (get_or_empty (as_str (d_name d))) = true ->
  is_ascii (get_or_empty (as_str (d_pan d))) = true ->
  is_ascii (get_or_empty (as_str (d_employment_type d))) = true ->
  (is_none (d_name d) || is_none (d_pan d) || is_none (d_employment_type d) = true ->
   execute_dict db d w = (Raise none_has_no_strip, w)
   /\ exn_class none_has_no_strip = AttributeError)
  /\ (is_none (d_name d) || is_none (d_pan d) || is_none (d_employment_type d) = false ->
      strip (get_or_empty (as_str (d_name d))) = ""
      \/ strip (get_or_empty (as_str (d_pan d))) = ""
      \/ strip (get_or_empty (as_str (d_employment_type d))) = "" ->
      execute_dict db d w = (Raise missing_kyc_fields, w)
      /\ exn_class missing_kyc_fields = ValueError)
  /\ (is_none (d_name d) || is_none (d_pan d) || is_none (d_employment_type d) = true
      \/ strip (get_or_empty (as_str (d_name d))) = ""
      \/ strip (get_or_empty (as_str (d_pan d))) = ""
      \/ strip (get_or_empty (as_str (d_employment_type d))) = "" ->
      is_ok (fst (execute_dict db d w)) = false
      /\ crm_queries (snd (execute_dict db d w)) = crm_queries w).
Proof.
  intros _ _ _.
  assert (Hnone : is_none (d_name d) || is_none (d_pan d)
                  || is_none (d_employment_type d) = true ->
                  execute_dict db d w = (Raise none_has_no_strip, w)).
  { intros H. unfold execute_dict. now rewrite H. }
  assert (Hblank : is_none (d_name d) || is_none (d_pan d)
                   || is_none (d_employment_type d) = false ->
                   strip (get_or_empty (as_str (d_name d))) = ""
                   \/ strip (get_or_empty (as_str (d_pan d))) = ""
                   \/ strip (get_or_empty (as_str (d_employment_type d))) = "" ->
                   execute_dict db d w = (Raise missing_kyc_fields, w)).
  { intros H Hb. unfold execute_dict. rewrite H. now apply blank_field_raises. }
  split; [intros H; split; [now apply Hnone|reflexivity]|].
  split; [intros H Hb; split; [now apply Hblank|reflexivity]|].
  intros H.
  destruct (is_none (d_name d) || is_none (d_pan d) || is_none (d_employment_type d))
    eqn:E.
  - rewrite (Hnone eq_refl). split; reflexivity.
  - destruct H as [H|H]; [discriminate H|].
    rewrite (Hblank eq_refl H). split; reflexivity.
Qed.

Lemma missing_field_raises_witness :
  execute_dict MockData.CRM_DATABASE
    (mkInputDict (Some VNone) (Some (VStr "ABCDE1234F")) (Some (VStr "SALARIED")))
    Fixtures.empty_world
  = (Raise none_has_no_strip, Fixtures.empty_world)
  /\ exn_class none_has_no_strip = AttributeError.
Proof.
  apply (missing_field_raises MockData.CRM_DATABASE
           (mkInputDict (Some VNone) (Some (VStr "ABCDE1234F"))
              (Some (VStr "SALARIED")))
           Fixtures.empty_world);
    reflexivity.
Defined.




End KycFacts.

(** ** KYC validator against the registry *)

Section RegistryFacts.

Import VerificationAgent.

(** A VERIFIED result carries the registry's employment type and
    income; the stated type is then the registry's, so that the flags
    are LOW_INCOME below 25,000 and nothing else. *)
Lemma verified_result_shape (db : list (string * MockData.Customer))
    (input_data : InputData) (w w' : World) (out : VerificationOutput) :
  execute db input_data w = (Ok out, w') ->
  kyc_status out = KYC_VERIFIED ->
  exists cid c,
    MockData.lookup_by_pan db (upper (strip (get_or_empty (pan input_data))))
      = Some (cid, c)
    /\ MockData.c_employment_type c
       = upper (strip (get_or_empty (employment_type input_data)))
    /\ vo_employment_type out = MockData.c_employment_type c
    /\ vo_monthly_income out = inject_Z (MockData.c_monthly_income c)
    /\ risk_flags out
       = (if MockData.c_monthly_income c <? 25000 then ["LOW_INCOME"] else []).
Proof.
  unfold execute.
  destruct (String.eqb _ "" || String.eqb _ "" || String.eqb _ ""); [discriminate|].
  destruct (negb (_validate_pan_format _)).
  { intros [= <- _]. discriminate. }
  unfold MockCRMService.verify_customer, MockData.verify_customer.
  destruct (MockData.lookup_by_pan db _) as [[cid c]|] eqn:Hl.
  2:{ intros [= <- _]. discriminate. }
  destruct (contains _ _ || contains _ _); cbn [andb].
  2:{ cbn [negb]. intros [= <- _]. discriminate. }
  destruct (String.eqb (MockData.c_employment_type c) (upper (upper _))) eqn:He;
    cbn [negb].
  2:{ intros [= <- _]. discriminate. }
  rewrite upper_idempotent in He. rewrite He. cbn [negb].
  intros [= <- _] _. apply String.eqb_eq in He.
  exists cid, c. repeat split; try assumption.
  cbn [risk_flags]. now rewrite app_nil_r.
Qed.

Lemma verified_never_flags_employment (db : list (string * MockData.Customer))
    (input_data : InputData) (w w' : World) (out : VerificationOutput) :
  execute db input_data w = (Ok out, w') ->
  kyc_status out = KYC_VERIFIED ->
  ~ In "EMPLOYMENT_TYPE_MISMATCH" (risk_flags out).
Proof.
  intros He Hs.
  destruct (verified_result_shape db input_data w w' out He Hs)
    as (cid & c & _ & _ & _ & _ & Hf).
  rewrite Hf. destruct (MockData.c_monthly_income c <? 25000); cbn.
  - intros [H|[]]. discriminate H.
  - intros [].
Qed.

(** C7 fails on the code.  The registry resolves the identifier
    ABCDE1234F to Rajesh Kumar, SALARIED; stated as BUSINESS, the
    customer is not verified with an EMPLOYMENT_TYPE_MISMATCH flag but
    failed with DATA_MISMATCH, and no income is carried. *)
Theorem employment_mismatch_is_rejected :
  MockData.lookup_by_pan MockData.CRM_DATABASE "ABCDE1234F"
    = Some ("CUST001", MockData.mkCustomer "Rajesh Kumar" "ABCDE1234F" "SALARIED" 75000)
  /\ execute MockData.CRM_DATABASE
       (mkInputData (Some "Rajesh Kumar") (Some "ABCDE1234F") (Some "BUSINESS"))
       Fixtures.empty_world
     = (Ok (mkVerificationOutput KYC_FAILED "BUSINESS" 0 ["DATA_MISMATCH"]),
        mkWorld ∅ [] ["ABCDE1234F"])
  /\ execute MockData.CRM_DATABASE
       (mkInputData (Some "Rajesh Kumar") (Some "ABCDE1234F") (Some "SALARIED"))
       Fixtures.empty_world
     = (Ok (mkVerificationOutput KYC_VERIFIED "SALARIED" 75000 []),
        mkWorld ∅ [] ["ABCDE1234F"]).
Proof. repeat split. Qed.

End RegistryFacts.

(** ** Orchestrator *)

Section OrchestratorFacts.

Import MasterAgent LLMService Reference.

Variable md5_int : string -> Z.
Variable crm : list (string * MockData.Customer).
Variable classify : string -> ConversationStage -> list Message -> IntentDetectionResult.
Variable extract_entities : string -> string -> Entities.
Variable validation_error_text : string.
Variable generate_sanction_letter : SanctionAgent.SanctionInput -> Result (string * string).
Variable glyph : string -> string.
Variable fmt_grouped : Z -> string.
Variable fmt_money : Q -> string.
Variable fmt_float : Q -> string.
Variable fmt_int : Z -> string.

Local Abbreviation sanction_attempt :=
  (_sanction_attempt validation_error_text generate_sanction_letter).
Local Abbreviation handle_sanction :=
  (_handle_sanction_stage validation_error_text generate_sanction_letter glyph
     fmt_money fmt_int).
Local Abbreviation handle_underwriting :=
  (_handle_underwriting_stage md5_int validation_error_text generate_sanction_letter
     glyph fmt_grouped fmt_money fmt_float fmt_int).
Local Abbreviation kyc_verified :=
  (_kyc_verified md5_int crm validation_error_text generate_sanction_letter glyph
     fmt_grouped fmt_money fmt_float fmt_int).
Local Abbreviation handle_kyc :=
  (_handle_kyc_stage md5_int crm extract_entities validation_error_text
     generate_sanction_letter glyph fmt_grouped fmt_money fmt_float fmt_int).
Local Abbreviation handle_sales :=
  (_handle_sales_stage extract_entities glyph fmt_grouped fmt_money fmt_int).
Local Abbreviation process_by_stage :=
  (_process_by_stage md5_int crm extract_entities validation_error_text
     generate_sanction_letter glyph fmt_grouped fmt_money fmt_float fmt_int).
Local Abbreviation process :=
  (process_message md5_int crm classify extract_entities validation_error_text
     generate_sanction_letter glyph fmt_grouped fmt_money fmt_float fmt_int).
Local Abbreviation turns :=
  (run_turns md5_int crm classify extract_entities validation_error_text
     generate_sanction_letter glyph fmt_grouped fmt_money fmt_float fmt_int).

(** *** The stage graph *)

Lemma advances_rank (s s' : ConversationStage) :
  advances s s' -> (stage_rank s <= stage_rank s')%nat.
Proof.
  induction 1 as [|s1 s2 s3 Hedge _ IH]; [lia|].
  etransitivity; [|exact IH].
  destruct Hedge; cbn; try lia.
  destruct s; cbn in *; try lia; discriminate.
Qed.

Lemma advances_terminal (s s' : ConversationStage) :
  is_terminal s = true -> advances s s' -> s' = s.
Proof.
  intros Ht H. destruct H as [|s1 s2 s3 Hedge _]; [reflexivity|].
  destruct Hedge; try discriminate Ht. congruence.
Qed.

Lemma advances_step (s s' : ConversationStage) : stage_edge s s' -> advances s s'.
Proof. apply rtc_once. Qed.

(** *** What leaves the session store alone *)

Lemma in_stage_sessions (sid : string) (s : ConversationStage) (w w' : World) :
  sessions w' = sessions w -> session_in_stage sid s w -> session_in_stage sid s w'.
Proof. unfold session_in_stage. now intros ->. Qed.

Lemma run_pure_sessions {I O : Type} (agent : string) (f : I -> Result O) (i : I)
    (s : string) (w : World) :
  sessions (snd (BaseAgent.run agent (BaseAgent.pure_execute f) i s w)) = sessions w.
Proof.
  unfold BaseAgent.run, BaseAgent.pure_execute. now destruct (f i).
Qed.

Lemma verification_sessions (i : VerificationAgent.InputData) (w : World) :
  sessions (snd (VerificationAgent.execute crm i w)) = sessions w.
Proof.
  unfold VerificationAgent.execute.
  destruct (String.eqb _ "" || String.eqb _ "" || String.eqb _ ""); [reflexivity|].
  destruct (negb _); [reflexivity|].
  unfold MockCRMService.verify_customer.
  destruct (MockData.verify_customer _ _ _ _) as [[v c] [[? ?]|]];
    [destruct (negb v)|]; reflexivity.
Qed.

Lemma run_verification_sessions (i : VerificationAgent.InputData) (s : string) (w : World) :
  sessions (snd (BaseAgent.run "VerificationAgent" (VerificationAgent.execute crm) i s w))
  = sessions w.
Proof.
  unfold BaseAgent.run.
  pose proof (verification_sessions i w) as H.
  destruct (VerificationAgent.execute crm i w) as [[out|e] w1]; exact H.
Qed.

Lemma sanction_attempt_sessions (state : ConversationState) (uw : UnderwritingOutput)
    (w : World) :
  sessions (snd (sanction_attempt state uw w)) = sessions w.
Proof.
  unfold _sanction_attempt.
  destruct (sales_data state); [|reflexivity].
  destruct (EmiCalculator.calculate_emi _ _ _); [|reflexivity].
  match goal with
  | |- context [BaseAgent.run ?a ?f ?i ?s ?w0] =>
      pose proof (run_pure_sessions a
                    (SanctionAgent.execute validation_error_text generate_sanction_letter)
                    i s w0) as H;
      destruct (BaseAgent.run a f i s w0) as [[out|e] w1]
  end; exact H.
Qed.

(** *** What writes the session *)

Lemma in_stage_save (sid : string) (st : ConversationState) (w : World) :
  session_id st = sid ->
  session_in_stage sid (current_stage st) (StateManager.save_state st w).
Proof.
  intros <-. exists st. unfold StateManager.save_state. cbn [sessions].
  now rewrite lookup_insert_eq.
Qed.

Lemma in_stage_transition (sid : string) (st : ConversationState)
    (s' : ConversationStage) (reason : string) (w : World) :
  session_id st = sid ->
  session_id (fst (_transition_stage st s' reason w)) = sid
  /\ current_stage (fst (_transition_stage st s' reason w)) = s'
  /\ session_in_stage sid s' (snd (_transition_stage st s' reason w)).
Proof.
  intros H. unfold _transition_stage. cbn [fst snd].
  repeat split; [exact H|].
  eapply in_stage_sessions;
    [|apply (in_stage_save sid (set_current_stage st s') w); exact H].
  reflexivity.
Qed.

Lemma in_stage_add_message (sid role content : string) (s : ConversationStage)
    (w : World) :
  session_in_stage sid s w ->
  session_in_stage sid s (StateManager.add_message sid role content w).
Proof.
  intros (st & Hl & Hid & Hs). unfold StateManager.add_message, StateManager.load_state.
  rewrite Hl. rewrite <- Hs.
  apply (in_stage_save sid (set_conversation_history st _) w). exact Hid.
Qed.

(** *** The handlers *)

Lemma sanction_outcome (sid : string) (state : ConversationState) (w : World) :
  session_id state = sid ->
  session_in_stage sid (current_stage state) w ->
  session_in_stage sid (current_stage state) (snd (handle_sanction state w))
  \/ session_in_stage sid COMPLETED (snd (handle_sanction state w)).
Proof.
  intros Hid Hin. unfold _handle_sanction_stage.
  destruct (underwriting_data state) as [uw|]; [|left; exact Hin].
  pose proof (sanction_attempt_sessions state uw w) as Hs.
  destruct (sanction_attempt state uw w) as [[[final_emi out]|e] w1]; cbn [snd] in Hs.
  - right.
    match goal with
    | |- context [_transition_stage ?st ?s ?r ?w0] =>
        destruct (in_stage_transition sid st s r w0 Hid) as (_ & _ & H);
        destruct (_transition_stage st s r w0) as [st3 w3]
    end.
    exact H.
  - left. eapply in_stage_sessions; eassumption.
Qed.

Lemma underwriting_outcome (sid : string) (state : ConversationState) (w : World) :
  session_id state = sid ->
  session_in_stage sid (current_stage state) w ->
  session_in_stage sid (current_stage state) (snd (handle_underwriting state w))
  \/ session_in_stage sid FAILED (snd (handle_underwriting state w))
  \/ session_in_stage sid SANCTION (snd (handle_underwriting state w))
  \/ session_in_stage sid COMPLETED (snd (handle_underwriting state w)).
Proof.
  intros Hid Hin. unfold _handle_underwriting_stage.
  destruct (sales_data state) as [sales|]; [|left; exact Hin].
  destruct (kyc_data state) as [kyc|]; [|left; exact Hin].
  match goal with
  | |- context [BaseAgent.run ?a (BaseAgent.pure_execute ?f) ?i ?s ?w0] =>
      pose proof (run_pure_sessions a f i s w0) as Hs;
      destruct (BaseAgent.run a (BaseAgent.pure_execute f) i s w0) as [[uw|e] w1]
  end; cbn [snd] in Hs.
  2:{ left. eapply in_stage_sessions; eassumption. }
  destruct (decision uw).
  - (* APPROVED *)
    match goal with
    | |- context [_transition_stage ?st ?s ?r ?w0] =>
        destruct (in_stage_transition sid st s r w0 Hid) as (Hid2 & Hst2 & Hin2);
        destruct (_transition_stage st s r w0) as [state2 w3]
    end.
    cbn [fst snd] in Hid2, Hst2, Hin2. rewrite <- Hst2 in Hin2.
    destruct (sanction_outcome sid state2 w3 Hid2 Hin2) as [H|H];
      destruct (handle_sanction state2 w3) as [resp w4]; cbn [snd] in *.
    + right; right; left. now rewrite Hst2 in H.
    + right; right; right. exact H.
  - (* CONDITIONAL *)
    match goal with
    | |- context [_transition_stage ?st ?s ?r ?w0] =>
        destruct (in_stage_transition sid st s r w0 Hid) as (Hid2 & Hst2 & Hin2);
        destruct (_transition_stage st s r w0) as [state2 w3]
    end.
    cbn [fst snd] in Hid2, Hst2, Hin2. rewrite <- Hst2 in Hin2.
    destruct (sanction_outcome sid state2 w3 Hid2 Hin2) as [H|H];
      destruct (handle_sanction state2 w3) as [resp w4]; cbn [snd] in *.
    + right; right; left. now rewrite Hst2 in H.
    + right; right; right. exact H.
  - (* REJECTED *)
    right; left.
    match goal with
    | |- context [_transition_stage ?st ?s ?r ?w0] =>
        destruct (in_stage_transition sid st s r w0 Hid) as (_ & _ & H);
        destruct (_transition_stage st s r w0) as [st3 w3]
    end.
    exact H.
Qed.

Lemma kyc_verified_outcome (sid : string) (state : ConversationState)
    (name pan : string) (out : VerificationOutput) (w : World) :
  session_id state = sid ->
  session_in_stage sid (current_stage state) w ->
  session_in_stage sid (current_stage state) (snd (kyc_verified state name pan out w))
  \/ session_in_stage sid FAILED (snd (kyc_verified state name pan out w))
  \/ session_in_stage sid UNDERWRITING (snd (kyc_verified state name pan out w))
  \/ session_in_stage sid SANCTION (snd (kyc_verified state name pan out w))
  \/ session_in_stage sid COMPLETED (snd (kyc_verified state name pan out w)).
Proof.
  intros Hid Hin. unfold _kyc_verified, MockCRMService.lookup_by_pan.
  destruct (MockData.lookup_by_pan crm pan) as [[cid c]|]; cbn [snd].
  2:{ left. eapply in_stage_sessions; [|exact Hin]. reflexivity. }
  match goal with
  | |- context [_transition_stage ?st ?s ?r ?w0] =>
      destruct (in_stage_transition sid st s r w0 Hid) as (Hid3 & Hst3 & Hin3);
      destruct (_transition_stage st s r w0) as [state3 w4]
  end.
  cbn [fst snd] in Hid3, Hst3, Hin3. rewrite <- Hst3 in Hin3.
  destruct (underwriting_outcome sid state3 w4 Hid3 Hin3) as [H|[H|[H|H]]].
  - right; right; left. now rewrite Hst3 in H.
  - right; left. exact H.
  - right; right; right; left. exact H.
  - right; right; right; right. exact H.
Qed.

Lemma kyc_outcome (sid : string) (state : ConversationState) (msg intent : string)
    (w : World) :
  session_id state = sid ->
  session_in_stage sid (current_stage state) w ->
  session_in_stage sid (current_stage state) (snd (handle_kyc state msg intent w))
  \/ session_in_stage sid FAILED (snd (handle_kyc state msg intent w))
  \/ session_in_stage sid UNDERWRITING (snd (handle_kyc state msg intent w))
  \/ session_in_stage sid SANCTION (snd (handle_kyc state msg intent w))
  \/ session_in_stage sid COMPLETED (snd (handle_kyc state msg intent w)).
Proof.
  intros Hid Hin. unfold _handle_kyc_stage.
  destruct (extract_name _) as [name|]; [|left; exact Hin].
  destruct (e_pan _) as [pan|]; [|left; exact Hin].
  destruct (find_employment_type _) as [et|]; [|left; exact Hin].
  destruct (negb _ && negb _ && negb _); [|left; exact Hin].
  match goal with
  | |- context [BaseAgent.run ?a ?f ?i ?s ?w0] =>
      pose proof (run_verification_sessions i s w0) as Hs;
      destruct (BaseAgent.run a f i s w0) as [[out|e] w1]
  end; cbn [snd] in Hs.
  2:{ left. eapply in_stage_sessions; eassumption. }
  assert (Hin1 : session_in_stage sid (current_stage state) w1)
    by (eapply in_stage_sessions; eassumption).
  destruct (kyc_status out);
    try exact (kyc_verified_outcome sid state name pan out w1 Hid Hin1).
  right; left.
  match goal with
  | |- context [_transition_stage ?st ?s ?r ?w0] =>
      destruct (in_stage_transition sid st s r w0 Hid) as (_ & _ & H);
      destruct (_transition_stage st s r w0) as [st3 w3]
  end.
  exact H.
Qed.

Lemma sales_outcome (sid : string) (state : ConversationState) (msg intent : string)
    (w : World) :
  session_id state = sid ->
  session_in_stage sid (current_stage state) w ->
  session_in_stage sid (current_stage state) (snd (handle_sales state msg intent w))
  \/ session_in_stage sid KYC (snd (handle_sales state msg intent w)).
Proof.
  intros Hid Hin. unfold _handle_sales_stage.
  destruct (e_amount _) as [amount|]; [|left; exact Hin].
  destruct (e_tenure_months _) as [tenure|]; [|left; exact Hin].
  match goal with
  | |- context [BaseAgent.run ?a (BaseAgent.pure_execute ?f) ?i ?s ?w0] =>
      pose proof (run_pure_sessions a f i s w0) as Hs;
      destruct (BaseAgent.run a (BaseAgent.pure_execute f) i s w0) as [[out|e] w1]
  end; cbn [snd] in Hs.
  2:{ left. eapply in_stage_sessions; eassumption. }
  right.
  match goal with
  | |- context [_transition_stage ?st ?s ?r ?w0] =>
      destruct (in_stage_transition sid st s r w0 Hid) as (_ & _ & H);
      destruct (_transition_stage st s r w0) as [st3 w3]
  end.
  exact H.
Qed.

Create HintDb stages.
Local Hint Constructors stage_edge : stages.
Local Hint Resolve rtc_refl rtc_l : stages.

(** The dispatch: the handler of the current stage leaves the session
    in a stage reached by advancing. *)
Lemma process_by_stage_advances (sid : string) (state : ConversationState)
    (msg intent : string) (w : World) :
  session_id state = sid ->
  session_in_stage sid (current_stage state) w ->
  exists s',
    session_in_stage sid s' (snd (process_by_stage state msg intent w))
    /\ advances (current_stage state) s'.
Proof.
  intros Hid Hin. unfold _process_by_stage, advances.
  destruct (current_stage state) eqn:Hs.
  - rewrite <- Hs in Hin.
    destruct (sales_outcome sid state msg intent w Hid Hin) as [H|H];
      rewrite ?Hs in H; eexists; (split; [exact H|]); eauto 8 with stages.
  - rewrite <- Hs in Hin.
    destruct (kyc_outcome sid state msg intent w Hid Hin) as [H|[H|[H|[H|H]]]];
      rewrite ?Hs in H; eexists; (split; [exact H|]); eauto 8 with stages.
  - rewrite <- Hs in Hin.
    destruct (underwriting_outcome sid state w Hid Hin) as [H|[H|[H|H]]];
      rewrite ?Hs in H; eexists; (split; [exact H|]); eauto 8 with stages.
  - rewrite <- Hs in Hin.
    destruct (sanction_outcome sid state w Hid Hin) as [H|H];
      rewrite ?Hs in H; eexists; (split; [exact H|]); eauto 8 with stages.
  - exists COMPLETED. split; [exact Hin|apply rtc_refl].
  - exists FAILED. split; [exact Hin|apply rtc_refl].
Qed.

(** In a terminal stage a turn is answered by the closing message and
    the world the handler is given is the world it returns. *)
Lemma terminal_turn_closes (state : ConversationState) (msg intent : string) (w : World) :
  is_terminal (current_stage state) = true ->
  process_by_stage state msg intent w = (closing_message (current_stage state), w).
Proof.
  unfold _process_by_stage. destruct (current_stage state); try discriminate; reflexivity.
Qed.

Lemma terminal_needs_no_clarification (msg : string) (s : ConversationStage)
    (history : list Message) :
  is_terminal s = true ->
  requires_clarification (detect_intent classify msg s history) = false.
Proof. destruct s; try discriminate; reflexivity. Qed.

(** *** One turn *)

Lemma process_message_advances (sid : string) (st : ConversationState) (msg : string)
    (w : World) :
  StateManager.load_state sid w = Some st ->
  session_id st = sid ->
  exists s',
    session_in_stage sid s' (snd (process (Some sid) msg w))
    /\ advances (current_stage st) s'
    /\ (is_terminal (current_stage st) = true ->
        s' = current_stage st
        /\ fst (process (Some sid) msg w) = closing_message (current_stage st)).
Proof.
  intros Hl Hid. unfold process_message. rewrite Hl.
  assert (Hin : session_in_stage sid (current_stage st)
                  (StateManager.add_message sid "customer" msg w)).
  { apply in_stage_add_message. exists st. repeat split; assumption. }
  destruct (requires_clarification _) eqn:Hc.
  - exists (current_stage st). cbn [fst snd]. split; [|split].
    + now apply in_stage_add_message.
    + apply rtc_refl.
    + intros Ht. rewrite terminal_needs_no_clarification in Hc by exact Ht.
      discriminate Hc.
  - destruct (process_by_stage_advances sid st msg
                (intent (detect_intent classify msg (current_stage st)
                           (conversation_history st)))
                _ Hid Hin) as (s' & Hin' & Hadv).
    pose proof (terminal_turn_closes st msg
                  (intent (detect_intent classify msg (current_stage st)
                             (conversation_history st)))
                  (StateManager.add_message sid "customer" msg w)) as Hterm.
    destruct (process_by_stage st msg _ _) as [response w2]. cbn [fst snd] in *.
    exists s'. split; [now apply in_stage_add_message|]. split; [exact Hadv|].
    intros Ht. split; [now apply (advances_terminal _ _ Ht)|].
    specialize (Hterm Ht). congruence.
Qed.
(** *** The audit trail *)

Lemma audit_extends_same (w w' : World) :
  audit_trail w' = audit_trail w -> audit_extends w w'.
Proof.
  intros H. exists []. split; [now rewrite app_nil_r|constructor].
Qed.

Lemma audit_extends_trans (w1 w2 w3 : World) :
  audit_extends w1 w2 -> audit_extends w2 w3 -> audit_extends w1 w3.
Proof.
  intros (a & Ha & Hla) (b & Hb & Hlb). exists (a ++ b)%list.
  split; [rewrite Hb, Ha; now rewrite <- app_assoc|now apply Forall_app].
Qed.

Lemma audit_extends_log (w : World) (e : AuditEntry) :
  legal_entry e -> audit_extends w (AuditLogger.append e w).
Proof.
  intros H. exists [e]. split; [reflexivity|now repeat constructor].
Qed.

Lemma audit_extends_run {In Out : Type} (agent : string)
    (execute : In -> World -> Result Out * World) (i : In) (s : string) (w : World) :
  audit_trail (snd (execute i w)) = audit_trail w ->
  audit_extends w (snd (BaseAgent.run agent execute i s w)).
Proof.
  intros H. unfold BaseAgent.run.
  destruct (execute i w) as [[out|e] w1]; cbn [snd] in *;
    (eapply audit_extends_trans; [apply audit_extends_same; exact H|]);
    apply audit_extends_log; exact I.
Qed.

Lemma verification_audit (i : VerificationAgent.InputData) (w : World) :
  audit_trail (snd (VerificationAgent.execute crm i w)) = audit_trail w.
Proof.
  unfold VerificationAgent.execute.
  destruct (String.eqb _ "" || String.eqb _ "" || String.eqb _ ""); [reflexivity|].
  destruct (negb _); [reflexivity|].
  unfold MockCRMService.verify_customer.
  destruct (MockData.verify_customer _ _ _ _) as [[v c] [[? ?]|]];
    [destruct (negb v)|]; reflexivity.
Qed.

Lemma audit_extends_transition (st : ConversationState) (s' : ConversationStage)
    (reason : string) (w : World) :
  stage_edge (current_stage st) s' ->
  audit_extends w (snd (_transition_stage st s' reason w)).
Proof.
  intros H. unfold _transition_stage. cbn [snd].
  eapply audit_extends_trans; [apply audit_extends_same|apply audit_extends_log; exact H].
  reflexivity.
Qed.

Lemma audit_extends_add_message (sid role content : string) (w : World) :
  audit_extends w (StateManager.add_message sid role content w).
Proof.
  apply audit_extends_same. unfold StateManager.add_message.
  now destruct (StateManager.load_state sid w).
Qed.

Lemma sanction_attempt_audit (state : ConversationState) (uw : UnderwritingOutput)
    (w : World) :
  audit_extends w (snd (sanction_attempt state uw w)).
Proof.
  unfold _sanction_attempt.
  destruct (sales_data state); [|now apply audit_extends_same].
  destruct (EmiCalculator.calculate_emi _ _ _); [|now apply audit_extends_same].
  match goal with
  | |- context [BaseAgent.run ?a ?f ?i ?s ?w0] =>
      pose proof (audit_extends_run a f i s w0 eq_refl) as H;
      destruct (BaseAgent.run a f i s w0) as [[out|e] w1]
  end; exact H.
Qed.

Lemma sanction_audit (state : ConversationState) (w : World) :
  current_stage state = SANCTION ->
  audit_extends w (snd (handle_sanction state w)).
Proof.
  intros Hs. unfold _handle_sanction_stage.
  destruct (underwriting_data state) as [uw|]; [|now apply audit_extends_same].
  pose proof (sanction_attempt_audit state uw w) as Ha.
  destruct (sanction_attempt state uw w) as [[[final_emi out]|e] w1]; cbn [snd] in Ha;
    [|exact Ha].
  eapply audit_extends_trans; [exact Ha|].
  match goal with
  | |- context [_transition_stage ?st ?s ?r ?w0] =>
      assert (Hedge : stage_edge (current_stage st) s)
        by (cbn [set_sanction_letter_path current_stage]; rewrite Hs; constructor);
      pose proof (audit_extends_transition st s r w0 Hedge) as Ht;
      destruct (_transition_stage st s r w0) as [st3 w3]
  end.
  cbn [snd] in *. eapply audit_extends_trans; [|exact Ht].
  now apply audit_extends_same.
Qed.

Lemma underwriting_audit (state : ConversationState) (w : World) :
  current_stage state = UNDERWRITING ->
  audit_extends w (snd (handle_underwriting state w)).
Proof.
  intros Hs. unfold _handle_underwriting_stage.
  destruct (sales_data state) as [sales|]; [|now apply audit_extends_same].
  destruct (kyc_data state) as [kyc|]; [|now apply audit_extends_same].
  match goal with
  | |- context [BaseAgent.run ?a ?f ?i ?s ?w0] =>
      pose proof (audit_extends_run a f i s w0 eq_refl) as Hr;
      destruct (BaseAgent.run a f i s w0) as [[uw|e] w1]
  end; cbn [snd] in Hr; [|exact Hr].
  eapply audit_extends_trans; [exact Hr|].
  destruct (decision uw).
  - match goal with
    | |- context [_transition_stage ?st ?s ?r ?w0] =>
        assert (Hedge : stage_edge (current_stage st) s)
          by (cbn [set_underwriting_data current_stage]; rewrite Hs; constructor);
        pose proof (audit_extends_transition st s r w0 Hedge) as Ht;
        destruct (in_stage_transition (session_id st) st s r w0 eq_refl) as (_ & Hst2 & _);
        destruct (_transition_stage st s r w0) as [state2 w3]
    end.
    cbn [fst snd] in *.
    pose proof (sanction_audit state2 w3 Hst2) as Hsa.
    destruct (handle_sanction state2 w3) as [resp w4]. cbn [snd] in *.
    eapply audit_extends_trans; [|exact Hsa].
    eapply audit_extends_trans; [|exact Ht]. now apply audit_extends_same.
  - match goal with
    | |- context [_transition_stage ?st ?s ?r ?w0] =>
        assert (Hedge : stage_edge (current_stage st) s)
          by (cbn [set_underwriting_data current_stage]; rewrite Hs; constructor);
        pose proof (audit_extends_transition st s r w0 Hedge) as Ht;
        destruct (in_stage_transition (session_id st) st s r w0 eq_refl) as (_ & Hst2 & _);
        destruct (_transition_stage st s r w0) as [state2 w3]
    end.
    cbn [fst snd] in *.
    pose proof (sanction_audit state2 w3 Hst2) as Hsa.
    destruct (handle_sanction state2 w3) as [resp w4]. cbn [snd] in *.
    eapply audit_extends_trans; [|exact Hsa].
    eapply audit_extends_trans; [|exact Ht]. now apply audit_extends_same.
  - match goal with
    | |- context [_transition_stage ?st ?s ?r ?w0] =>
        assert (Hedge : stage_edge (current_stage st) s)
          by (cbn [set_underwriting_data current_stage]; rewrite Hs; now constructor);
        pose proof (audit_extends_transition st s r w0 Hedge) as Ht;
        destruct (_transition_stage st s r w0) as [st3 w3]
    end.
    cbn [snd] in *. eapply audit_extends_trans; [|exact Ht].
    now apply audit_extends_same.
Qed.

Lemma kyc_verified_audit (state : ConversationState) (name pan : string)
    (out : VerificationOutput) (w : World) :
  current_stage state = KYC ->
  audit_extends w (snd (kyc_verified state name pan out w)).
Proof.
  intros Hs. unfold _kyc_verified, MockCRMService.lookup_by_pan.
  destruct (MockData.lookup_by_pan crm pan) as [[cid c]|]; cbn [snd];
    [|now apply audit_extends_same].
  match goal with
  | |- context [_transition_stage ?st ?s ?r ?w0] =>
      assert (Hedge : stage_edge (current_stage st) s)
        by (cbn [set_customer set_kyc_data current_stage]; rewrite Hs; constructor);
      pose proof (audit_extends_transition st s r w0 Hedge) as Ht;
      destruct (in_stage_transition (session_id st) st s r w0 eq_refl) as (_ & Hst3 & _);
      destruct (_transition_stage st s r w0) as [state3 w4]
  end.
  cbn [fst snd] in *.
  eapply audit_extends_trans; [|apply underwriting_audit; exact Hst3].
  eapply audit_extends_trans; [|exact Ht]. now apply audit_extends_same.
Qed.

Lemma kyc_audit (state : ConversationState) (msg intent : string) (w : World) :
  current_stage state = KYC ->
  audit_extends w (snd (handle_kyc state msg intent w)).
Proof.
  intros Hs. unfold _handle_kyc_stage.
  destruct (extract_name _) as [name|]; [|now apply audit_extends_same].
  destruct (e_pan _) as [pan|]; [|now apply audit_extends_same].
  destruct (find_employment_type _) as [et|]; [|now apply audit_extends_same].
  destruct (negb _ && negb _ && negb _); [|now apply audit_extends_same].
  match goal with
  | |- context [BaseAgent.run ?a ?f ?i ?s ?w0] =>
      pose proof (audit_extends_run a f i s w0 (verification_audit i w0)) as Hr;
      destruct (BaseAgent.run a f i s w0) as [[out|e] w1]
  end; cbn [snd] in Hr; [|exact Hr].
  eapply audit_extends_trans; [exact Hr|].
  destruct (kyc_status out); try (now apply kyc_verified_audit).
  match goal with
  | |- context [_transition_stage ?st ?s ?r ?w0] =>
      assert (Hedge : stage_edge (current_stage st) s)
        by (rewrite Hs; now constructor);
      pose proof (audit_extends_transition st s r w0 Hedge) as Ht;
      destruct (_transition_stage st s r w0) as [st3 w3]
  end.
  exact Ht.
Qed.

Lemma sales_audit (state : ConversationState) (msg intent : string) (w : World) :
  current_stage state = SALES ->
  audit_extends w (snd (handle_sales state msg intent w)).
Proof.
  intros Hs. unfold _handle_sales_stage.
  destruct (e_amount _) as [amount|]; [|now apply audit_extends_same].
  destruct (e_tenure_months _) as [tenure|]; [|now apply audit_extends_same].
  match goal with
  | |- context [BaseAgent.run ?a ?f ?i ?s ?w0] =>
      pose proof (audit_extends_run a f i s w0 eq_refl) as Hr;
      destruct (BaseAgent.run a f i s w0) as [[out|e] w1]
  end; cbn [snd] in Hr; [|exact Hr].
  eapply audit_extends_trans; [exact Hr|].
  match goal with
  | |- context [_transition_stage ?st ?s ?r ?w0] =>
      assert (Hedge : stage_edge (current_stage st) s)
        by (cbn [set_sales_data current_stage]; rewrite Hs; constructor);
      pose proof (audit_extends_transition st s r w0 Hedge) as Ht;
      destruct (_transition_stage st s r w0) as [st3 w3]
  end.
  cbn [snd] in *. eapply audit_extends_trans; [|exact Ht].
  now apply audit_extends_same.
Qed.

Lemma process_by_stage_audit (state : ConversationState) (msg intent : string)
    (w : World) :
  audit_extends w (snd (process_by_stage state msg intent w)).
Proof.
  unfold _process_by_stage. destruct (current_stage state) eqn:Hs.
  - now apply sales_audit.
  - now apply kyc_audit.
  - now apply underwriting_audit.
  - now apply sanction_audit.
  - now apply audit_extends_same.
  - now apply audit_extends_same.
Qed.

Lemma process_message_audit (current : option string) (msg : string) (w : World) :
  audit_extends w (snd (process current msg w)).
Proof.
  unfold process_message.
  destruct current as [sid|]; [|now apply audit_extends_same].
  destruct (StateManager.load_state sid w) as [st|]; [|now apply audit_extends_same].
  destruct (requires_clarification _).
  - cbn [snd].
    eapply audit_extends_trans; apply audit_extends_add_message.
  - match goal with
    | |- context [process_by_stage ?st ?m ?i ?w0] =>
        pose proof (process_by_stage_audit st m i w0) as H;
        destruct (process_by_stage st m i w0) as [response w2]
    end.
    cbn [snd] in *.
    eapply audit_extends_trans; [apply audit_extends_add_message|].
    eapply audit_extends_trans; [exact H|apply audit_extends_add_message].
Qed.

Lemma run_turns_audit (sid : string) (messages : list string) :
  forall w : World, audit_extends w (snd (turns sid messages w)).
Proof.
  induction messages as [|m rest IH]; intros w; [now apply audit_extends_same|].
  cbn [run_turns].
  pose proof (process_message_audit (Some sid) m w) as H.
  destruct (process (Some sid) m w) as [response w1]. cbn [snd] in H.
  specialize (IH w1). destruct (turns sid rest w1) as [trace w2]. cbn [snd] in *.
  eapply audit_extends_trans; eassumption.
Qed.

Lemma start_conversation_audit (sid : string) (w : World) :
  audit_extends w (snd (start_conversation sid w)).
Proof.
  unfold start_conversation, StateManager.create_session. cbn [snd].
  eapply audit_extends_trans; [|apply audit_extends_add_message].
  eapply audit_extends_trans; [|apply audit_extends_log; reflexivity].
  now apply audit_extends_same.
Qed.

(** *** A conversation *)

Lemma in_stage_persisted (sid : string) (s : ConversationStage) (w : World) :
  session_in_stage sid s w -> persisted_stage sid w = Some s.
Proof.
  intros (st & Hl & _ & Hs). unfold persisted_stage, StateManager.load_state.
  rewrite Hl. cbn. now rewrite Hs.
Qed.

Lemma run_turns_trace (sid : string) (messages : list string) :
  forall (w : World) (s : ConversationStage),
    session_in_stage sid s w -> trace_ok s (fst (turns sid messages w)).
Proof.
  induction messages as [|m rest IH]; intros w s Hin; [exact I|].
  destruct Hin as (st & Hl & Hid & Hs).
  destruct (process_message_advances sid st m w Hl Hid) as (s' & Hin' & Hadv & Hterm).
  rewrite Hs in Hadv, Hterm.
  cbn [run_turns].
  destruct (process (Some sid) m w) as [response w1]. cbn [fst snd] in *.
  specialize (IH w1 s' Hin').
  destruct (turns sid rest w1) as [trace w2]. cbn [fst] in *.
  exists s'. split; [now apply in_stage_persisted|].
  split; [exact Hadv|]. split; [now apply advances_rank|].
  split; [exact Hterm|exact IH].
Qed.

Lemma start_conversation_in_sales (sid : string) (w : World) :
  session_in_stage sid SALES (snd (start_conversation sid w)).
Proof.
  unfold start_conversation, StateManager.create_session. cbn [snd].
  apply in_stage_add_message.
  eapply in_stage_sessions; [reflexivity|].
  apply (in_stage_save sid (mkState sid SALES None None None None None None []) w).
  reflexivity.
Qed.

(** C5.  In every conversation, that is a session started and then
    driven by any sequence of customer messages, whatever the
    collaborators answer: after each turn the stored stage is reached
    from the stage before the turn along SALES, KYC, UNDERWRITING,
    SANCTION, COMPLETED or by a move into FAILED from a stage that is not
    terminal; it is never an earlier stage; a turn taken in COMPLETED or
    FAILED leaves the stage as it is and is answered by the fixed closing
    message; and every transition that the conversation writes to the
    audit trail is the entry into SALES or an edge of that graph. *)
Theorem stage_only_advances (sid : string) (w0 : World) (messages : list string) :
  trace_ok SALES (fst (turns sid messages (snd (start_conversation sid w0))))
  /\ audit_extends w0 (snd (turns sid messages (snd (start_conversation sid w0)))).
Proof.
  split.
  - apply run_turns_trace. apply start_conversation_in_sales.
  - eapply audit_extends_trans;
      [apply start_conversation_audit|apply run_turns_audit].
Qed.

(** *** Errors of the workers *)

Lemma prefix_refl (s : string) : String.prefix s s = true.
Proof.
  induction s as [|c s IH]; [reflexivity|].
  cbn. destruct (ascii_dec c c) as [_|Hne]; [exact IH|contradiction].
Qed.

Lemma contains_refl (s : string) : contains s s = true.
Proof.
  destruct s as [|c s]; [reflexivity|].
  cbn [contains]. now rewrite prefix_refl.
Qed.

Lemma contains_suffix (before s : string) : contains s (before ++ s) = true.
Proof.
  induction before as [|c before IH]; [apply contains_refl|].
  change (contains s (String c before ++ s))
    with (String.prefix s (String c (before ++ s)) || contains s (before ++ s)).
  rewrite IH. apply orb_true_r.
Qed.

(** The sanction handler answers an exception of its worker with the
    text of the exception. *)
Lemma sanction_error_reaches_customer (state : ConversationState)
    (uw : UnderwritingOutput) (w w1 : World) (e : PyExn) :
  underwriting_data state = Some uw ->
  sanction_attempt state uw w = (Raise e, w1) ->
  handle_sanction state w = ("Error generating sanction letter: " ++ exn_text e, w1)
  /\ contains (exn_text e) (fst (handle_sanction state w)) = true.
Proof.
  intros Hu Ha.
  assert (E : handle_sanction state w
              = ("Error generating sanction letter: " ++ exn_text e, w1)).
  { unfold _handle_sanction_stage. now rewrite Hu, Ha. }
  rewrite E. split; [reflexivity|apply contains_suffix].
Qed.

(** So does the underwriting handler. *)
Lemma underwriting_error_reaches_customer (state : ConversationState)
    (sales : SalesOutput) (kyc : VerificationOutput) (w : World) (e : PyExn) :
  sales_data state = Some sales ->
  kyc_data state = Some kyc ->
  UnderwritingAgent.execute md5_int
    (UnderwritingAgent.mkInputData (state_customer_id state)
       (Some (so_requested_amount sales)) (Some (so_tenure_months sales))
       (Some (vo_monthly_income kyc)) (Some (so_estimated_emi sales)))
  = Raise e ->
  fst (handle_underwriting state w) = "Error during underwriting: " ++ exn_text e
  /\ contains (exn_text e) (fst (handle_underwriting state w)) = true.
Proof.
  intros Hs Hk He.
  assert (E : fst (handle_underwriting state w)
              = "Error during underwriting: " ++ exn_text e).
  { unfold _handle_underwriting_stage. rewrite Hs, Hk.
    unfold BaseAgent.run, BaseAgent.pure_execute. now rewrite He. }
  rewrite E. split; [reflexivity|apply contains_suffix].
Qed.

(** The sales handler, in contrast, answers with a fixed text. *)
Lemma sales_error_is_translated (state : ConversationState) (msg intent : string)
    (w : World) (amount tenure : Z) (e : PyExn) :
  e_amount (extract_entities msg intent) = Some amount ->
  e_tenure_months (extract_entities msg intent) = Some tenure ->
  SalesAgent.execute (SalesAgent.mkInputData (Some amount) (Some tenure)) = Raise e ->
  fst (handle_sales state msg intent w) = sales_error.
Proof.
  intros Ha Ht He. unfold _handle_sales_stage. rewrite Ha, Ht.
  unfold BaseAgent.run, BaseAgent.pure_execute. now rewrite He.
Qed.

End OrchestratorFacts.

(** C8 fails on the code.  The exception of a worker never leaves
    [process_message], which always returns a response; but when the
    document generator cannot write its file, the response of the turn
    that reaches the sanction stage carries the text of the exception, and
    the session stays in SANCTION. *)
Theorem raw_error_text_reaches_customer :
  match fst (Fixtures.converse Fixtures.failing_generator
               [Fixtures.sales_message; Fixtures.kyc_message]) with
  | [_; (response, stage)] =>
      stage = Some SANCTION
      /\ contains Fixtures.disk_full response = true
      /\ contains ("Error generating sanction letter: " ++ Fixtures.disk_full) response
         = true
  | _ => False
  end.
Proof. vm_compute. repeat split. Qed.

(** * Further properties of the code *)

(** ** Credit score and eligibility *)

Section EligibilityExtras.

Import UnderwritingAgent.
Local Open Scope Q_scope.

Lemma credit_score_bounds (md5_int : string -> Z) (customer_id : string) :
  (600 <= get_credit_score md5_int customer_id <= 850)%Z.
Proof.
  unfold get_credit_score.
  pose proof (Z.mod_pos_bound (md5_int customer_id) 251 ltac:(lia)). lia.
Qed.


(** X1.  The three outcomes of the eligibility rules: a rejection grants
    0 and gives a reason; a conditional approval grants one of the three
    bracket maxima, which is below the request; an approval grants the
    request, which is then at most 2,000,000 and carries no reason.
    Nothing is granted below a score of 700. *)
Theorem eligibility_outcomes (score : Z) (income : Q) (amount : Z) (emi : Q) :
  match _evaluate_eligibility score income amount emi with
  | (REJECTED, approved, reason) => approved = 0%Z /\ reason <> ""
  | (CONDITIONAL, approved, reason) =>
      (700 <= score)%Z /\ (approved < amount)%Z
      /\ (approved = 500000 \/ approved = 1000000 \/ approved = 2000000)%Z
  | (APPROVED, approved, reason) =>
      (700 <= score)%Z /\ approved = amount /\ (amount <= 2000000)%Z /\ reason = ""
  end.
Proof.
  unfold _evaluate_eligibility.
  destruct (Z.ltb_spec score 700); [split; [reflexivity|discriminate]|].
  destruct (Qgt_bool emi (income * 0.5)); [split; [reflexivity|discriminate]|].
  destruct ((score >=? 750)%Z && Qge_bool income 75000);
    [|destruct ((score >=? 700)%Z && Qge_bool income 50000)];
    match goal with
    | |- context [(amount >? ?m)%Z] =>
        rewrite (Z.gtb_ltb amount m); destruct (Z.ltb_spec m amount)
    end; repeat split; auto; lia.
Qed.

Lemma Qge_bool_iff (x y : Q) : Qge_bool x y = true <-> y <= x.
Proof. unfold Qge_bool. apply Qle_bool_iff. Qed.

Lemma Qge_bool_mono (x x' y : Q) : x <= x' -> Qge_bool x y = true -> Qge_bool x' y = true.
Proof. rewrite !Qge_bool_iff. intros H1 H2. lra. Qed.

(** The maximum of the bracket table does not fall when the score and
    the income rise. *)
Lemma max_eligible_mono (score score' : Z) (income income' : Q) :
  (score <= score')%Z -> income <= income' ->
  (Reference.max_eligible score income <= Reference.max_eligible score' income')%Z.
Proof.
  intros Hs Hi. unfold Reference.max_eligible.
  destruct (Z.leb_spec 750 score), (Z.leb_spec 750 score'),
           (Z.leb_spec 700 score), (Z.leb_spec 700 score'); try lia;
    destruct (Qle_bool 75000 income) eqn:E1, (Qle_bool 75000 income') eqn:E2,
             (Qle_bool 50000 income) eqn:E3, (Qle_bool 50000 income') eqn:E4;
    cbn [andb]; try lia;
    repeat match goal with
           | H : Qle_bool _ _ = true |- _ => apply Qle_bool_iff in H
           | H : Qle_bool ?a ?b = false |- _ =>
               assert (~ a <= b) by (intros Hle; apply Qle_bool_iff in Hle; congruence);
               clear H
           end; exfalso; lra.
Qed.

(** X2.  A better applicant is never granted less: for a request that is
    not negative and the same indicative EMI, the approved amount does
    not fall when the credit score and the monthly income rise. *)
Theorem approved_amount_monotone (score score' : Z) (income income' : Q)
    (amount : Z) (emi : Q) :
  (score <= score')%Z -> income <= income' -> (0 <= amount)%Z ->
  (snd (fst (_evaluate_eligibility score income amount emi))
   <= snd (fst (_evaluate_eligibility score' income' amount emi)))%Z.
Proof.
  intros Hs Hi Ha.
  pose proof (evaluate_eligibility_reference score income amount emi) as E.
  pose proof (evaluate_eligibility_reference score' income' amount emi) as E'.
  destruct (_evaluate_eligibility score income amount emi) as [[d a] r].
  destruct (_evaluate_eligibility score' income' amount emi) as [[d' a'] r'].
  cbn [fst snd] in *. 
  pose proof (max_eligible_mono score score' income income' Hs Hi) as Hm.
  assert (Hpos : (0 < Reference.max_eligible score' income')%Z).
  { unfold Reference.max_eligible.
    destruct (_ && _); [lia|]. destruct (_ && _); lia. }
  unfold Reference.eligibility in E, E'.
  destruct (Z.ltb_spec score 700).
  { injection E as _ ->.
    destruct (score' <? 700)%Z; [injection E' as _ ->; lia|].
    destruct (Qlt_bool (Reference.half_of_income income') emi); [injection E' as _ ->; lia|].
    destruct (Z.ltb_spec (Reference.max_eligible score' income') amount);
      injection E' as _ ->; lia. }
  destruct (Qlt_bool (Reference.half_of_income income) emi) eqn:Q1.
  { injection E as _ ->.
    destruct (score' <? 700)%Z; [injection E' as _ ->; lia|].
    destruct (Qlt_bool (Reference.half_of_income income') emi); [injection E' as _ ->; lia|].
    destruct (Z.ltb_spec (Reference.max_eligible score' income') amount);
      injection E' as _ ->; lia. }
  destruct (Z.ltb_spec score' 700); [lia|].
  assert (Q2 : Qlt_bool (Reference.half_of_income income') emi = false).
  { apply Qlt_bool_false_iff. apply Qlt_bool_false_iff in Q1.
    unfold Reference.half_of_income in *. lra. }
  rewrite Q2 in E'.
  destruct (Z.ltb_spec (Reference.max_eligible score income) amount);
    destruct (Z.ltb_spec (Reference.max_eligible score' income') amount);
    injection E as _ ->; injection E' as _ ->; lia.
Qed.

Lemma approved_amount_monotone_witness :
  (snd (fst (_evaluate_eligibility 710 55000 1500000 30000))
   <= snd (fst (_evaluate_eligibility 760 80000 1500000 30000)))%Z.
Proof.
  apply approved_amount_monotone; [lia|unfold Qle; simpl; lia|lia].
Defined.


End EligibilityExtras.

(** ** Rate composition and the sales bracket *)

Section RateExtras.

Import UnderwritingAgent.
Local Open Scope Q_scope.

(** The credit adjustment in hundredths: minus fifty for every full 50
    points of the score above 700. *)
Lemma credit_adjustment_closed_form (score tenure : Z) :
  credit_adjustment (_calculate_rate_components score tenure)
  == (if (score >? 700)%Z then - 50 * ((score - 700) / 50) else 0)%Z # 100.
Proof.
  unfold _calculate_rate_components. cbn [credit_adjustment].
  destruct (score >? 700)%Z.
  - apply round2_hundredths. unfold Qeq, Qmult, inject_Z. cbn [Qnum Qden]. lia.
  - reflexivity.
Qed.

Lemma credit_adjustment_antitone (score score' tenure tenure' : Z) :
  (score <= score')%Z ->
  credit_adjustment (_calculate_rate_components score' tenure')
  <= credit_adjustment (_calculate_rate_components score tenure).
Proof.
  intros H. rewrite !credit_adjustment_closed_form.
  unfold Qle. cbn [Qnum Qden].
  rewrite !Z.gtb_ltb.
  destruct (Z.ltb_spec 700 score), (Z.ltb_spec 700 score'); try lia.
  - assert ((score - 700) / 50 <= (score' - 700) / 50)%Z
      by (apply Z.div_le_mono; lia). lia.
  - assert (0 <= (score' - 700) / 50)%Z by (apply Z.div_pos; lia). lia.
Qed.

Lemma tenure_adjustment_monotone (score score' tenure tenure' : Z) :
  (tenure <= tenure')%Z ->
  tenure_adjustment (_calculate_rate_components score tenure)
  <= tenure_adjustment (_calculate_rate_components score' tenure').
Proof.
  intros H. rewrite !tenure_adjustment_closed_form.
  unfold Qle. cbn [Qnum Qden].
  destruct (Z.leb_spec tenure 36), (Z.leb_spec tenure' 36); try lia.
  - assert (0 <= (10 * (tenure' - 36) + 3) / 6)%Z by (apply Z.div_pos; lia). lia.
  - assert ((10 * (tenure - 36) + 3) / 6 <= (10 * (tenure' - 36) + 3) / 6)%Z
      by (apply Z.div_le_mono; lia). lia.
Qed.

Lemma clamp_monotone (x y : Q) : x <= y -> Reference.clamp x <= Reference.clamp y.
Proof.
  intros H. unfold Reference.clamp.
  apply Q.max_le_compat_l. now apply Q.min_le_compat_l.
Qed.

(** X4.  The final rate is monotone: a higher credit score never gives a
    higher rate, and a longer tenure never gives a lower one. *)
Theorem final_rate_monotone (score score' tenure tenure' : Z) :
  (score <= score')%Z -> (tenure <= tenure')%Z ->
  _apply_rate_bounds
    (BASE_RATE + credit_adjustment (_calculate_rate_components score' tenure)
     + tenure_adjustment (_calculate_rate_components score' tenure))
  <= _apply_rate_bounds
       (BASE_RATE + credit_adjustment (_calculate_rate_components score tenure)
        + tenure_adjustment (_calculate_rate_components score tenure))
  /\ _apply_rate_bounds
       (BASE_RATE + credit_adjustment (_calculate_rate_components score tenure)
        + tenure_adjustment (_calculate_rate_components score tenure))
     <= _apply_rate_bounds
          (BASE_RATE + credit_adjustment (_calculate_rate_components score tenure')
           + tenure_adjustment (_calculate_rate_components score tenure')).
Proof.
  intros Hs Ht.
  pose proof (final_rate_clamped score tenure) as E1.
  pose proof (final_rate_clamped score' tenure) as E2.
  pose proof (final_rate_clamped score tenure') as E3.
  cbv zeta in E1, E2, E3. rewrite E1, E2, E3.
  pose proof (credit_adjustment_antitone score score' tenure tenure Hs) as Hc.
  pose proof (credit_adjustment_antitone score score tenure tenure' (Z.le_refl _)) as Hc1.
  pose proof (credit_adjustment_antitone score score tenure' tenure (Z.le_refl _)) as Hc2.
  pose proof (tenure_adjustment_monotone score' score tenure tenure (Z.le_refl _)) as Ht1.
  pose proof (tenure_adjustment_monotone score score tenure tenure' Ht) as Ht2.
  split; apply clamp_monotone; lra.
Qed.

Lemma final_rate_monotone_witness :
  _apply_rate_bounds
    (BASE_RATE + credit_adjustment (_calculate_rate_components 800 48)
     + tenure_adjustment (_calculate_rate_components 800 48))
  <= _apply_rate_bounds
       (BASE_RATE + credit_adjustment (_calculate_rate_components 720 48)
        + tenure_adjustment (_calculate_rate_components 720 48))
  /\ _apply_rate_bounds
       (BASE_RATE + credit_adjustment (_calculate_rate_components 720 48)
        + tenure_adjustment (_calculate_rate_components 720 48))
     <= _apply_rate_bounds
          (BASE_RATE + credit_adjustment (_calculate_rate_components 720 84)
           + tenure_adjustment (_calculate_rate_components 720 84)).
Proof.
  apply (final_rate_monotone 720 800 48 84); lia.
Defined.

(** X5.  For a score of the provider and a tenure below 456 months the
    bounds do not bind: the sum of the base rate and the two adjustments
    already lies within [9.5, 18.0], and the final rate is that sum. *)
Theorem bounds_do_not_bind (md5_int : string -> Z) (customer_id : string) (tenure : Z) :
  (tenure < 456)%Z ->
  let rc := _calculate_rate_components (get_credit_score md5_int customer_id) tenure in
  let total := BASE_RATE + credit_adjustment rc + tenure_adjustment rc in
  9.5 <= total /\ total < 18.0 /\ _apply_rate_bounds total == total.
Proof.
  intros Ht rc total.
  pose proof (credit_score_bounds md5_int customer_id) as Hs.
  pose proof (credit_adjustment_closed_form (get_credit_score md5_int customer_id) tenure)
    as Hc.
  pose proof (tenure_adjustment_closed_form (get_credit_score md5_int customer_id) tenure)
    as Hta.
  fold rc in Hc, Hta.
  assert (Hlo : 9.5 <= total /\ total < 18.0).
  { subst total. rewrite Hc, Hta. rewrite Z.gtb_ltb.
    assert (Hb : (0 <= (if (tenure <=? 36)%Z then 0 else (10 * (tenure - 36) + 3) / 6)
                  < 700)%Z).
    { destruct (Z.leb_spec tenure 36); [lia|].
      split; [apply Z.div_pos; lia|apply Z.div_lt_upper_bound; lia]. }
    assert (Ha : (-150 <= (if (700 <? get_credit_score md5_int customer_id)%Z
                           then - 50 * ((get_credit_score md5_int customer_id - 700) / 50)
                           else 0) <= 0)%Z).
    { destruct (Z.ltb_spec 700 (get_credit_score md5_int customer_id)); [|lia].
      assert (0 <= (get_credit_score md5_int customer_id - 700) / 50 <= 3)%Z
        by (split; [apply Z.div_pos; lia|apply Z.div_le_upper_bound; lia]).
      lia. }
    revert Ha Hb.
    generalize (if (700 <? get_credit_score md5_int customer_id)%Z
                then (- 50 * ((get_credit_score md5_int customer_id - 700) / 50))%Z
                else 0%Z).
    generalize (if (tenure <=? 36)%Z then 0%Z else ((10 * (tenure - 36) + 3) / 6)%Z).
    intros b a Ha Hb.
    unfold BASE_RATE, Qle, Qlt, Qplus. cbn [Qnum Qden].
    rewrite ?Pos2Z.inj_mul. lia. }
  split; [apply Hlo|]. split; [apply Hlo|].
  transitivity (Reference.clamp total);
    [apply (final_rate_clamped (get_credit_score md5_int customer_id) tenure)|].
  unfold Reference.clamp.
  rewrite (Q.min_r 18.0 total) by (apply Qlt_le_weak, Hlo).
  apply Q.max_r. apply Hlo.
Qed.

Lemma bounds_do_not_bind_witness :
  let rc := _calculate_rate_components (get_credit_score Fixtures.mock_md5 "CUST002") 60 in
  let total := BASE_RATE + credit_adjustment rc + tenure_adjustment rc in
  9.5 <= total /\ total < 18.0 /\ _apply_rate_bounds total == total.
Proof.
  apply (bounds_do_not_bind Fixtures.mock_md5 "CUST002" 60). lia.
Defined.

(** X6.  The rate used for the indicative quote is the midpoint of the
    bracket of the requested amount: 14 below 300,000, 12.75 up to
    1,000,000 and 11.75 above; the default of 12.0 is never taken, and a
    larger request never has a higher midpoint. *)
Theorem mid_rate_of_bracket (amount amount' : Z) :
  SalesAgent._get_mid_rate (EmiCalculator.get_interest_range amount)
  == (if (amount <? 300000)%Z then 14
      else if (amount <=? 1000000)%Z then 12.75 else 11.75)
  /\ ((amount <=? amount')%Z = true ->
      SalesAgent._get_mid_rate (EmiCalculator.get_interest_range amount')
      <= SalesAgent._get_mid_rate (EmiCalculator.get_interest_range amount)).
Proof.
  split.
  - unfold EmiCalculator.get_interest_range.
    destruct (amount <? 300000)%Z; [reflexivity|].
    destruct (amount <=? 1000000)%Z; reflexivity.
  - intros H. apply Z.leb_le in H. unfold EmiCalculator.get_interest_range.
    destruct (Z.ltb_spec amount 300000), (Z.ltb_spec amount' 300000),
             (Z.leb_spec amount 1000000), (Z.leb_spec amount' 1000000);
      try lia; vm_compute; discriminate.
Qed.

Lemma mid_rate_of_bracket_witness :
  SalesAgent._get_mid_rate (EmiCalculator.get_interest_range 500000)
  == (if (500000 <? 300000)%Z then 14
      else if (500000 <=? 1000000)%Z then 12.75 else 11.75)
  /\ ((500000 <=? 1500000)%Z = true ->
      SalesAgent._get_mid_rate (EmiCalculator.get_interest_range 1500000)
      <= SalesAgent._get_mid_rate (EmiCalculator.get_interest_range 500000)).
Proof.
  apply (mid_rate_of_bracket 500000 1500000).
Defined.

End RateExtras.

(** ** KYC validator and registry *)

Section KycExtras.

Import VerificationAgent.

(** X7.  Every result of the validator has one of two shapes: FAILED
    with an income of 0 and exactly one of the flags INVALID_PAN_FORMAT,
    CUSTOMER_NOT_FOUND, DATA_MISMATCH; or VERIFIED with no flag or with
    LOW_INCOME alone.  PENDING is never returned. *)
Theorem kyc_result_shapes (db : list (string * MockData.Customer))
    (input_data : InputData) (w w' : World) (out : VerificationOutput) :
  execute db input_data w = (Ok out, w') ->
  (kyc_status out = KYC_FAILED
   /\ vo_monthly_income out = 0%Q
   /\ (risk_flags out = ["INVALID_PAN_FORMAT"]
       \/ risk_flags out = ["CUSTOMER_NOT_FOUND"]
       \/ risk_flags out = ["DATA_MISMATCH"]))
  \/ (kyc_status out = KYC_VERIFIED
      /\ (risk_flags out = [] \/ risk_flags out = ["LOW_INCOME"])).
Proof.
  intros He.
  destruct (kyc_status out) eqn:Hs.
  - exfalso. revert He. unfold execute.
    destruct (String.eqb _ "" || String.eqb _ "" || String.eqb _ ""); [discriminate|].
    destruct (negb (_validate_pan_format _)); [intros [= <- _]; discriminate|].
    unfold MockCRMService.verify_customer.
    destruct (MockData.verify_customer _ _ _ _) as [[v c] [[? ?]|]];
      [destruct (negb v)|]; intros [= <- _]; discriminate.
  - right. split; [reflexivity|].
    destruct (verified_result_shape db input_data w w' out He Hs)
      as (cid & c & _ & _ & _ & _ & Hf).
    rewrite Hf. destruct (MockData.c_monthly_income c <? 25000); auto.
  - left. split; [reflexivity|]. revert He Hs. unfold execute.
    destruct (String.eqb _ "" || String.eqb _ "" || String.eqb _ ""); [discriminate|].
    destruct (negb (_validate_pan_format _)); [intros [= <- _] _; cbn; auto|].
    unfold MockCRMService.verify_customer.
    destruct (MockData.verify_customer _ _ _ _) as [[v c] [[? ?]|]];
      [destruct (negb v)|]; intros [= <- _]; cbn; auto; discriminate.
Qed.

Lemma kyc_result_shapes_witness :
  (kyc_status (mkVerificationOutput KYC_VERIFIED "SALARIED" 20000 ["LOW_INCOME"])
   = KYC_FAILED
   /\ vo_monthly_income (mkVerificationOutput KYC_VERIFIED "SALARIED" 20000 ["LOW_INCOME"])
      = 0%Q
   /\ (risk_flags (mkVerificationOutput KYC_VERIFIED "SALARIED" 20000 ["LOW_INCOME"])
       = ["INVALID_PAN_FORMAT"]
       \/ risk_flags (mkVerificationOutput KYC_VERIFIED "SALARIED" 20000 ["LOW_INCOME"])
          = ["CUSTOMER_NOT_FOUND"]
       \/ risk_flags (mkVerificationOutput KYC_VERIFIED "SALARIED" 20000 ["LOW_INCOME"])
          = ["DATA_MISMATCH"]))
  \/ (kyc_status (mkVerificationOutput KYC_VERIFIED "SALARIED" 20000 ["LOW_INCOME"])
      = KYC_VERIFIED
      /\ (risk_flags (mkVerificationOutput KYC_VERIFIED "SALARIED" 20000 ["LOW_INCOME"]) = []
          \/ risk_flags (mkVerificationOutput KYC_VERIFIED "SALARIED" 20000 ["LOW_INCOME"])
             = ["LOW_INCOME"])).
Proof.
  apply (kyc_result_shapes MockData.CRM_DATABASE
           (mkInputData (Some "Meera Nair") (Some "yzabc8901d") (Some "salaried"))
           Fixtures.empty_world (mkWorld ∅ [] ["YZABC8901D"])).
  reflexivity.
Defined.

(** X8.  On an input written in ASCII, the validator consults the
    registry exactly when the three fields are present after trimming
    and the identifier has the PAN format, and then exactly once, with
    the identifier in upper case. *)
Theorem registry_consulted_exactly_once (db : list (string * MockData.Customer))
    (input_data : InputData) (w : World) :
  is_ascii (get_or_empty (name input_data)) = true ->
  is_ascii (get_or_empty (pan input_data)) = true ->
  is_ascii (get_or_empty (employment_type input_data)) = true ->
  let name := strip (get_or_empty (name input_data)) in
  let pan := upper (strip (get_or_empty (pan input_data))) in
  let employment_type := upper (strip (get_or_empty (employment_type input_data))) in
  crm_queries (snd (execute db input_data w))
  = (crm_queries w
     ++ (if negb (String.eqb name "" || String.eqb pan "" || String.eqb employment_type "")
            && _validate_pan_format pan
         then [pan] else []))%list
  /\ sessions (snd (execute db input_data w)) = sessions w
  /\ audit_trail (snd (execute db input_data w)) = audit_trail w.
Proof.
  intros _ _ _ name0 pan0 et0. unfold execute. fold name0 pan0 et0.
  destruct (String.eqb name0 "" || String.eqb pan0 "" || String.eqb et0 "");
    cbn [negb andb snd]; [now rewrite app_nil_r|].
  destruct (_validate_pan_format pan0); cbn [negb snd]; [|now rewrite app_nil_r].
  unfold MockCRMService.verify_customer.
  destruct (MockData.verify_customer _ _ _ _) as [[v c] [[? ?]|]];
    [destruct (negb v)|]; repeat split.
Qed.

Lemma registry_consulted_exactly_once_witness :
  crm_queries
    (snd (execute MockData.CRM_DATABASE
            (mkInputData (Some "Meera Nair") (Some " yzabc8901d ") (Some "salaried"))
            Fixtures.empty_world))
  = ["YZABC8901D"]
  /\ crm_queries
       (snd (execute MockData.CRM_DATABASE
               (mkInputData (Some "Meera Nair") (Some "yzabc89014") (Some "salaried"))
               Fixtures.empty_world))
     = [].
Proof.
  split.
  - apply (registry_consulted_exactly_once MockData.CRM_DATABASE
             (mkInputData (Some "Meera Nair") (Some " yzabc8901d ") (Some "salaried"))
             Fixtures.empty_world); reflexivity.
  - apply (registry_consulted_exactly_once MockData.CRM_DATABASE
             (mkInputData (Some "Meera Nair") (Some "yzabc89014") (Some "salaried"))
             Fixtures.empty_world); reflexivity.
Defined.

(** Of the ASCII case maps: putting a string in lower case does not
    change its upper case. *)
Lemma upper_lower_char (c : ascii) : upper_char (lower_char c) = upper_char c.
Proof.
  destruct c as [[] [] [] [] [] [] [] []]; reflexivity.
Qed.

Lemma upper_lower (s : string) : is_ascii s = true -> upper (lower s) = upper s.
Proof.
  induction s as [|c s IH]; [reflexivity|].
  cbn [is_ascii]. intros [_ Hs]%andb_prop.
  cbn [upper lower map_string]. f_equal; [apply upper_lower_char|exact (IH Hs)].
Qed.

Lemma lookup_by_pan_upper (db : list (string * MockData.Customer)) (p q : string) :
  upper p = upper q -> MockData.lookup_by_pan db p = MockData.lookup_by_pan db q.
Proof.
  intros H. induction db as [|[cid c] db IH]; [reflexivity|].
  cbn [MockData.lookup_by_pan]. now rewrite H, IH.
Qed.

(** X9.  The lookup by identifier ignores the case of an argument
    written in ASCII: the identifier in upper case, in lower case or as
    given finds the same record. *)
Theorem lookup_by_pan_ignores_case (db : list (string * MockData.Customer)) (pan : string) :
  is_ascii pan = true ->
  MockData.lookup_by_pan db (upper pan) = MockData.lookup_by_pan db pan
  /\ MockData.lookup_by_pan db (lower pan) = MockData.lookup_by_pan db pan.
Proof.
  intros H. split; apply lookup_by_pan_upper; [apply upper_idempotent|now apply upper_lower].
Qed.

Lemma lookup_by_pan_ignores_case_witness :
  MockData.lookup_by_pan MockData.CRM_DATABASE (upper "abCde1234f")
  = MockData.lookup_by_pan MockData.CRM_DATABASE "abCde1234f"
  /\ MockData.lookup_by_pan MockData.CRM_DATABASE (lower "abCde1234f")
     = MockData.lookup_by_pan MockData.CRM_DATABASE "abCde1234f".
Proof.
  apply (lookup_by_pan_ignores_case MockData.CRM_DATABASE "abCde1234f"). reflexivity.
Defined.

Lemma lookup_by_pan_sound (db : list (string * MockData.Customer)) (pan cid : string)
    (c : MockData.Customer) :
  MockData.lookup_by_pan db pan = Some (cid, c) ->
  In (cid, c) db /\ MockData.c_pan c = upper pan.
Proof.
  induction db as [|[k d] db IH]; [discriminate|].
  cbn [MockData.lookup_by_pan].
  destruct (String.eqb (MockData.c_pan d) (upper pan)) eqn:E.
  - intros [= -> ->]. split; [now left|now apply String.eqb_eq].
  - intros H. destruct (IH H) as [Hin Hp]. split; [now right|exact Hp].
Qed.

Lemma lookup_by_id_complete (db : list (string * MockData.Customer)) (cid : string)
    (c : MockData.Customer) :
  NoDup (map fst db) -> In (cid, c) db -> MockData.lookup_by_id db cid = Some (cid, c).
Proof.
  induction db as [|[k d] db IH]; [intros _ []|].
  cbn [map fst MockData.lookup_by_id]. intros Hnd [Heq|Hin].
  - injection Heq as -> ->. now rewrite String.eqb_refl.
  - apply NoDup_cons in Hnd as [Hk Hnd].
    destruct (String.eqb k cid) eqn:E.
    + apply String.eqb_eq in E. subst k. exfalso. apply Hk.
      apply list_elem_of_In. apply (in_map fst) in Hin. exact Hin.
    + now apply IH.
Qed.

(** X10.  The two lookups agree: in a registry whose ids are distinct,
    the record that the lookup by identifier finds is the record that
    the lookup by id returns for the id found. *)
Theorem lookup_by_pan_then_by_id (db : list (string * MockData.Customer))
    (pan cid : string) (c : MockData.Customer) :
  NoDup (map fst db) ->
  MockData.lookup_by_pan db pan = Some (cid, c) ->
  MockData.lookup_by_id db cid = Some (cid, c) /\ MockData.c_pan c = upper pan.
Proof.
  intros Hnd Hl. destruct (lookup_by_pan_sound db pan cid c Hl) as [Hin Hp].
  split; [now apply lookup_by_id_complete|exact Hp].
Qed.

Lemma lookup_by_pan_then_by_id_witness :
  MockData.lookup_by_id MockData.CRM_DATABASE "CUST004"
  = Some ("CUST004", MockData.mkCustomer "Sneha Reddy" "QRSTU3456V" "SALARIED" 55000)
  /\ MockData.c_pan (MockData.mkCustomer "Sneha Reddy" "QRSTU3456V" "SALARIED" 55000)
     = upper "qrstu3456v".
Proof.
  apply (lookup_by_pan_then_by_id MockData.CRM_DATABASE "qrstu3456v").
  - apply (bool_decide_unpack _). vm_compute. exact I.
  - reflexivity.
Defined.

Lemma verified_has_valid_pan (db : list (string * MockData.Customer))
    (input_data : InputData) (w w' : World) (out : VerificationOutput) :
  execute db input_data w = (Ok out, w') ->
  kyc_status out = KYC_VERIFIED ->
  _validate_pan_format (upper (strip (get_or_empty (pan input_data)))) = true.
Proof.
  unfold execute.
  destruct (String.eqb _ "" || String.eqb _ "" || String.eqb _ ""); [discriminate|].
  destruct (_validate_pan_format _); [reflexivity|].
  cbn [negb]. intros [= <- _]. discriminate.
Qed.

(** X11.  A customer is verified only against a registry record whose
    own identifier has the PAN format: the result carries the income and
    the employment type of such a record. *)
Theorem verified_record_has_valid_pan (db : list (string * MockData.Customer))
    (input_data : InputData) (w w' : World) (out : VerificationOutput) :
  execute db input_data w = (Ok out, w') ->
  kyc_status out = KYC_VERIFIED ->
  exists cid c,
    In (cid, c) db
    /\ _validate_pan_format (MockData.c_pan c) = true
    /\ vo_monthly_income out = inject_Z (MockData.c_monthly_income c)
    /\ vo_employment_type out = MockData.c_employment_type c.
Proof.
  intros He Hs.
  destruct (verified_result_shape db input_data w w' out He Hs)
    as (cid & c & Hl & _ & Het & Hinc & _).
  destruct (lookup_by_pan_sound db _ cid c Hl) as [Hin Hp].
  exists cid, c. repeat split; try assumption.
  rewrite Hp, upper_idempotent.
  exact (verified_has_valid_pan db input_data w w' out He Hs).
Qed.

Lemma verified_record_has_valid_pan_witness :
  exists cid c,
    In (cid, c) MockData.CRM_DATABASE
    /\ _validate_pan_format (MockData.c_pan c) = true
    /\ vo_monthly_income (mkVerificationOutput KYC_VERIFIED "SALARIED" 20000 ["LOW_INCOME"])
       = inject_Z (MockData.c_monthly_income c)
    /\ vo_employment_type (mkVerificationOutput KYC_VERIFIED "SALARIED" 20000 ["LOW_INCOME"])
       = MockData.c_employment_type c.
Proof.
  apply (verified_record_has_valid_pan MockData.CRM_DATABASE
           (mkInputData (Some "Meera Nair") (Some "yzabc8901d") (Some "salaried"))
           Fixtures.empty_world (mkWorld ∅ [] ["YZABC8901D"]));
    reflexivity.
Defined.

(** X12.  In the registry of the repository the record of CUST005 has an
    identifier of four letters, four digits and one letter; no input is
    therefore ever verified as CUST005. *)
Theorem cust005_is_never_verified (input_data : InputData) (w w' : World)
    (out : VerificationOutput) :
  execute MockData.CRM_DATABASE input_data w = (Ok out, w') ->
  kyc_status out = KYC_VERIFIED ->
  exists cid c,
    MockData.lookup_by_pan MockData.CRM_DATABASE
      (upper (strip (get_or_empty (pan input_data)))) = Some (cid, c)
    /\ cid <> "CUST005"
    /\ vo_monthly_income out = inject_Z (MockData.c_monthly_income c).
Proof.
  intros He Hs.
  destruct (verified_result_shape _ input_data w w' out He Hs)
    as (cid & c & Hl & _ & _ & Hinc & _).
  pose proof (verified_has_valid_pan _ input_data w w' out He Hs) as Hv.
  destruct (lookup_by_pan_sound _ _ cid c Hl) as [Hin Hp].
  rewrite upper_idempotent in Hp.
  exists cid, c. repeat split; try assumption.
  intros ->. rewrite <- Hp in Hv.
  cbn in Hin.
  repeat (destruct Hin as [Hin|Hin]; [try discriminate Hin|]); [|destruct Hin].
  injection Hin as <-. discriminate Hv.
Qed.

Lemma cust005_is_never_verified_witness :
  exists cid c,
    MockData.lookup_by_pan MockData.CRM_DATABASE
      (upper (strip (get_or_empty (Some "yzabc8901d")))) = Some (cid, c)
    /\ cid <> "CUST005"
    /\ vo_monthly_income (mkVerificationOutput KYC_VERIFIED "SALARIED" 20000 ["LOW_INCOME"])
       = inject_Z (MockData.c_monthly_income c).
Proof.
  apply (cust005_is_never_verified
           (mkInputData (Some "Meera Nair") (Some "yzabc8901d") (Some "salaried"))
           Fixtures.empty_world (mkWorld ∅ [] ["YZABC8901D"]));
    reflexivity.
Defined.

End KycExtras.

(** ** Installments *)

Section EmiExtras.

Import EmiCalculator.
Local Open Scope Q_scope.



End EmiExtras.


(** ** Rule-based intent detection *)

Section ClassifierExtras.

Import LLMService.
Local Open Scope Q_scope.

Variable re_search : string -> string -> bool.

Local Abbreviation rule_based := (_detect_intent_rule_based re_search).
Local Abbreviation score := (_calculate_intent_score re_search).
Local Abbreviation matching := (matching_patterns re_search).

(** The score as a function of the number [m] of matching patterns
    among [n] patterns. *)
Lemma score_arith (m n : Z) :
  (0 <= m <= n)%Z -> (2 <= n)%Z ->
  let c := inject_Z m / inject_Z n in
  let s := if (1 <? m)%Z then py_min (c * 1.5) 1 else c in
  0 <= s /\ s <= 1 /\ (0 < s <-> (0 < m)%Z)
  /\ (0.7 <= s <-> (2 <= m)%Z /\ (7 * n <= 15 * m)%Z).
Proof.
  intros Hm Hn c s.
  destruct n as [|p|p]; try lia.
  assert (Hc : c == m # p) by (subst c; symmetry; apply Qmake_Qdiv).
  assert (H0 : 0 <= c) by (rewrite Hc; unfold Qle; cbn; lia).
  assert (H1 : c <= 1) by (rewrite Hc; unfold Qle; cbn; lia).
  assert (Hpos : 0 < c <-> (0 < m)%Z) by (rewrite Hc; unfold Qlt; cbn; lia).
  assert (H7 : 0.7 <= c <-> (7 * Z.pos p <= 10 * m)%Z)
    by (rewrite Hc; unfold Qle; cbn; lia).
  assert (H15 : 7 # 15 <= c <-> (7 * Z.pos p <= 15 * m)%Z)
    by (rewrite Hc; unfold Qle; cbn; lia).
  clearbody c. subst s.
  destruct (Z.ltb_spec 1 m) as [Hgt|Hle].
  - assert (Hgt' : (0 < m)%Z) by lia.
    pose proof (py_min_Qmin (c * 1.5) 1) as E.
    destruct (Q.min_spec (c * 1.5) 1) as [[Hlt E']|[Hge E']];
      rewrite E' in E; rewrite E.
    + split; [lra|]. split; [lra|]. split; [split; [lia|]|split].
      * intros _. apply Hpos in Hgt'. lra.
      * intros H. split; [lia|]. apply (proj1 H15). lra.
      * intros [_ H]. apply (proj2 H15) in H. lra.
    + split; [lra|]. split; [lra|]. split; [split; [lia|lra]|split].
      * intros _. split; [lia|]. apply (proj1 H15). lra.
      * intros _. lra.
  - split; [assumption|]. split; [assumption|]. split; [exact Hpos|split].
    + intros H. apply (proj1 H7) in H. lia.
    + intros [H _]. lia.
Qed.

Lemma patterns_at_least_two (intent : string) :
  get_patterns INTENT_PATTERNS intent = []
  \/ (2 <= Z.of_nat (length (get_patterns INTENT_PATTERNS intent)))%Z.
Proof.
  unfold INTENT_PATTERNS. cbn [get_patterns].
  repeat (destruct (String.eqb _ intent); [right; cbn; lia|]).
  now left.
Qed.

Lemma matching_at_most_all (message intent : string) :
  (0 <= Z.of_nat (length (matching message intent))
   <= Z.of_nat (length (get_patterns INTENT_PATTERNS intent)))%Z.
Proof.
  unfold matching_patterns.
  pose proof (List.filter_length_le (fun pattern => re_search pattern message)
                (get_patterns INTENT_PATTERNS intent)).
  lia.
Qed.

(** The score of an intent: between 0 and 1, positive when a pattern
    matches, and 0.7 or more exactly when at least two patterns match
    and they are at least 7/15 of the patterns of the intent. *)
Lemma score_facts (message intent : string) :
  let m := Z.of_nat (length (matching message intent)) in
  let n := Z.of_nat (length (get_patterns INTENT_PATTERNS intent)) in
  0 <= score message intent /\ score message intent <= 1
  /\ (0 < score message intent <-> (0 < m)%Z)
  /\ (0.7 <= score message intent <-> (2 <= m)%Z /\ (7 * n <= 15 * m)%Z).
Proof.
  intros m n.
  pose proof (matching_at_most_all message intent) as Hm. fold m n in Hm.
  destruct (patterns_at_least_two intent) as [Hnil|Hn].
  - assert (Em : m = 0%Z).
    { subst m. unfold matching_patterns. now rewrite Hnil. }
    assert (En : n = 0%Z) by (subst n; now rewrite Hnil).
    unfold _calculate_intent_score. rewrite Hnil.
    repeat split; try lra; try lia.
  - fold n in Hn.
    assert (Es : score message intent
                 = if (1 <? m)%Z then py_min (inject_Z m / inject_Z n * 1.5) 1
                   else inject_Z m / inject_Z n).
    { unfold _calculate_intent_score. subst m n.
      destruct (get_patterns INTENT_PATTERNS intent); [cbn in Hn; lia|reflexivity]. }
    rewrite Es. exact (score_arith m n Hm Hn).
Qed.

Lemma intent_scores_spec (message : string) (valid : list string) (i : string) (s : Q) :
  In (i, s) (intent_scores re_search message valid)
  <-> In i valid /\ s = score message i /\ 0 < s.
Proof.
  unfold intent_scores. rewrite List.filter_In, List.in_map_iff.
  unfold Qgt_bool. cbn [snd]. rewrite Qlt_bool_iff. split.
  - intros [(x & [= <- <-] & Hin) Hpos]. auto.
  - intros (Hin & -> & Hpos). split; [|assumption]. now exists i.
Qed.

Lemma best_entry_spec (first : string * Q) (rest : list (string * Q)) :
  In (best_entry first rest) (first :: rest)
  /\ forall x, In x (first :: rest) -> snd x <= snd (best_entry first rest).
Proof.
  unfold best_entry. revert first.
  induction rest as [|y rest IH]; intros first.
  - cbn. split; [now left|]. intros x [<-|[]]. apply Qle_refl.
  - cbn [fold_left]. unfold Qgt_bool at 2 4.
    destruct (Qlt_bool (snd first) (snd y)) eqn:E.
    + apply Qlt_bool_iff in E. destruct (IH y) as [Hin Hmax]. split.
      * right. exact Hin.
      * intros x [<-|Hx]; [|now apply Hmax].
        apply Qle_trans with (snd y); [now apply Qlt_le_weak|]. apply Hmax. now left.
    + apply Qlt_bool_false_iff in E. destruct (IH first) as [Hin Hmax]. split.
      * destruct Hin as [<-|Hin]; [now left|right; now right].
      * intros x [<-|[<-|Hx]].
        -- apply Hmax. now left.
        -- apply Qle_trans with (snd first); [exact E|]. apply Hmax. now left.
        -- apply Hmax. now right.
Qed.

(** X17.  Without the language model, intent detection returns a
    confidence between 0 and 1, asks for clarification exactly when the
    result is not confident (below 0.7), and names an intent of the
    stage, or -unknown- with confidence 0, or -none- with confidence 1
    for a stage without intents. *)
Theorem detected_intent_is_consistent (user_message : string)
    (current_stage : ConversationStage) (history : list Message) :
  let r := detect_intent (fun message stage _ => rule_based message stage)
             user_message current_stage history in
  0 <= confidence r /\ confidence r <= 1
  /\ requires_clarification r = negb (is_confident r)
  /\ (In (intent r) (STAGE_INTENTS current_stage)
      \/ (intent r = "unknown" /\ confidence r = 0 /\ STAGE_INTENTS current_stage <> [])
      \/ (intent r = "none" /\ confidence r = 1 /\ STAGE_INTENTS current_stage = [])).
Proof.
  unfold detect_intent, _detect_intent_rule_based.
  destruct (STAGE_INTENTS current_stage) as [|i0 valid] eqn:Ev.
  - cbn. repeat split; try discriminate. right. right. auto.
  - destruct (intent_scores re_search (lower user_message) (i0 :: valid))
      as [|first rest] eqn:Es.
    + cbn. repeat split; try discriminate. right. left. repeat split. discriminate.
    + cbn [confidence requires_clarification intent].
      destruct (best_entry_spec first rest) as [Hin _].
      destruct (best_entry first rest) as [bi bs]. cbn [fst snd].
      rewrite <- Es in Hin. apply intent_scores_spec in Hin as (Hv & -> & Hpos).
      destruct (score_facts (lower user_message) bi) as (H0 & H1 & _).
      pose proof (py_min_Qmin (score (lower user_message) bi) 1) as E.
      rewrite Q.min_l in E by exact H1.
      repeat split.
      * rewrite E. exact H0.
      * rewrite E. exact H1.
      * left. exact Hv.
Qed.

(** X18.  In a stage with intents of its own, an intent is accepted
    without clarification exactly when, for some intent of the stage, at
    least two of its patterns match the message in lower case and the
    matching patterns are at least 7/15 of its patterns.  One matching
    pattern is never enough. *)
Theorem accepted_iff_two_patterns_match (user_message : string)
    (current_stage : ConversationStage) :
  STAGE_INTENTS current_stage <> [] ->
  (requires_clarification (rule_based user_message current_stage) = false
   <-> exists intent,
         In intent (STAGE_INTENTS current_stage)
         /\ (2 <= Z.of_nat (length (matching (lower user_message) intent)))%Z
         /\ (7 * Z.of_nat (length (get_patterns INTENT_PATTERNS intent))
             <= 15 * Z.of_nat (length (matching (lower user_message) intent)))%Z).
Proof.
  intros Hne. unfold _detect_intent_rule_based.
  destruct (STAGE_INTENTS current_stage) as [|i0 valid] eqn:Ev; [contradiction|].
  destruct (intent_scores re_search (lower user_message) (i0 :: valid))
    as [|first rest] eqn:Es.
  - cbn [requires_clarification]. split; [discriminate|].
    intros (i & Hin & H2 & H7). exfalso.
    destruct (score_facts (lower user_message) i) as (_ & _ & Hpos & _).
    assert (Hi : In (i, score (lower user_message) i)
                   (intent_scores re_search (lower user_message) (i0 :: valid))).
    { apply intent_scores_spec. repeat split; [assumption|]. apply Hpos. lia. }
    rewrite Es in Hi. destruct Hi.
  - cbn [requires_clarification].
    destruct (best_entry_spec first rest) as [Hin Hmax].
    rewrite <- Es in Hin, Hmax.
    destruct (best_entry first rest) as [bi bs]. cbn [fst snd] in *.
    apply intent_scores_spec in Hin as (Hv & -> & Hpos).
    destruct (score_facts (lower user_message) bi) as (_ & H1 & _ & H7).
    pose proof (py_min_Qmin (score (lower user_message) bi) 1) as E.
    rewrite Q.min_l in E by exact H1.
    unfold CONFIDENCE_THRESHOLD. rewrite Qlt_bool_false_iff, E. split.
    + intros H. apply H7 in H. exists bi. tauto.
    + intros (i & Hin & H2 & H7').
      destruct (score_facts (lower user_message) i) as (_ & _ & Hpos' & H7i).
      assert (Hi : In (i, score (lower user_message) i)
                     (intent_scores re_search (lower user_message) (i0 :: valid))).
      { apply intent_scores_spec. repeat split; [assumption|]. apply Hpos'. lia. }
      apply Hmax in Hi. cbn [snd] in Hi.
      apply Qle_trans with (score (lower user_message) i); [|exact Hi].
      apply H7i. split; assumption.
Qed.

End ClassifierExtras.

(** In the SALES stage, with a matcher that finds one word only, the
    word -yes- alone is not accepted, while a message matching the two
    confirmation patterns would be. *)
Lemma accepted_iff_two_patterns_match_witness :
  LLMService.requires_clarification
    (LLMService._detect_intent_rule_based
       (fun pattern _ => String.eqb pattern "\byes\b" || String.eqb pattern "\bok\b"
                         || String.eqb pattern "\bagree\b")
       "Yes ok agree" SALES) = false
  <-> exists intent,
        In intent (LLMService.STAGE_INTENTS SALES)
        /\ (2 <= Z.of_nat (length (LLMService.matching_patterns
              (fun pattern _ => String.eqb pattern "\byes\b" || String.eqb pattern "\bok\b"
                                || String.eqb pattern "\bagree\b")
              (lower "Yes ok agree") intent)))%Z
        /\ (7 * Z.of_nat (length (LLMService.get_patterns LLMService.INTENT_PATTERNS intent))
            <= 15 * Z.of_nat (length (LLMService.matching_patterns
              (fun pattern _ => String.eqb pattern "\byes\b" || String.eqb pattern "\bok\b"
                                || String.eqb pattern "\bagree\b")
              (lower "Yes ok agree") intent)))%Z.
Proof.
  apply (accepted_iff_two_patterns_match
           (fun pattern _ => String.eqb pattern "\byes\b" || String.eqb pattern "\bok\b"
                             || String.eqb pattern "\bagree\b")
           "Yes ok agree" SALES).
  discriminate.
Defined.

(** ** What a turn does to the stored session *)

Section SessionExtras.

Import MasterAgent LLMService Reference Invariant.

Variable md5_int : string -> Z.
Variable crm : list (string * MockData.Customer).
Variable classify : string -> ConversationStage -> list Message -> IntentDetectionResult.
Variable extract_entities : string -> string -> Entities.
Variable validation_error_text : string.
Variable generate_sanction_letter : SanctionAgent.SanctionInput -> Result (string * string).
Variable glyph : string -> string.
Variable fmt_grouped : Z -> string.
Variable fmt_money : Q -> string.
Variable fmt_float : Q -> string.
Variable fmt_int : Z -> string.

Local Abbreviation sanction_attempt :=
  (_sanction_attempt validation_error_text generate_sanction_letter).
Local Abbreviation handle_sanction :=
  (_handle_sanction_stage validation_error_text generate_sanction_letter glyph
     fmt_money fmt_int).
Local Abbreviation handle_underwriting :=
  (_handle_underwriting_stage md5_int validation_error_text generate_sanction_letter
     glyph fmt_grouped fmt_money fmt_float fmt_int).
Local Abbreviation kyc_verified :=
  (_kyc_verified md5_int crm validation_error_text generate_sanction_letter glyph
     fmt_grouped fmt_money fmt_float fmt_int).
Local Abbreviation handle_kyc :=
  (_handle_kyc_stage md5_int crm extract_entities validation_error_text
     generate_sanction_letter glyph fmt_grouped fmt_money fmt_float fmt_int).
Local Abbreviation handle_sales :=
  (_handle_sales_stage extract_entities glyph fmt_grouped fmt_money fmt_int).
Local Abbreviation process_by_stage :=
  (_process_by_stage md5_int crm extract_entities validation_error_text
     generate_sanction_letter glyph fmt_grouped fmt_money fmt_float fmt_int).
Local Abbreviation process :=
  (process_message md5_int crm classify extract_entities validation_error_text
     generate_sanction_letter glyph fmt_grouped fmt_money fmt_float fmt_int).
Local Abbreviation turns :=
  (run_turns md5_int crm classify extract_entities validation_error_text
     generate_sanction_letter glyph fmt_grouped fmt_money fmt_float fmt_int).
Local Abbreviation ok := (consistent md5_int).

(** *** The audit trail *)

Lemma quiet_same (sid : string) (w w' : World) :
  audit_trail w' = audit_trail w -> audit_quiet sid w w'.
Proof.
  intros H. exists []. split; [now rewrite app_nil_r|constructor].
Qed.

Lemma quiet_trans (sid : string) (w1 w2 w3 : World) :
  audit_quiet sid w1 w2 -> audit_quiet sid w2 w3 -> audit_quiet sid w1 w3.
Proof.
  intros (a & Ha & Hla) (b & Hb & Hlb). exists (a ++ b)%list.
  split; [rewrite Hb, Ha; now rewrite <- app_assoc|now apply Forall_app].
Qed.

Lemma quiet_log (sid agent : string) (success : bool) (error : option string)
    (w w0 : World) :
  audit_quiet sid w w0 ->
  audit_quiet sid w (AuditLogger.log_execution sid agent success error w0).
Proof.
  intros H. apply (quiet_trans sid w w0); [exact H|].
  exists [Execution sid agent success error]. split; [reflexivity|].
  repeat constructor.
Qed.

Lemma quiet_run {In Out : Type} (agent : string)
    (execute : In -> World -> Result Out * World) (i : In) (sid : string) (w : World) :
  audit_trail (snd (execute i w)) = audit_trail w ->
  audit_quiet sid w (snd (BaseAgent.run agent execute i sid w)).
Proof.
  intros H. unfold BaseAgent.run.
  destruct (execute i w) as [[out|e] w1]; cbn [snd] in *;
    apply quiet_log, quiet_same; exact H.
Qed.

Lemma moved_log (sid : string) (from_stage : option ConversationStage)
    (s : ConversationStage) (reason : string) (w w0 : World) :
  audit_quiet sid w w0 ->
  audit_moved sid s w (AuditLogger.log_state_transition sid from_stage s reason w0).
Proof.
  intros (a & Ha & Hla). exists a, from_stage, reason, []. cbn. rewrite Ha.
  split; [now rewrite <- app_assoc|]. split; [|constructor].
  eapply Forall_impl; [exact Hla|]. now intros e [He _].
Qed.

Lemma moved_then_quiet (sid : string) (s : ConversationStage) (w w1 w2 : World) :
  audit_moved sid s w w1 -> audit_quiet sid w1 w2 -> audit_moved sid s w w2.
Proof.
  intros (a & f & r & l & Ha & Hla & Hll) (b & Hb & Hlb).
  exists a, f, r, (l ++ b)%list. rewrite Hb, Ha.
  split; [now rewrite <- !app_assoc|]. split; [exact Hla|now apply Forall_app].
Qed.

Lemma moved_then_moved (sid : string) (s1 s2 : ConversationStage) (w w1 w2 : World) :
  audit_moved sid s1 w w1 -> audit_moved sid s2 w1 w2 -> audit_moved sid s2 w w2.
Proof.
  intros (a & f & r & l & Ha & Hla & Hll) (b & f' & r' & l' & Hb & Hlb & Hll').
  exists (a ++ StateTransition sid f s1 r :: l ++ b)%list, f', r', l'.
  rewrite Hb, Ha. split; [|split; [|exact Hll']].
  - rewrite <- !app_assoc. cbn. now rewrite <- !app_assoc.
  - apply Forall_app. split; [exact Hla|].
    constructor; [reflexivity|]. apply Forall_app. split; [|exact Hlb].
    eapply Forall_impl; [exact Hll|]. now intros e [He _].
Qed.

Lemma add_message_audit (sid role content : string) (w : World) :
  audit_trail (StateManager.add_message sid role content w) = audit_trail w.
Proof.
  unfold StateManager.add_message. now destruct (StateManager.load_state sid w).
Qed.

Lemma sanction_attempt_quiet (state : ConversationState) (uw : UnderwritingOutput)
    (w : World) :
  audit_quiet (session_id state) w (snd (sanction_attempt state uw w)).
Proof.
  unfold _sanction_attempt.
  destruct (sales_data state); [|now apply quiet_same].
  destruct (EmiCalculator.calculate_emi _ _ _); [|now apply quiet_same].
  match goal with
  | |- context [BaseAgent.run ?a ?f ?i ?s ?w0] =>
      pose proof (quiet_run a f i s w0 eq_refl) as H;
      destruct (BaseAgent.run a f i s w0) as [[out|e] w1]
  end; exact H.
Qed.

(** *** Effects and their composition *)

Lemma effect_weaken (state : ConversationState) (Q Q' : Prop)
    (P P' : ConversationState -> Prop) (w w' : World) :
  (Q -> Q') -> (forall st', P st' -> P' st') ->
  effect state Q P w w' -> effect state Q' P' w w'.
Proof.
  intros HQ HP [(Hs & Ha & H)|(st' & Hs & Hid & Hh & Hr & Ha & H)].
  - left. auto.
  - right. exists st'. auto 7.
Qed.

(** A handler that first stores [s1] for the session of [state] and
    then behaves as a handler called on [s1]. *)
Lemma effect_after_save (state s1 : ConversationState) (Q : Prop)
    (P : ConversationState -> Prop) (w w1 w' : World) :
  session_id s1 = session_id state ->
  conversation_history s1 = conversation_history state ->
  (stage_rank (current_stage state) < stage_rank (current_stage s1))%nat ->
  sessions w1 = <[session_id state := s1]> (sessions w) ->
  audit_moved (session_id state) (current_stage s1) w w1 ->
  effect s1 Q P w1 w' ->
  effect state False (fun st' => (st' = s1 /\ Q) \/ P st') w w'.
Proof.
  intros Hid Hh Hr Hs Hm
    [(Hs' & Ha & HQ)|(st' & Hs' & Hid' & Hh' & Hr' & Ha & HP)]; right;
    rewrite Hid in Ha.
  - exists s1. rewrite Hs', Hs.
    split; [reflexivity|]. split; [exact Hid|]. split; [exact Hh|].
    split; [exact Hr|]. split; [|now left].
    eapply moved_then_quiet; eassumption.
  - exists st'. rewrite Hs', Hs, Hid, insert_insert_eq.
    split; [reflexivity|]. split; [congruence|]. split; [congruence|].
    split; [lia|]. split; [|now right].
    eapply moved_then_moved; eassumption.
Qed.

Lemma underwritten_ext (st st' : ConversationState) (uw : UnderwritingOutput) :
  sales_data st' = sales_data st -> kyc_data st' = kyc_data st ->
  underwriting_data st' = underwriting_data st ->
  state_customer_id st' = state_customer_id st ->
  underwritten md5_int st uw -> underwritten md5_int st' uw.
Proof.
  intros Hs Hk Hu Hc (sales & kyc & (H1 & H2 & H3) & H4 & H5).
  exists sales, kyc. unfold verified_data, underwriting_input in *.
  rewrite Hs, Hk, Hu, Hc. auto.
Qed.

(** *** The handlers *)

Lemma sanction_effect (state : ConversationState) (w : World) :
  current_stage state = SANCTION ->
  effect state True
    (fun st' => current_stage st' = COMPLETED /\ (ok state -> ok st'))
    w (snd (handle_sanction state w)).
Proof.
  intros Hstage. unfold _handle_sanction_stage.
  destruct (underwriting_data state) as [uw|] eqn:Eu;
    [|left; split; [reflexivity|split; [now apply quiet_same|exact I]]].
  pose proof (sanction_attempt_sessions validation_error_text generate_sanction_letter
                state uw w) as Hs.
  pose proof (sanction_attempt_quiet state uw w) as Hq.
  destruct (sanction_attempt state uw w) as [[[final_emi out]|e] w1];
    cbn [snd] in *; [|left; auto].
  right.
  exists (set_current_stage (set_sanction_letter_path state (Some (letter_path out)))
            COMPLETED).
  unfold _transition_stage. cbn [fst snd].
  split; [cbn; now rewrite Hs, insert_insert_eq|].
  split; [reflexivity|]. split; [reflexivity|].
  split; [rewrite Hstage; cbn; lia|].
  split; [apply moved_log; exact Hq|].
  split; [reflexivity|].
  unfold consistent. rewrite Hstage. cbn.
  intros (uw' & Hu & Hd & _).
  exists uw'. split; [|split; [assumption|discriminate]].
  revert Hu. now apply underwritten_ext.
Qed.

(** The two granting branches of the underwriting handler: the result
    is stored, the stage moves to SANCTION and the sanction handler
    runs. *)
Lemma granted_effect (state : ConversationState) (uw : UnderwritingOutput)
    (reason : string) (w w1 : World) :
  current_stage state = UNDERWRITING ->
  sessions w1 = sessions w ->
  audit_quiet (session_id state) w w1 ->
  decision uw <> REJECTED ->
  let state1 := set_underwriting_data state (Some uw) in
  let w2 := StateManager.save_state state1 w1 in
  effect state False
    (fun st' =>
       underwritten md5_int state1 uw -> sanction_letter_path state = None -> ok st')
    w (snd (handle_sanction (fst (_transition_stage state1 SANCTION reason w2))
              (snd (_transition_stage state1 SANCTION reason w2)))).
Proof.
  intros Hstage Hs Hq Hd state1 w2.
  set (s1 := fst (_transition_stage state1 SANCTION reason w2)).
  set (w3 := snd (_transition_stage state1 SANCTION reason w2)).
  assert (Hsess : sessions w3 = <[session_id state := s1]> (sessions w)).
  { subst w3 s1 w2 state1. unfold _transition_stage. cbn.
    now rewrite Hs, insert_insert_eq. }
  assert (Hrank : (stage_rank (current_stage state) < stage_rank (current_stage s1))%nat).
  { rewrite Hstage. cbn. lia. }
  assert (Hm : audit_moved (session_id state) (current_stage s1) w w3).
  { subst w3 s1 w2 state1. unfold _transition_stage. cbn [fst snd].
    apply moved_log. exact Hq. }
  pose proof (effect_after_save state s1 _ _ w w3 _ eq_refl eq_refl Hrank Hsess Hm
                (sanction_effect s1 w3 eq_refl)) as H.
  revert H. apply effect_weaken; [tauto|].
  assert (Hs1 : underwritten md5_int state1 uw -> sanction_letter_path state = None ->
                ok s1).
  { intros Hu Hl. unfold consistent. cbn. exists uw.
    split; [|split; [exact Hd|exact Hl]].
    revert Hu. now apply underwritten_ext. }
  intros st' [[-> _]|[_ Hc]] Hu Hl; auto.
Qed.

Lemma underwriting_effect (state : ConversationState) (w : World) :
  current_stage state = UNDERWRITING ->
  effect state (underwriting_raises md5_int state)
    (fun st' => ready state -> ok st')
    w (snd (handle_underwriting state w)).
Proof.
  intros Hstage. unfold _handle_underwriting_stage.
  destruct (sales_data state) as [sales|] eqn:Es;
    [|left; split; [reflexivity|split;
        [now apply quiet_same|intros s k H1 H2; congruence]]].
  destruct (kyc_data state) as [kyc|] eqn:Ek;
    [|left; split; [reflexivity|split;
        [now apply quiet_same|intros s k H1 H2; congruence]]].
  match goal with
  | |- context [BaseAgent.run ?a ?f ?i ?s ?w0] =>
      pose proof (run_pure_sessions a (UnderwritingAgent.execute md5_int) i s w0) as Hs;
      pose proof (quiet_run a f i s w0 eq_refl) as Hq;
      unfold BaseAgent.run, BaseAgent.pure_execute in Hs, Hq |- *;
      destruct (UnderwritingAgent.execute md5_int i) as [uw|e] eqn:Ex
  end; cbn [snd] in Hs, Hq.
  2:{ left. split; [exact Hs|]. split; [exact Hq|].
      intros s k H1 H2. rewrite Es in H1. rewrite Ek in H2.
      injection H1 as <-. injection H2 as <-.
      unfold underwriting_input. now rewrite Ex. }
  assert (Hu : ready state -> underwritten md5_int (set_underwriting_data state (Some uw)) uw).
  { intros (s & k & (Hs1 & Hk1 & Hv) & _ & _).
    rewrite Es in Hs1. rewrite Ek in Hk1. injection Hs1 as <-. injection Hk1 as <-.
    exists sales, kyc. cbn. repeat split; assumption. }
  assert (Hl : ready state -> sanction_letter_path state = None).
  { now intros (s & k & _ & _ & Hl). }
  set (w1 := AuditLogger.log_execution _ _ _ _ w) in *. clearbody w1.
  destruct (decision uw) eqn:Ed.
  - pose proof (granted_effect state uw "Loan approved" w w1 Hstage Hs Hq
                  ltac:(rewrite Ed; discriminate)) as H.
    cbv zeta in H.
    destruct (_transition_stage _ SANCTION "Loan approved" _) as [state2 w3].
    cbn [fst snd] in H. destruct (handle_sanction state2 w3) as [resp w4].
    cbn [snd] in *. revert H. apply effect_weaken; [tauto|]. auto.
  - pose proof (granted_effect state uw "Conditional approval" w w1 Hstage Hs Hq
                  ltac:(rewrite Ed; discriminate)) as H.
    cbv zeta in H.
    destruct (_transition_stage _ SANCTION "Conditional approval" _) as [state2 w3].
    cbn [fst snd] in H. destruct (handle_sanction state2 w3) as [resp w4].
    cbn [snd] in *. revert H. apply effect_weaken; [tauto|]. auto.
  - right. exists (set_current_stage (set_underwriting_data state (Some uw)) FAILED).
    unfold _transition_stage. cbn [fst snd].
    split; [cbn; now rewrite Hs, insert_insert_eq|].
    split; [reflexivity|]. split; [reflexivity|].
    split; [rewrite Hstage; cbn; lia|].
    split; [apply moved_log; exact Hq|].
    intros Hr. unfold consistent. cbn.
    split; [rewrite Es; discriminate|]. split; [apply Hl, Hr|].
    right. exists uw. split; [|exact Ed].
    generalize (Hu Hr). now apply underwritten_ext.
Qed.

Lemma kyc_never_pending (i : VerificationAgent.InputData) (w w' : World)
    (out : VerificationOutput) :
  VerificationAgent.execute crm i w = (Ok out, w') -> kyc_status out <> KYC_PENDING.
Proof.
  unfold VerificationAgent.execute.
  destruct (String.eqb _ "" || String.eqb _ "" || String.eqb _ ""); [discriminate|].
  destruct (negb (VerificationAgent._validate_pan_format _));
    [intros [= <- _]; discriminate|].
  unfold MockCRMService.verify_customer.
  destruct (MockData.verify_customer _ _ _ _) as [[v c] [[? ?]|]];
    [destruct (negb v)|]; intros [= <- _]; discriminate.
Qed.

Lemma run_result {In Out : Type} (agent : string)
    (execute : In -> World -> Result Out * World) (i : In) (s : string) (w : World) :
  fst (BaseAgent.run agent execute i s w) = fst (execute i w).
Proof.
  unfold BaseAgent.run. now destruct (execute i w) as [[out|e] w1].
Qed.

Lemma kyc_verified_effect (state : ConversationState) (name pan : string)
    (vo : VerificationOutput) (w w1 : World) :
  current_stage state = KYC ->
  sessions w1 = sessions w ->
  audit_quiet (session_id state) w w1 ->
  kyc_status vo = KYC_VERIFIED ->
  effect state True (fun st' => ok state -> ok st')
    w (snd (kyc_verified state name pan vo w1)).
Proof.
  intros Hstage Hs Hq Hv. unfold _kyc_verified, MockCRMService.lookup_by_pan.
  destruct (MockData.lookup_by_pan crm pan) as [[cid c]|];
    [|left; split; [exact Hs|split; [exact Hq|exact I]]].
  set (state2 := set_customer (set_kyc_data state (Some vo)) (Some cid) (Some name)).
  set (w2 := MockCRMService.consult pan w1).
  set (w3 := StateManager.save_state state2 w2).
  set (s3 := fst (_transition_stage state2 UNDERWRITING "KYC verified" w3)).
  set (w4 := snd (_transition_stage state2 UNDERWRITING "KYC verified" w3)).
  change (effect state True (fun st' => ok state -> ok st') w
            (snd (handle_underwriting s3 w4))).
  assert (Hsess : sessions w4 = <[session_id state := s3]> (sessions w)).
  { subst w4 s3 w3 w2 state2. unfold _transition_stage. cbn.
    now rewrite Hs, insert_insert_eq. }
  assert (Hrank : (stage_rank (current_stage state) < stage_rank (current_stage s3))%nat).
  { rewrite Hstage. cbn. lia. }
  assert (Hm : audit_moved (session_id state) (current_stage s3) w w4).
  { subst w4 s3 w3 w2 state2. unfold _transition_stage. cbn [fst snd].
    apply moved_log. exact Hq. }
  pose proof (effect_after_save state s3 _ _ w w4 _ eq_refl eq_refl Hrank Hsess Hm
                (underwriting_effect s3 w4 eq_refl)) as H.
  revert H. apply effect_weaken; [tauto|].
  assert (Hr : ok state -> ready s3).
  { unfold consistent. rewrite Hstage. intros (H1 & H2 & H3 & H4).
    destruct (sales_data state) as [sales|] eqn:Es; [|contradiction].
    exists sales, vo. cbn. repeat split; assumption. }
  intros st' [[-> Hraise]|Hc] Hok.
  - unfold consistent. cbn. split; [apply Hr, Hok|exact Hraise].
  - apply Hc, Hr, Hok.
Qed.

Lemma kyc_effect (state : ConversationState) (msg intent : string) (w : World) :
  current_stage state = KYC ->
  effect state True (fun st' => ok state -> ok st')
    w (snd (handle_kyc state msg intent w)).
Proof.
  intros Hstage. unfold _handle_kyc_stage.
  assert (Hnothing : effect state True (fun st' => ok state -> ok st') w w).
  { left. split; [reflexivity|]. split; [now apply quiet_same|exact I]. }
  destruct (extract_name _) as [name|]; [|exact Hnothing].
  destruct (e_pan _) as [pan|]; [|exact Hnothing].
  destruct (find_employment_type _) as [et|]; [|exact Hnothing].
  destruct (negb _ && negb _ && negb _); [|exact Hnothing].
  match goal with
  | |- context [BaseAgent.run ?a ?f ?i ?s ?w0] =>
      pose proof (run_verification_sessions crm i s w0) as Hs;
      pose proof (quiet_run a f i s w0 (verification_audit crm i w0)) as Hq;
      pose proof (run_result a f i s w0) as Hr;
      pose proof (kyc_never_pending i w0) as Hp;
      destruct (f i w0) as [r0 w0'];
      destruct (BaseAgent.run a f i s w0) as [[out|e] w1]
  end; cbn [fst snd] in Hs, Hq, Hr; [|left; auto].
  subst r0. specialize (Hp w0' out eq_refl).
  destruct (kyc_status out) eqn:Ek.
  - contradiction.
  - now apply kyc_verified_effect.
  - right. exists (set_current_stage state FAILED).
    unfold _transition_stage. cbn [fst snd].
    split; [cbn; now rewrite Hs|].
    split; [reflexivity|]. split; [reflexivity|].
    split; [rewrite Hstage; cbn; lia|].
    split; [apply moved_log; exact Hq|].
    unfold consistent. rewrite Hstage. cbn. intros (H1 & H2 & H3 & H4).
    split; [exact H1|]. split; [exact H4|]. left. now split.
Qed.

Lemma sales_effect (state : ConversationState) (msg intent : string) (w : World) :
  current_stage state = SALES ->
  effect state True (fun st' => ok state -> ok st')
    w (snd (handle_sales state msg intent w)).
Proof.
  intros Hstage. unfold _handle_sales_stage.
  assert (Hnothing : effect state True (fun st' => ok state -> ok st') w w).
  { left. split; [reflexivity|]. split; [now apply quiet_same|exact I]. }
  destruct (e_amount _) as [amount|]; [|exact Hnothing].
  destruct (e_tenure_months _) as [tenure|]; [|exact Hnothing].
  match goal with
  | |- context [BaseAgent.run ?a ?f ?i ?s ?w0] =>
      pose proof (run_pure_sessions a SalesAgent.execute i s w0) as Hs;
      pose proof (quiet_run a f i s w0 eq_refl) as Hq;
      destruct (BaseAgent.run a f i s w0) as [[out|e] w1]
  end; cbn [snd] in Hs, Hq; [|left; auto].
  right. exists (set_current_stage (set_sales_data state (Some out)) KYC).
  unfold _transition_stage. cbn [fst snd].
  split; [cbn; now rewrite Hs, insert_insert_eq|].
  split; [reflexivity|]. split; [reflexivity|].
  split; [rewrite Hstage; cbn; lia|].
  split; [apply moved_log; exact Hq|].
  unfold consistent. rewrite Hstage. cbn. intros (H1 & H2 & H3 & H4).
  split; [discriminate|]. auto.
Qed.

Lemma process_by_stage_effect (state : ConversationState) (msg intent : string)
    (w : World) :
  effect state (current_stage state = UNDERWRITING -> underwriting_raises md5_int state)
    (fun st' => ok state -> ok st')
    w (snd (process_by_stage state msg intent w)).
Proof.
  unfold _process_by_stage. destruct (current_stage state) eqn:Hstage.
  - generalize (sales_effect state msg intent w Hstage).
    apply effect_weaken; [discriminate|auto].
  - generalize (kyc_effect state msg intent w Hstage).
    apply effect_weaken; [discriminate|auto].
  - generalize (underwriting_effect state w Hstage).
    apply effect_weaken; [auto|].
    intros st' H Hok. apply H. unfold consistent in Hok. rewrite Hstage in Hok. tauto.
  - generalize (sanction_effect state w Hstage).
    apply effect_weaken; [discriminate|]. intros st' [_ H]. exact H.
  - left. split; [reflexivity|]. split; [now apply quiet_same|discriminate].
  - left. split; [reflexivity|]. split; [now apply quiet_same|discriminate].
Qed.

(** *** A turn *)

Lemma consistent_history (st : ConversationState) (h : list Message) :
  ok st -> ok (set_conversation_history st h).
Proof.
  unfold consistent, ready, underwriting_raises, underwritten, verified_data,
    underwriting_input.
  cbn. tauto.
Qed.

Lemma add_message_sessions (sid role content : string) (st : ConversationState)
    (w : World) :
  sessions w !! sid = Some st -> session_id st = sid ->
  sessions (StateManager.add_message sid role content w)
  = <[sid := set_conversation_history st
               (conversation_history st ++ [mkMessage role content])%list]> (sessions w).
Proof.
  intros Hl Hid. unfold StateManager.add_message, StateManager.load_state.
  rewrite Hl. cbn. now rewrite Hid.
Qed.

Lemma moved_same_l (sid : string) (s : ConversationStage) (w w1 w2 : World) :
  audit_trail w1 = audit_trail w -> audit_moved sid s w1 w2 -> audit_moved sid s w w2.
Proof.
  intros H (a & f & r & l & Ha & Hl). exists a, f, r, l. now rewrite <- H.
Qed.

(** The stored session and the audit trail after a turn.  Either no
    handler stored anything: the session is the session before the turn
    with the two messages appended, and executions only were logged.
    Or the session is in a later stage, its history is the history
    before the turn with the response appended, and the last transition
    logged is one into that stage. *)
Lemma turn_effect (sid : string) (st : ConversationState) (msg : string) (w : World) :
  sessions w !! sid = Some st -> session_id st = sid ->
  exists st',
    sessions (snd (process (Some sid) msg w)) = <[sid := st']> (sessions w)
    /\ session_id st' = sid
    /\ (ok st -> ok st')
    /\ ((st' = set_conversation_history st
                 (conversation_history st
                  ++ [mkMessage "customer" msg;
                      mkMessage "system" (fst (process (Some sid) msg w))])%list
         /\ audit_quiet sid w (snd (process (Some sid) msg w))
         /\ (current_stage st = UNDERWRITING -> underwriting_raises md5_int st))
        \/ ((stage_rank (current_stage st) < stage_rank (current_stage st'))%nat
            /\ conversation_history st'
               = (conversation_history st
                  ++ [mkMessage "system" (fst (process (Some sid) msg w))])%list
            /\ audit_moved sid (current_stage st') w (snd (process (Some sid) msg w)))).
Proof.
  intros Hl Hid. unfold process_message, StateManager.load_state. rewrite Hl.
  pose proof (add_message_sessions sid "customer" msg st w Hl Hid) as H1.
  pose proof (add_message_audit sid "customer" msg w) as Ha1.
  set (w1 := StateManager.add_message sid "customer" msg w) in *. clearbody w1.
  set (st1 := set_conversation_history st
                (conversation_history st ++ [mkMessage "customer" msg])%list) in *.
  assert (Hl1 : sessions w1 !! sid = Some st1) by (rewrite H1; apply lookup_insert_eq).
  assert (Hunchanged : forall resp w2,
             sessions w2 = sessions w1 ->
             sessions (StateManager.add_message sid "system" resp w2)
             = <[sid := set_conversation_history st
                          (conversation_history st
                           ++ [mkMessage "customer" msg; mkMessage "system" resp])%list]>
                 (sessions w)).
  { intros resp w2 H2.
    rewrite (add_message_sessions sid "system" resp st1 w2);
      [|now rewrite H2|exact Hid].
    rewrite H2, H1, insert_insert_eq. subst st1. cbn.
    now rewrite <- app_assoc. }
  assert (Hquiet : forall resp w2,
             audit_quiet sid w1 w2 ->
             audit_quiet sid w (StateManager.add_message sid "system" resp w2)).
  { intros resp w2 Hq.
    apply (quiet_trans sid w w1); [now apply quiet_same|].
    apply (quiet_trans sid w1 w2); [exact Hq|].
    apply quiet_same, add_message_audit. }
  destruct (requires_clarification _) eqn:Ec.
  - cbn [fst snd]. eexists. split; [apply Hunchanged; reflexivity|].
    split; [exact Hid|]. split; [apply consistent_history|].
    left. split; [reflexivity|]. split; [now apply Hquiet, quiet_same|].
    intros Hu. rewrite Hu in Ec. discriminate Ec.
  - pose proof (process_by_stage_effect st msg
                  (intent (detect_intent classify msg (current_stage st)
                             (conversation_history st))) w1) as He.
    destruct (process_by_stage st msg _ w1) as [resp w2]. cbn [fst snd] in *.
    unfold effect in He. rewrite Hid in He.
    destruct He as [(H2 & Hq & HQ)|(st2 & H2 & Hid2 & Hh2 & Hr2 & Hm & HP)].
    + eexists. split; [apply Hunchanged; exact H2|].
      split; [exact Hid|]. split; [apply consistent_history|].
      left. split; [reflexivity|]. split; [now apply Hquiet|exact HQ].
    + exists (set_conversation_history st2
                (conversation_history st2 ++ [mkMessage "system" resp])%list).
      split.
      { rewrite (add_message_sessions sid "system" resp st2 w2);
          [|rewrite H2; apply lookup_insert_eq|congruence].
        now rewrite H2, H1, !insert_insert_eq. }
      split; [cbn; congruence|].
      split; [intros Hok; apply consistent_history, HP, Hok|].
      right. cbn. split; [exact Hr2|]. split; [now rewrite Hh2|].
      apply (moved_then_quiet sid _ w w2);
        [now apply (moved_same_l sid _ w w1)|apply quiet_same, add_message_audit].
Qed.


(** *** The audit trail of one session *)

Lemma audit_trail_app (sid : string) (w w' : World) (added : list AuditEntry) :
  audit_trail w' = (audit_trail w ++ added)%list ->
  AuditLogger.get_audit_trail sid w'
  = (AuditLogger.get_audit_trail sid w
     ++ List.filter (fun e => String.eqb (AuditLogger.entry_session e) sid) added)%list.
Proof.
  intros H. unfold AuditLogger.get_audit_trail. rewrite H. apply List.filter_app.
Qed.

Lemma filter_own (sid : string) (l : list AuditEntry) :
  Forall (fun e => AuditLogger.entry_session e = sid) l ->
  List.filter (fun e => String.eqb (AuditLogger.entry_session e) sid) l = l.
Proof.
  induction 1 as [|e l He _ IH]; [reflexivity|].
  cbn. now rewrite (proj2 (String.eqb_eq _ _) He), IH.
Qed.

Lemma filter_other (sid sid' : string) (l : list AuditEntry) :
  sid' <> sid ->
  Forall (fun e => AuditLogger.entry_session e = sid) l ->
  List.filter (fun e => String.eqb (AuditLogger.entry_session e) sid') l = [].
Proof.
  intros Hne. induction 1 as [|e l He _ IH]; [reflexivity|].
  cbn. rewrite IH.
  destruct (String.eqb_spec (AuditLogger.entry_session e) sid'); [congruence|reflexivity].
Qed.

Lemma quiet_recorded (sid : string) (s : ConversationStage) (w w' : World) :
  audit_quiet sid w w' -> recorded sid s w -> recorded sid s w'.
Proof.
  intros (added & Ha & Hf) (earlier & f & r & later & He & Hl).
  exists earlier, f, r, (later ++ added)%list.
  rewrite (audit_trail_app sid w w' added Ha), He, filter_own.
  - split; [now rewrite <- app_assoc|].
    apply Forall_app. split; [exact Hl|].
    eapply Forall_impl; [exact Hf|]. now intros e [_ H].
  - eapply Forall_impl; [exact Hf|]. now intros e [H _].
Qed.

Lemma moved_recorded (sid : string) (s : ConversationStage) (w w' : World) :
  audit_moved sid s w w' -> recorded sid s w'.
Proof.
  intros (earlier & f & r & later & Ha & He & Hl).
  exists (AuditLogger.get_audit_trail sid w ++ earlier)%list, f, r, later.
  rewrite (audit_trail_app sid w w' _ Ha), filter_own.
  - split; [now rewrite <- app_assoc|].
    eapply Forall_impl; [exact Hl|]. now intros e [_ H].
  - apply Forall_app. split; [exact He|]. constructor; [reflexivity|].
    eapply Forall_impl; [exact Hl|]. now intros e [H _].
Qed.

(** *** Conversations *)

Lemma turns_cons (sid m : string) (rest : list string) (w : World) :
  turns sid (m :: rest) w
  = ((fst (process (Some sid) m w), persisted_stage sid (snd (process (Some sid) m w)))
       :: fst (turns sid rest (snd (process (Some sid) m w))),
     snd (turns sid rest (snd (process (Some sid) m w)))).
Proof.
  cbn [run_turns]. destruct (process (Some sid) m w) as [response w1].
  cbn [fst snd]. now destruct (turns sid rest w1).
Qed.

Lemma start_conversation_session (sid : string) (w : World) :
  sessions (snd (start_conversation sid w)) !! sid
  = Some (mkState sid SALES None None None None None None
            [mkMessage "system" welcome_msg]).
Proof.
  unfold start_conversation, StateManager.create_session. cbn [snd].
  rewrite (add_message_sessions sid "system" welcome_msg
             (mkState sid SALES None None None None None None []));
    [apply lookup_insert_eq| |reflexivity].
  cbn. apply lookup_insert_eq.
Qed.

(** Over a run of turns the session stays stored under its id, keeps
    the consistency of its data, and its history grows by one or two
    messages a turn. *)
Lemma turns_session (sid : string) (messages : list string) :
  forall (w : World) (st : ConversationState),
    sessions w !! sid = Some st -> session_id st = sid ->
    exists st',
      sessions (snd (turns sid messages w)) !! sid = Some st'
      /\ session_id st' = sid
      /\ (ok st -> ok st')
      /\ (recorded sid (current_stage st) w ->
          recorded sid (current_stage st') (snd (turns sid messages w)))
      /\ (length (conversation_history st) + length messages
          <= length (conversation_history st')
          <= length (conversation_history st) + 2 * length messages)%nat.
Proof.
  induction messages as [|m rest IH]; intros w st Hl Hid.
  - exists st. cbn. repeat split; auto; lia.
  - rewrite turns_cons. cbn [snd].
    destruct (turn_effect sid st m w Hl Hid) as (st1 & Hs & Hid1 & Hok & H).
    destruct (IH (snd (process (Some sid) m w)) st1)
      as (st' & Hl' & Hid' & Hok' & Hrec' & Hn);
      [rewrite Hs; apply lookup_insert_eq|exact Hid1|].
    exists st'. split; [exact Hl'|]. split; [exact Hid'|]. split; [auto|].
    split.
    { intros Hrec. apply Hrec'.
      destruct H as [(-> & Hq & _)|(_ & _ & Hm)].
      - cbn. eapply quiet_recorded; eassumption.
      - eapply moved_recorded; eassumption. }
    assert (length (conversation_history st) + 1 <= length (conversation_history st1)
            <= length (conversation_history st) + 2)%nat.
    { destruct H as [[-> _]|(_ & -> & _)]; cbn; rewrite length_app; cbn; lia. }
    cbn [length]. lia.
Qed.

Lemma start_conversation_recorded (sid : string) (w : World) :
  recorded sid SALES (snd (start_conversation sid w)).
Proof.
  apply (moved_recorded sid SALES w).
  unfold start_conversation, StateManager.create_session. cbn [snd].
  eapply moved_then_quiet; [|apply quiet_same, add_message_audit].
  apply moved_log. now apply quiet_same.
Qed.

(** X20.  Whatever the customer writes, after a conversation the
    session is stored under its id and holds the data of its stage:
    nothing in SALES; a quote in KYC; a quote and a verified KYC result,
    on which underwriting raises, in UNDERWRITING; in SANCTION also the
    result that underwriting returns on them, not rejected; in COMPLETED
    also the path of the letter; in FAILED a quote, no letter, and
    either no KYC result or a verified one with a rejection. *)
Theorem conversation_keeps_session_consistent (sid : string) (messages : list string)
    (w : World) :
  exists st,
    StateManager.load_state sid
      (snd (turns sid messages (snd (start_conversation sid w)))) = Some st
    /\ session_id st = sid
    /\ consistent md5_int st.
Proof.
  destruct (turns_session sid messages _ _ (start_conversation_session sid w) eq_refl)
    as (st & Hl & Hid & Hok & _).
  exists st. split; [exact Hl|]. split; [exact Hid|].
  apply Hok. unfold consistent. cbn. auto.
Qed.

(** X21.  After a conversation of n messages the summary of the session
    is not empty, counts between n + 1 and 2 n + 1 messages, and its
    four flags (quote, KYC result, underwriting result, letter) follow
    the stage; a failed session has a quote and no letter, and either
    neither or both of the other two. *)
Theorem summary_flags_follow_stage (sid : string) (messages : list string) (w : World) :
  sid <> "" ->
  exists s,
    get_session_summary (Some sid)
      (snd (turns sid messages (snd (start_conversation sid w)))) = Some s
    /\ StateManager.sum_session_id s = sid
    /\ (1 + Z.of_nat (length messages) <= StateManager.message_count s
        <= 1 + 2 * Z.of_nat (length messages))%Z
    /\ let flags :=
         (StateManager.has_sales_data s, StateManager.has_kyc_data s,
          StateManager.has_underwriting_data s, StateManager.sanction_letter_generated s) in
       match StateManager.sum_current_stage s with
       | SALES => flags = (false, false, false, false)
       | KYC => flags = (true, false, false, false)
       | UNDERWRITING => flags = (true, true, false, false)
       | SANCTION => flags = (true, true, true, false)
       | COMPLETED => flags = (true, true, true, true)
       | FAILED => flags = (true, false, false, false) \/ flags = (true, true, true, false)
       end.
Proof.
  intros Hne.
  destruct (turns_session sid messages _ _ (start_conversation_session sid w) eq_refl)
    as (st & Hl & Hid & Hok & _ & Hn).
  assert (Hc : consistent md5_int st) by (apply Hok; unfold consistent; cbn; auto).
  clear Hok. cbn [conversation_history length] in Hn.
  unfold get_session_summary, StateManager.get_session_summary, StateManager.load_state.
  rewrite (proj2 (String.eqb_neq sid "") Hne), Hl.
  eexists. split; [reflexivity|]. cbn.
  split; [exact Hid|]. split; [lia|].
  unfold consistent in Hc.
  destruct (current_stage st).
  - destruct Hc as (-> & -> & -> & ->). reflexivity.
  - destruct Hc as (H1 & -> & -> & ->).
    destruct (sales_data st); [reflexivity|contradiction].
  - destruct Hc as [(sales & kyc & (-> & -> & _) & -> & ->) _]. reflexivity.
  - destruct Hc as (uw & (sales & kyc & (-> & -> & _) & -> & _) & _ & ->). reflexivity.
  - destruct Hc as (uw & (sales & kyc & (-> & -> & _) & -> & _) & _ & Hp).
    destruct (sanction_letter_path st); [reflexivity|contradiction].
  - destruct Hc as (H1 & -> & H).
    destruct (sales_data st); [|contradiction].
    destruct H as [[-> ->]|(uw & (sales & kyc & (_ & -> & _) & -> & _) & _)];
      [left|right]; reflexivity.
Qed.

(** A turn on a session stored in UNDERWRITING whose data
    underwriting refuses. *)
Lemma stuck_turn (sid : string) (st : ConversationState) (sales : SalesOutput)
    (kyc : VerificationOutput) (e : PyExn) (msg : string) (w : World) :
  sessions w !! sid = Some st -> session_id st = sid ->
  current_stage st = UNDERWRITING ->
  sales_data st = Some sales -> kyc_data st = Some kyc ->
  UnderwritingAgent.execute md5_int (underwriting_input st sales kyc) = Raise e ->
  fst (process (Some sid) msg w) = "Error during underwriting: " ++ exn_text e
  /\ sessions (snd (process (Some sid) msg w))
     = <[sid := set_conversation_history st
                  (conversation_history st
                   ++ [mkMessage "customer" msg;
                       mkMessage "system"
                         ("Error during underwriting: " ++ exn_text e)])%list]>
         (sessions w).
Proof.
  intros Hl Hid Hstage Hs Hk He.
  unfold process_message, StateManager.load_state. rewrite Hl.
  pose proof (add_message_sessions sid "customer" msg st w Hl Hid) as H1.
  set (w1 := StateManager.add_message sid "customer" msg w) in *. clearbody w1.
  unfold detect_intent, _process_by_stage. rewrite Hstage.
  cbn [STAGE_INTENTS requires_clarification intent].
  unfold _handle_underwriting_stage. rewrite Hs, Hk.
  unfold BaseAgent.run, BaseAgent.pure_execute.
  unfold underwriting_input in He. rewrite He. cbn [fst snd].
  split; [reflexivity|].
  rewrite (add_message_sessions sid "system" _
             (set_conversation_history st
                (conversation_history st ++ [mkMessage "customer" msg])%list));
    [|cbn [sessions AuditLogger.log_execution AuditLogger.append];
      rewrite H1; apply lookup_insert_eq|exact Hid].
  cbn [sessions AuditLogger.log_execution AuditLogger.append].
  rewrite H1, insert_insert_eq. cbn. now rewrite <- app_assoc.
Qed.

(** X22.  A session stored in UNDERWRITING with a quote and a KYC
    result on which underwriting raises never leaves that stage:
    whatever the customer writes, every turn answers with the text of
    the same exception and the stage stays UNDERWRITING. *)
Theorem underwriting_stage_is_stuck (sid : string) (st : ConversationState)
    (sales : SalesOutput) (kyc : VerificationOutput) (e : PyExn)
    (messages : list string) (w : World) :
  StateManager.load_state sid w = Some st -> session_id st = sid ->
  current_stage st = UNDERWRITING ->
  sales_data st = Some sales -> kyc_data st = Some kyc ->
  UnderwritingAgent.execute md5_int (underwriting_input st sales kyc) = Raise e ->
  Forall (fun turn => fst turn = "Error during underwriting: " ++ exn_text e
                      /\ snd turn = Some UNDERWRITING)
    (fst (turns sid messages w)).
Proof.
  unfold StateManager.load_state. revert w st.
  induction messages as [|m rest IH]; intros w st Hl Hid Hstage Hs Hk He;
    [constructor|].
  rewrite turns_cons. cbn [fst].
  destruct (stuck_turn sid st sales kyc e m w Hl Hid Hstage Hs Hk He) as [Hr Hw].
  constructor.
  - cbn [fst snd]. split; [exact Hr|].
    unfold persisted_stage, StateManager.load_state.
    rewrite Hw, lookup_insert_eq. cbn. now rewrite Hstage.
  - eapply IH; [rewrite Hw; apply lookup_insert_eq|..]; cbn; assumption.
Qed.

Lemma granted_within_request (i : UnderwritingAgent.InputData) (amount : Z)
    (income emi : Q) (uw : UnderwritingOutput) :
  UnderwritingAgent.execute md5_int i = Ok uw ->
  UnderwritingAgent.requested_amount i = Some amount ->
  UnderwritingAgent.monthly_income i = Some income ->
  UnderwritingAgent.estimated_emi i = Some emi ->
  decision uw <> REJECTED ->
  (700 <= credit_score uw)%Z
  /\ (emi <= income * 0.5)%Q
  /\ (approved_amount uw = amount \/ (0 < approved_amount uw < amount)%Z).
Proof.
  unfold UnderwritingAgent.execute. intros He Ha Hi Hemi. rewrite Ha, Hi, Hemi in He.
  destruct (UnderwritingAgent.customer_id i) as [cid|]; [|discriminate].
  destruct (UnderwritingAgent.tenure_months i) as [tenure|]; [|discriminate].
  destruct (_ && _); [|discriminate].
  revert He. unfold UnderwritingAgent._evaluate_eligibility.
  set (score := UnderwritingAgent.get_credit_score md5_int cid).
  destruct (Z.ltb_spec score 700) as [Hlow|Hscore];
    [intros [= <-] Hd; now contradiction Hd|].
  unfold Qgt_bool.
  destruct (Qlt_bool (income * 0.5) emi) eqn:Eemi;
    [intros [= <-] Hd; now contradiction Hd|].
  apply Qlt_bool_false_iff in Eemi.
  destruct ((score >=? 750)%Z && Qge_bool income 75000);
    [|destruct ((score >=? 700)%Z && Qge_bool income 50000)];
    match goal with
    | |- context [(amount >? ?m)%Z] =>
        rewrite (Z.gtb_ltb amount m); destruct (Z.ltb_spec m amount)
    end; intros [= <-] _; cbn;
    (split; [exact Hscore|]); (split; [exact Eemi|]); auto; right; lia.
Qed.

(** X23.  What a conversation can grant.  After a conversation, a
    session stored in SANCTION or COMPLETED holds a quote, a verified
    KYC result and an underwriting result that is not rejected: the
    credit score is 700 or more, the quoted installment is at most half
    of the verified income, and the approved amount is the requested
    amount or a positive amount below it.  A letter path is stored in
    COMPLETED only. *)
Theorem sanctioned_loans_are_within_request (sid : string) (messages : list string)
    (w : World) :
  exists st,
    StateManager.load_state sid
      (snd (turns sid messages (snd (start_conversation sid w)))) = Some st
    /\ (current_stage st = SANCTION \/ current_stage st = COMPLETED ->
        exists sales kyc uw,
          sales_data st = Some sales /\ kyc_data st = Some kyc
          /\ underwriting_data st = Some uw
          /\ kyc_status kyc = KYC_VERIFIED
          /\ decision uw <> REJECTED
          /\ (700 <= credit_score uw)%Z
          /\ (so_estimated_emi sales <= vo_monthly_income kyc * 0.5)%Q
          /\ (approved_amount uw = so_requested_amount sales
              \/ (0 < approved_amount uw < so_requested_amount sales)%Z))
    /\ (sanction_letter_path st <> None -> current_stage st = COMPLETED).
Proof.
  destruct (turns_session sid messages _ _ (start_conversation_session sid w) eq_refl)
    as (st & Hl & _ & Hok & _).
  assert (Hc : consistent md5_int st) by (apply Hok; unfold consistent; cbn; auto).
  exists st. split; [exact Hl|].
  assert (Hgrant : forall uw, underwritten md5_int st uw -> decision uw <> REJECTED ->
            exists sales kyc uw,
              sales_data st = Some sales /\ kyc_data st = Some kyc
              /\ underwriting_data st = Some uw
              /\ kyc_status kyc = KYC_VERIFIED
              /\ decision uw <> REJECTED
              /\ (700 <= credit_score uw)%Z
              /\ (so_estimated_emi sales <= vo_monthly_income kyc * 0.5)%Q
              /\ (approved_amount uw = so_requested_amount sales
                  \/ (0 < approved_amount uw < so_requested_amount sales)%Z)).
  { intros uw (sales & kyc & (Hs & Hk & Hv) & Hu & He) Hd.
    exists sales, kyc, uw.
    split; [exact Hs|]. split; [exact Hk|]. split; [exact Hu|].
    split; [exact Hv|]. split; [exact Hd|].
    exact (granted_within_request _ _ _ _ uw He eq_refl eq_refl eq_refl Hd). }
  unfold consistent in Hc. destruct (current_stage st).
  - destruct Hc as (_ & _ & _ & ->). split; [intros [|]; discriminate|congruence].
  - destruct Hc as (_ & _ & _ & ->). split; [intros [|]; discriminate|congruence].
  - destruct Hc as [(s & k & _ & _ & ->) _]. split; [intros [|]; discriminate|congruence].
  - destruct Hc as (uw & Hu & Hd & ->). split; [intros _; eauto|congruence].
  - destruct Hc as (uw & Hu & Hd & _). split; [intros _; eauto|reflexivity].
  - destruct Hc as (_ & -> & _). split; [intros [|]; discriminate|congruence].
Qed.

(** X24.  The audit trail agrees with the store: after a conversation
    the last transition in the audit trail of the session is one into
    the stage in which the session is stored; the lines after it are
    executions. *)
Theorem audit_trail_names_stored_stage (sid : string) (messages : list string)
    (w : World) :
  exists st earlier from_stage reason later,
    StateManager.load_state sid
      (snd (turns sid messages (snd (start_conversation sid w)))) = Some st
    /\ AuditLogger.get_audit_trail sid
         (snd (turns sid messages (snd (start_conversation sid w))))
       = (earlier ++ StateTransition sid from_stage (current_stage st) reason :: later)%list
    /\ Forall is_execution later.
Proof.
  destruct (turns_session sid messages _ _ (start_conversation_session sid w) eq_refl)
    as (st & Hl & _ & _ & Hrec & _).
  destruct (Hrec (start_conversation_recorded sid w))
    as (earlier & f & r & later & He & Hlater).
  exists st, earlier, f, r, later. auto.
Qed.

(** X25.  A turn on one session leaves every other session alone: its
    stored state and its audit trail are as before the turn. *)
Theorem turn_leaves_other_sessions_alone (sid other : string) (msg : string) (w : World) :
  (forall st, StateManager.load_state sid w = Some st -> session_id st = sid) ->
  other <> sid ->
  StateManager.load_state other (snd (process (Some sid) msg w))
  = StateManager.load_state other w
  /\ AuditLogger.get_audit_trail other (snd (process (Some sid) msg w))
     = AuditLogger.get_audit_trail other w.
Proof.
  intros Hwf Hne. unfold StateManager.load_state in *.
  destruct (sessions w !! sid) as [st|] eqn:Hl.
  - destruct (turn_effect sid st msg w Hl (Hwf st eq_refl)) as (st' & Hs & _ & _ & H).
    rewrite Hs. split; [apply lookup_insert_ne; congruence|].
    assert (Hadded : exists added,
               audit_trail (snd (process (Some sid) msg w))
               = (audit_trail w ++ added)%list
               /\ Forall (fun e => AuditLogger.entry_session e = sid) added).
    { destruct H as [(_ & (added & Ha & Hf) & _)|(_ & _ & (a & f & r & l & Ha & Hf & Hf'))].
      - exists added. split; [exact Ha|].
        eapply Forall_impl; [exact Hf|]. now intros e [He _].
      - eexists. split; [exact Ha|].
        apply Forall_app. split; [exact Hf|]. constructor; [reflexivity|].
        eapply Forall_impl; [exact Hf'|]. now intros e [He _]. }
    destruct Hadded as (added & Ha & Hf).
    rewrite (audit_trail_app other _ _ added Ha), (filter_other sid other added Hne Hf).
    apply app_nil_r.
  - unfold process_message, StateManager.load_state. rewrite Hl. split; reflexivity.
Qed.

(** *** The registry *)

Lemma run_pure_queries {In Out : Type} (agent : string) (f : In -> Result Out) (i : In)
    (s : string) (w : World) :
  crm_queries (snd (BaseAgent.run agent (BaseAgent.pure_execute f) i s w)) = crm_queries w.
Proof.
  unfold BaseAgent.run, BaseAgent.pure_execute. now destruct (f i).
Qed.

Lemma add_message_queries (sid role content : string) (w : World) :
  crm_queries (StateManager.add_message sid role content w) = crm_queries w.
Proof.
  unfold StateManager.add_message. now destruct (StateManager.load_state sid w).
Qed.

Lemma sanction_queries (state : ConversationState) (w : World) :
  crm_queries (snd (handle_sanction state w)) = crm_queries w.
Proof.
  unfold _handle_sanction_stage, _sanction_attempt.
  destruct (underwriting_data state); [|reflexivity].
  destruct (sales_data state); [|reflexivity].
  destruct (EmiCalculator.calculate_emi _ _ _); [|reflexivity].
  match goal with
  | |- context [BaseAgent.run ?a (BaseAgent.pure_execute ?f) ?i ?s ?w0] =>
      pose proof (run_pure_queries a f i s w0) as H;
      destruct (BaseAgent.run a (BaseAgent.pure_execute f) i s w0) as [[out|e] w1]
  end; exact H.
Qed.

Lemma underwriting_queries (state : ConversationState) (w : World) :
  crm_queries (snd (handle_underwriting state w)) = crm_queries w.
Proof.
  unfold _handle_underwriting_stage.
  destruct (sales_data state); [|reflexivity].
  destruct (kyc_data state); [|reflexivity].
  match goal with
  | |- context [BaseAgent.run ?a (BaseAgent.pure_execute ?f) ?i ?s ?w0] =>
      pose proof (run_pure_queries a f i s w0) as H;
      destruct (BaseAgent.run a (BaseAgent.pure_execute f) i s w0) as [[uw|e] w1]
  end; cbn [snd] in H; [|exact H].
  unfold _transition_stage.
  destruct (decision uw); cbv beta iota zeta;
    try match goal with
    | |- context [handle_sanction ?s ?w3] =>
        pose proof (sanction_queries s w3) as H';
        destruct (handle_sanction s w3) as [resp w4]; cbn [snd] in *;
        rewrite H'
    end; exact H.
Qed.

Lemma sales_queries (state : ConversationState) (msg intent : string) (w : World) :
  crm_queries (snd (handle_sales state msg intent w)) = crm_queries w.
Proof.
  unfold _handle_sales_stage.
  destruct (e_amount _); [|reflexivity].
  destruct (e_tenure_months _); [|reflexivity].
  match goal with
  | |- context [BaseAgent.run ?a (BaseAgent.pure_execute ?f) ?i ?s ?w0] =>
      pose proof (run_pure_queries a f i s w0) as H;
      destruct (BaseAgent.run a (BaseAgent.pure_execute f) i s w0) as [[out|e] w1]
  end; exact H.
Qed.

Lemma verification_queries (i : VerificationAgent.InputData) (s : string) (w : World) :
  exists queries,
    crm_queries (snd (BaseAgent.run "VerificationAgent" (VerificationAgent.execute crm)
                        i s w))
    = (crm_queries w ++ queries)%list
    /\ (length queries <= 1)%nat.
Proof.
  unfold BaseAgent.run, VerificationAgent.execute.
  destruct (String.eqb _ "" || String.eqb _ "" || String.eqb _ "");
    [exists []; split; [now rewrite app_nil_r|cbn; lia]|].
  destruct (negb _); [exists []; split; [now rewrite app_nil_r|cbn; lia]|].
  unfold MockCRMService.verify_customer.
  destruct (MockData.verify_customer _ _ _ _) as [[v c] [[? ?]|]];
    [destruct (negb v)|]; eexists [_]; split; try reflexivity; cbn; lia.
Qed.

Lemma kyc_queries (state : ConversationState) (msg intent : string) (w : World) :
  exists queries,
    crm_queries (snd (handle_kyc state msg intent w)) = (crm_queries w ++ queries)%list
    /\ (length queries <= 2)%nat.
Proof.
  unfold _handle_kyc_stage.
  assert (Hnone : exists queries,
             crm_queries w = (crm_queries w ++ queries)%list /\ (length queries <= 2)%nat).
  { exists []. split; [now rewrite app_nil_r|cbn; lia]. }
  destruct (extract_name _) as [name|]; [|exact Hnone].
  destruct (e_pan _) as [pan|]; [|exact Hnone].
  destruct (find_employment_type _) as [et|]; [|exact Hnone].
  destruct (negb _ && negb _ && negb _); [|exact Hnone].
  match goal with
  | |- context [BaseAgent.run ?a ?f ?i ?s ?w0] =>
      destruct (verification_queries i s w0) as (q1 & Hq1 & Hn1);
      destruct (BaseAgent.run a f i s w0) as [[out|e] w1]
  end; cbn [snd] in Hq1.
  2:{ exists q1. split; [exact Hq1|lia]. }
  destruct (kyc_status out).
  1,2: unfold _kyc_verified, MockCRMService.lookup_by_pan;
    (destruct (MockData.lookup_by_pan crm pan) as [[cid c]|];
     [unfold _transition_stage; cbv beta iota zeta;
      match goal with
      | |- context [handle_underwriting ?s ?w4] => rewrite (underwriting_queries s w4)
      end|]);
    exists (q1 ++ [pan])%list; cbn; rewrite Hq1, <- app_assoc;
    (split; [reflexivity|rewrite length_app; cbn; lia]).
  exists q1. unfold _transition_stage. cbn. split; [exact Hq1|lia].
Qed.

(** X26.  The registry is consulted only by a turn taken in the KYC
    stage, and then at most twice; a turn taken in any other stage, a
    turn that asks for clarification and a turn without a stored
    session consult nothing. *)
Theorem registry_is_consulted_in_kyc_only (current : option string) (msg : string)
    (w : World) :
  exists queries,
    crm_queries (snd (process current msg w)) = (crm_queries w ++ queries)%list
    /\ (length queries <= 2)%nat
    /\ (queries <> [] ->
        exists sid st,
          current = Some sid /\ StateManager.load_state sid w = Some st
          /\ current_stage st = KYC
          /\ requires_clarification
               (detect_intent classify msg KYC (conversation_history st)) = false).
Proof.
  assert (Hnone : forall w', crm_queries w' = crm_queries w ->
             exists queries,
               crm_queries w' = (crm_queries w ++ queries)%list
               /\ (length queries <= 2)%nat
               /\ (queries <> [] ->
                   exists sid st,
                     current = Some sid /\ StateManager.load_state sid w = Some st
                     /\ current_stage st = KYC
                     /\ requires_clarification
                          (detect_intent classify msg KYC (conversation_history st))
                        = false)).
  { intros w' H. exists []. rewrite app_nil_r. split; [exact H|].
    split; [cbn; lia|]. intros Hne. now contradiction Hne. }
  unfold process_message.
  destruct current as [sid|]; [|now apply Hnone].
  destruct (StateManager.load_state sid w) as [st|] eqn:Hl; [|now apply Hnone].
  pose proof (add_message_queries sid "customer" msg w) as H1.
  set (w1 := StateManager.add_message sid "customer" msg w) in *. clearbody w1.
  destruct (requires_clarification _) eqn:Ec.
  { cbn [snd]. apply Hnone. now rewrite add_message_queries. }
  unfold _process_by_stage.
  destruct (current_stage st) eqn:Hstage.
  - pose proof (sales_queries st msg
                  (intent (detect_intent classify msg SALES (conversation_history st))) w1)
      as H.
    destruct (handle_sales st msg _ w1) as [resp w2]. cbn [snd] in *.
    apply Hnone. rewrite add_message_queries. congruence.
  - destruct (kyc_queries st msg
                (intent (detect_intent classify msg KYC (conversation_history st))) w1)
      as (queries & H & Hn).
    destruct (handle_kyc st msg _ w1) as [resp w2]. cbn [snd] in *.
    exists queries. rewrite add_message_queries, H, H1.
    split; [reflexivity|]. split; [exact Hn|].
    intros _. exists sid, st. auto.
  - pose proof (underwriting_queries st w1) as H.
    destruct (handle_underwriting st w1) as [resp w2]. cbn [snd] in *.
    apply Hnone. rewrite add_message_queries. congruence.
  - pose proof (sanction_queries st w1) as H.
    destruct (handle_sanction st w1) as [resp w2]. cbn [snd] in *.
    apply Hnone. rewrite add_message_queries. congruence.
  - cbn [snd]. apply Hnone. now rewrite add_message_queries.
  - cbn [snd]. apply Hnone. now rewrite add_message_queries.
Qed.

End SessionExtras.


Lemma summary_flags_follow_stage_witness :
  exists s,
    MasterAgent.get_session_summary (Some "sess_0001")
      (snd (Fixtures.converse Fixtures.working_generator
              [Fixtures.sales_message; Fixtures.kyc_message])) = Some s
    /\ StateManager.sum_current_stage s = COMPLETED
    /\ StateManager.message_count s = 3%Z.
Proof.
  destruct (summary_flags_follow_stage Fixtures.mock_md5 MockData.CRM_DATABASE
              Fixtures.scripted_classify Fixtures.scripted_extract "validation error"
              Fixtures.working_generator Fixtures.no_glyph Fixtures.no_format_Z
              Fixtures.no_format_Q Fixtures.no_format_Q Fixtures.no_format_Z
              "sess_0001" [Fixtures.sales_message; Fixtures.kyc_message]
              Fixtures.empty_world ltac:(discriminate))
    as (s & Hs & _).
  exists s. split; [exact Hs|].
  vm_compute in Hs. injection Hs as <-. split; reflexivity.
Defined.

Lemma underwriting_stage_is_stuck_witness :
  Forall (fun turn =>
            fst turn = "Error during underwriting: "
                       ++ "Missing required underwriting parameters"
            /\ snd turn = Some UNDERWRITING)
    (fst (MasterAgent.run_turns Fixtures.mock_md5 MockData.CRM_DATABASE
            Fixtures.scripted_classify Fixtures.scripted_extract "validation error"
            Fixtures.working_generator Fixtures.no_glyph Fixtures.no_format_Z
            Fixtures.no_format_Q Fixtures.no_format_Q Fixtures.no_format_Z
            "sess_0001" ["Is my loan approved?"; "Hello?"]
            (mkWorld
               {[ "sess_0001" :=
                    mkState "sess_0001" UNDERWRITING (Some "CUST002") (Some "Priya Sharma")
                      (Some (mkSalesOutput 500000 36 16251.22 "11.5% - 14%"))
                      (Some (mkVerificationOutput KYC_VERIFIED "SALARIED" 0 ["LOW_INCOME"]))
                      None None [] ]} [] []))).
Proof.
  apply (underwriting_stage_is_stuck Fixtures.mock_md5 MockData.CRM_DATABASE
           Fixtures.scripted_classify Fixtures.scripted_extract "validation error"
           Fixtures.working_generator Fixtures.no_glyph Fixtures.no_format_Z
           Fixtures.no_format_Q Fixtures.no_format_Q Fixtures.no_format_Z
           "sess_0001"
           (mkState "sess_0001" UNDERWRITING (Some "CUST002") (Some "Priya Sharma")
              (Some (mkSalesOutput 500000 36 16251.22 "11.5% - 14%"))
              (Some (mkVerificationOutput KYC_VERIFIED "SALARIED" 0 ["LOW_INCOME"]))
              None None [])
           (mkSalesOutput 500000 36 16251.22 "11.5% - 14%")
           (mkVerificationOutput KYC_VERIFIED "SALARIED" 0 ["LOW_INCOME"])
           (mkExn ValueError "Missing required underwriting parameters"));
    reflexivity.
Defined.

Lemma turn_leaves_other_sessions_alone_witness :
  StateManager.load_state "sess_0000"
    (snd (MasterAgent.process_message Fixtures.mock_md5 MockData.CRM_DATABASE
            Fixtures.scripted_classify Fixtures.scripted_extract "validation error"
            Fixtures.working_generator Fixtures.no_glyph Fixtures.no_format_Z
            Fixtures.no_format_Q Fixtures.no_format_Q Fixtures.no_format_Z
            (Some "sess_0001") Fixtures.sales_message
            (snd (MasterAgent.start_conversation "sess_0001"
                    (snd (MasterAgent.start_conversation "sess_0000"
                            Fixtures.empty_world))))))
  = StateManager.load_state "sess_0000"
      (snd (MasterAgent.start_conversation "sess_0001"
              (snd (MasterAgent.start_conversation "sess_0000" Fixtures.empty_world))))
  /\ AuditLogger.get_audit_trail "sess_0000"
       (snd (MasterAgent.process_message Fixtures.mock_md5 MockData.CRM_DATABASE
               Fixtures.scripted_classify Fixtures.scripted_extract "validation error"
               Fixtures.working_generator Fixtures.no_glyph Fixtures.no_format_Z
               Fixtures.no_format_Q Fixtures.no_format_Q Fixtures.no_format_Z
               (Some "sess_0001") Fixtures.sales_message
               (snd (MasterAgent.start_conversation "sess_0001"
                       (snd (MasterAgent.start_conversation "sess_0000"
                               Fixtures.empty_world))))))
     = AuditLogger.get_audit_trail "sess_0000"
         (snd (MasterAgent.start_conversation "sess_0001"
                 (snd (MasterAgent.start_conversation "sess_0000" Fixtures.empty_world)))).
Proof.
  apply (turn_leaves_other_sessions_alone Fixtures.mock_md5 MockData.CRM_DATABASE
           Fixtures.scripted_classify Fixtures.scripted_extract "validation error"
           Fixtures.working_generator Fixtures.no_glyph Fixtures.no_format_Z
           Fixtures.no_format_Q Fixtures.no_format_Q Fixtures.no_format_Z
           "sess_0001" "sess_0000").
  - intros st H. vm_compute in H. injection H as <-. reflexivity.
  - discriminate.
Defined.

(** ** What the KYC handler reads from the message *)

Section ExtractionExtras.

Import MasterAgent.

(** The first loop stops at the first word that decides the employment
    type, and the type is read from that word. *)
Lemma find_employment_type_first (words : list string) :
  match find_employment_type words with
  | Some t =>
      exists before word after,
        words = (before ++ word :: after)%list
        /\ Forall (fun word => is_employment_token (upper word) = false
                               /\ contains "EMPLOYED" (upper word) = false) before
        /\ (is_employment_token (upper word) = true /\ t = upper word
            \/ is_employment_token (upper word) = false
               /\ contains "EMPLOYED" (upper word) = true /\ t = "SELF_EMPLOYED")
  | None =>
      Forall (fun word => is_employment_token (upper word) = false
                          /\ contains "EMPLOYED" (upper word) = false) words
  end.
Proof.
  induction words as [|word rest IH]; [constructor|].
  cbn [find_employment_type].
  destruct (is_employment_token (upper word)) eqn:Et.
  { exists [], word, rest. split; [reflexivity|]. split; [constructor|]. left. now split. }
  destruct (contains "EMPLOYED" (upper word)) eqn:Ec.
  { exists [], word, rest. split; [reflexivity|]. split; [constructor|]. right. now split. }
  destruct (find_employment_type rest) as [t|].
  - destruct IH as (before & word' & after & -> & Hb & Hw).
    exists (word :: before), word', after. split; [reflexivity|].
    split; [constructor; [now split|exact Hb]|exact Hw].
  - constructor; [now split|exact IH].
Qed.

Lemma employment_token_cases (w : string) :
  is_employment_token w = true -> w = "SALARIED" \/ w = "SELF_EMPLOYED" \/ w = "BUSINESS".
Proof.
  unfold is_employment_token. intros H.
  destruct (String.eqb_spec w "SALARIED") as [E|_]; [now left|].
  destruct (String.eqb_spec w "SELF_EMPLOYED") as [E|_]; [right; now left|].
  destruct (String.eqb_spec w "BUSINESS") as [E|_]; [right; now right|].
  discriminate H.
Qed.

(** X27.  Of a message written in ASCII.  The employment type read from
    it is absent exactly when no word of the message is, in upper case,
    SALARIED, SELF_EMPLOYED or BUSINESS or contains EMPLOYED.  Otherwise
    it is read from the first word that is one of the three or contains
    EMPLOYED: that word in upper case when it is one of the three,
    SELF_EMPLOYED when it only contains EMPLOYED.  In both cases it is
    SALARIED, SELF_EMPLOYED or BUSINESS. *)
Theorem employment_type_is_one_of_three (user_message : string) :
  is_ascii user_message = true ->
  let words := split user_message in
  match find_employment_type words with
  | Some t =>
      (exists before word after,
         words = (before ++ word :: after)%list
         /\ Forall (fun word => is_employment_token (upper word) = false
                                /\ contains "EMPLOYED" (upper word) = false) before
         /\ (is_employment_token (upper word) = true /\ t = upper word
             \/ is_employment_token (upper word) = false
                /\ contains "EMPLOYED" (upper word) = true /\ t = "SELF_EMPLOYED"))
      /\ (t = "SALARIED" \/ t = "SELF_EMPLOYED" \/ t = "BUSINESS")
  | None =>
      Forall (fun word => is_employment_token (upper word) = false
                          /\ contains "EMPLOYED" (upper word) = false) words
  end.
Proof.
  intros _ words. pose proof (find_employment_type_first words) as H.
  destruct (find_employment_type words) as [t|]; [|exact H].
  split; [exact H|].
  destruct H as (before & word & after & _ & _ & [[Ht ->]|(_ & _ & ->)]);
    [now apply employment_token_cases|right; now left].
Qed.

Lemma employment_type_is_one_of_three_witness :
  (exists before word after,
     split "Rajesh Kumar ABCDE1234F self-employed or salaried"
     = (before ++ word :: after)%list
     /\ Forall (fun word => is_employment_token (upper word) = false
                            /\ contains "EMPLOYED" (upper word) = false) before
     /\ (is_employment_token (upper word) = true /\ "SELF_EMPLOYED" = upper word
         \/ is_employment_token (upper word) = false
            /\ contains "EMPLOYED" (upper word) = true
            /\ "SELF_EMPLOYED" = "SELF_EMPLOYED"))
  /\ ("SELF_EMPLOYED" = "SALARIED" \/ "SELF_EMPLOYED" = "SELF_EMPLOYED"
      \/ "SELF_EMPLOYED" = "BUSINESS").
Proof.
  apply (employment_type_is_one_of_three
           "Rajesh Kumar ABCDE1234F self-employed or salaried").
  reflexivity.
Defined.

(** The words that can be part of a name. *)
Lemma collect_name_parts_closed_form (words acc : list string) :
  (length acc < 2)%nat ->
  collect_name_parts acc words
  = firstn 2 (acc ++ List.filter
                       (fun word => first_isupper word
                                    && (1 <? String.length word)%nat
                                    && negb (isupper word)) words)%list.
Proof.
  revert acc. induction words as [|word rest IH]; intros acc Hacc.
  - cbn. rewrite app_nil_r. symmetry. apply firstn_all2. lia.
  - cbn [collect_name_parts List.filter].
    destruct (first_isupper word && (1 <? String.length word)%nat && negb (isupper word)).
    + destruct (Nat.leb_spec 2 (length (acc ++ [word]))) as [Hle|Hlt].
      * rewrite length_app in Hle. cbn in Hle.
        change (word :: List.filter _ rest)
          with ([word] ++ List.filter
                            (fun word => first_isupper word
                                         && (1 <? String.length word)%nat
                                         && negb (isupper word)) rest)%list.
        rewrite app_assoc, firstn_app.
        replace (2 - length (acc ++ [word]))%nat with 0%nat
          by (rewrite length_app; cbn; lia).
        cbn [firstn]. rewrite app_nil_r. symmetry. apply firstn_all2.
        rewrite length_app. cbn. lia.
      * rewrite IH by exact Hlt. now rewrite <- app_assoc.
    + destruct (Nat.leb_spec 2 (length acc)); [lia|]. now apply IH.
Qed.

(** X28.  The name read from a message written in ASCII is made of the
    first two words, or the only word, that start with a capital letter,
    have more than one character and are not all in capitals, joined by
    a space; it is absent when there is no such word; later words are
    not looked at. *)
Theorem extract_name_takes_first_two (user_message : string) :
  is_ascii user_message = true ->
  extract_name (split user_message)
  = match firstn 2 (List.filter
                      (fun word => first_isupper word
                                   && (1 <? String.length word)%nat
                                   && negb (isupper word)) (split user_message)) with
    | [] => None
    | parts => Some (join " " parts)
    end.
Proof.
  intros _. unfold extract_name.
  rewrite (collect_name_parts_closed_form (split user_message) []) by (cbn; lia).
  reflexivity.
Qed.

Lemma extract_name_takes_first_two_witness :
  extract_name (split "I am Rajesh Kumar, PAN ABCDE1234F, Salaried")
  = Some "Rajesh Kumar,".
Proof.
  rewrite (extract_name_takes_first_two "I am Rajesh Kumar, PAN ABCDE1234F, Salaried");
    reflexivity.
Defined.

End ExtractionExtras.

Section KycAcceptance.

Import VerificationAgent.

(** X29.  Who is verified, on an input and against a registry written in
    ASCII.  The result is VERIFIED exactly when the name and the
    employment type are not blank, the identifier in upper case has the
    PAN format and is found in the registry, the employment type in
    upper case is the registered one, and the name is contained in the
    registered name or contains it, cases ignored. *)
Theorem verified_iff (db : list (string * MockData.Customer)) (input_data : InputData)
    (w : World) :
  is_ascii (get_or_empty (name input_data)) = true ->
  is_ascii (get_or_empty (pan input_data)) = true ->
  is_ascii (get_or_empty (employment_type input_data)) = true ->
  forallb (fun entry => is_ascii (MockData.c_name (snd entry))) db = true ->
  let name := strip (get_or_empty (name input_data)) in
  let pan := upper (strip (get_or_empty (pan input_data))) in
  let employment_type := upper (strip (get_or_empty (employment_type input_data))) in
  (exists out, fst (execute db input_data w) = Ok out /\ kyc_status out = KYC_VERIFIED)
  <-> name <> "" /\ employment_type <> ""
      /\ _validate_pan_format pan = true
      /\ exists cid c,
           MockData.lookup_by_pan db pan = Some (cid, c)
           /\ MockData.c_employment_type c = employment_type
           /\ (contains (lower name) (lower (MockData.c_name c))
               || contains (lower (MockData.c_name c)) (lower name)) = true.
Proof.
  intros _ _ _ _.
  intros name0 pan0 et0. unfold execute. fold name0 pan0 et0.
  assert (Hvalid : _validate_pan_format pan0 = true -> pan0 <> "").
  { intros H ->. discriminate H. }
  destruct (String.eqb_spec name0 "") as [En|En]; cbn [orb].
  { split; [intros (out & [=] & _)|intros (H & _); contradiction]. }
  destruct (String.eqb_spec pan0 "") as [Ep|Ep]; cbn [orb].
  { split; [intros (out & [=] & _)|]. intros (_ & _ & H & _). now apply Hvalid in H. }
  destruct (String.eqb_spec et0 "") as [Ee|Ee].
  { split; [intros (out & [=] & _)|intros (_ & H & _); contradiction]. }
  destruct (_validate_pan_format pan0) eqn:Ev; cbn [negb].
  2:{ split; [intros (out & [= <-] & H); discriminate H|].
      intros (_ & _ & H & _). discriminate H. }
  unfold MockCRMService.verify_customer, MockData.verify_customer.
  destruct (MockData.lookup_by_pan db pan0) as [[cid c]|] eqn:El; cbn [fst].
  2:{ split; [intros (out & [= <-] & H); discriminate H|].
      intros (_ & _ & _ & cid & c & [=] & _). }
  unfold et0 at 1. rewrite upper_idempotent. fold et0.
  destruct (contains _ _ || contains _ _) eqn:Ec; cbn [andb].
  2:{ cbn [negb fst]. split; [intros (out & [= <-] & H); discriminate H|].
      intros (_ & _ & _ & cid' & c' & [= <- <-] & _ & H). congruence. }
  destruct (String.eqb_spec (MockData.c_employment_type c) et0) as [Em|Em];
    cbn [negb fst].
  - split; [|intros _; eexists; split; reflexivity].
    intros _. repeat split; try assumption. exists cid, c. auto.
  - split; [intros (out & [= <-] & H); discriminate H|].
    intros (_ & _ & _ & cid' & c' & [= <- <-] & H & _). contradiction.
Qed.

Lemma verified_iff_witness :
  exists out,
    fst (execute MockData.CRM_DATABASE
           (mkInputData (Some "meera") (Some " yzabc8901d") (Some "Salaried"))
           Fixtures.empty_world) = Ok out
    /\ kyc_status out = KYC_VERIFIED.
Proof.
  apply (verified_iff MockData.CRM_DATABASE
           (mkInputData (Some "meera") (Some " yzabc8901d") (Some "Salaried"))
           Fixtures.empty_world); try reflexivity.
  split; [discriminate|]. split; [discriminate|]. split; [reflexivity|].
  exists "CUST010", (MockData.mkCustomer "Meera Nair" "YZABC8901D" "SALARIED" 20000).
  split; [reflexivity|]. split; reflexivity.
Defined.

End KycAcceptance.
